(** * Swarm orchestration and MCP tool registry: a shallow embedding

    The TypeScript sources embedded here are
    - [src/agents/base-agent.ts]   (class [BaseAgent]),
    - [src/agents/router-agent.ts] (class [RouterAgent]),
    - [swarm.ts]                   (classes [MessageBus], [SwarmOrchestrator]),
    - [mcp-client.ts]              ([getPrefixedName], class [MCPClientManager]),
    - [agent.ts]                   (the tool dispatch of [GeminiAgent.act]),
    - [memory.ts]                  (class [MemoryManager]),
    - [tools/test-tool.ts]         ([reverseText]).

    Strings are Rocq strings: a JavaScript string is a sequence of UTF-16 code
    units, and the embedding covers the strings whose code units are below 256,
    one [ascii] per code unit.  The language model and the wall clock are
    external: they enter as an explicit [World]; so do the MCP SDK and the
    file system, as what their calls come to. *)

From Stdlib Require Import ZArith Lia Ascii DecimalString.
From stdpp Require Import base option list strings gmap.

Open Scope Z_scope.
Open Scope nat_scope.
Open Scope stdpp_scope.

(* ===================================================================== *)
(** ** The JavaScript run time the sources rely on *)
(* ===================================================================== *)

Module Js.

(** Completion of a call: a value, or a thrown error (rendered as the text
    that a template literal [`${error}`] gives it). *)
Inductive Completion (A : Type) : Type :=
| Normal (a : A)
| Throw (e : string).
Arguments Normal {A} a.
Arguments Throw {A} e.

Definition bind {A B} (c : Completion A) (k : A → Completion B) : Completion B :=
  match c with
  | Normal a => k a
  | Throw e => Throw e
  end.

Definition nl : string := String "010"%char "".

(** [WhiteSpace] and [LineTerminator] code units below 256, as stripped by
    [String.prototype.trim]. *)
Definition isWhiteSpace (c : ascii) : bool :=
  match c with
  | "009" | "010" | "011" | "012" | "013" | " " | "160" => true
  | _ => false
  end%char.

Fixpoint trimStart (s : string) : string :=
  match s with
  | EmptyString => EmptyString
  | String c s' => if isWhiteSpace c then trimStart s' else s
  end.

Fixpoint trimEnd (s : string) : string :=
  match s with
  | EmptyString => EmptyString
  | String c s' =>
      match trimEnd s' with
      | EmptyString => if isWhiteSpace c then EmptyString else String c EmptyString
      | t => String c t
      end
  end.

(** [s.trim()] *)
Definition trim (s : string) : string := trimEnd (trimStart s).

(** [s.startsWith(p)] *)
Definition startsWith (s p : string) : bool := String.prefix p s.

(** [s.includes(word)] *)
Fixpoint includes (s word : string) : bool :=
  String.prefix word s ||
  match s with
  | EmptyString => false
  | String _ s' => includes s' word
  end.

(** [s.split(sep)] for a one-character separator: all the pieces, the empty
    ones too; [''.split(sep)] is [['']]. *)
Fixpoint split (sep : ascii) (s : string) : list string :=
  match s with
  | EmptyString => [EmptyString]
  | String c s' =>
      if Ascii.eqb c sep then EmptyString :: split sep s'
      else match split sep s' with
           | piece :: rest => String c piece :: rest
           | [] => [String c EmptyString]
           end
  end.

(** [s.split(sep, limit)]: the first [limit] pieces; what follows them is
    discarded, not glued to the last piece. *)
Definition splitLimit (sep : ascii) (limit : nat) (s : string) : list string :=
  take limit (split sep s).

(** [String.prototype.toLowerCase] on code units below 256: the letters
    A-Z and the Latin-1 capitals 192-222 (215, the multiplication sign,
    apart) move up by 32. *)
Definition lowerChar (c : ascii) : ascii :=
  let n := nat_of_ascii c in
  if ((65 <=? n) && (n <=? 90)) || ((192 <=? n) && (n <=? 222) && negb (n =? 215))
  then ascii_of_nat (n + 32) else c.

Fixpoint toLowerCase (s : string) : string :=
  match s with
  | EmptyString => EmptyString
  | String c s' => String (lowerChar c) (toLowerCase s')
  end.

(** Truthiness of a string: every string but the empty one. *)
Definition truthy (s : string) : bool :=
  match s with EmptyString => false | _ => true end.

(** [a || b] on strings. *)
Definition orElse (a b : string) : string := if truthy a then a else b.

(** [`${n}`] for a non-negative integer. *)
Definition showNat (n : nat) : string := NilZero.string_of_uint (Nat.to_uint n).

Definition digit (n : Z) : ascii := ascii_of_nat (48 + Z.to_nat (n mod 10)).

(** The last [width] decimal digits of [n], zero padded. *)
Fixpoint fixedWidth (width : nat) (n : Z) : string :=
  match width with
  | O => EmptyString
  | S w => fixedWidth w (n / 10) +:+ String (digit n) EmptyString
  end.

(** The proleptic Gregorian calendar by cycles of 400 years (146097 days)
    that start on a first of March: the year of the cycle for a day of the
    cycle, the day of that year, the month of the year (0 for March) and the
    day of the month for a day of the year. *)
Definition yearOfEra (doe : Z) : Z :=
  ((doe - doe / 1460 + doe / 36524 - doe / 146096) / 365)%Z.
Definition dayOfYear (doe : Z) : Z :=
  (doe - (365 * yearOfEra doe + yearOfEra doe / 4 - yearOfEra doe / 100))%Z.
Definition monthIndex (doy : Z) : Z := ((5 * doy + 2) / 153)%Z.
Definition dayOfMonth (doy : Z) : Z := (doy - (153 * monthIndex doy + 2) / 5 + 1)%Z.

(** Year, month and day for a day number counted from 1970-01-01. *)
Definition yearMonthDay (days : Z) : Z * Z * Z :=
  let z := (days + 719468)%Z in
  let era := (z / 146097)%Z in
  let doe := (z - era * 146097)%Z in
  let mp := monthIndex (dayOfYear doe) in
  let m := (if mp <? 10 then mp + 3 else mp - 9)%Z in
  let y := (yearOfEra doe + era * 400 + (if m <=? 2 then 1 else 0))%Z in
  (y, m, dayOfMonth (dayOfYear doe)).

Definition showYear (y : Z) : string :=
  if ((0 <=? y) && (y <=? 9999))%Z then fixedWidth 4 y
  else (if (y <? 0)%Z then "-" else "+") +:+ fixedWidth 6 (Z.abs y).

(** [new Date(t).toISOString()] for the time value [t], in milliseconds
    since the epoch: [YYYY-MM-DDTHH:mm:ss.sssZ]. *)
Definition toISOString (t : Z) : string :=
  let days := (t / 86400000)%Z in
  let ms := (t mod 86400000)%Z in
  let '(y, m, d) := yearMonthDay days in
  showYear y +:+ "-" +:+ fixedWidth 2 m +:+ "-" +:+ fixedWidth 2 d +:+ "T" +:+
  fixedWidth 2 (ms / 3600000) +:+ ":" +:+ fixedWidth 2 (ms / 60000 mod 60) +:+ ":" +:+
  fixedWidth 2 (ms / 1000 mod 60) +:+ "." +:+ fixedWidth 3 (ms mod 1000) +:+ "Z".

(** The property names every object literal inherits from
    [Object.prototype]: a read [obj[name]] of one of them that is not an own
    property yields the inherited built-in (a function, or the prototype
    itself for [__proto__]), which is truthy. *)
Definition objectPrototypeKeys : list string :=
  [ "constructor"; "hasOwnProperty"; "isPrototypeOf"; "propertyIsEnumerable";
    "toLocaleString"; "toString"; "valueOf"; "__proto__";
    "__defineGetter__"; "__defineSetter__"; "__lookupGetter__"; "__lookupSetter__" ].

(** What [obj[name]] finds in an object literal used as a map. *)
Inductive Property (A : Type) : Type :=
| Own (a : A)
| Inherited
| Undefined.
Arguments Own {A} a.
Arguments Inherited {A}.
Arguments Undefined {A}.

Definition getProperty {A} (obj : gmap string A) (name : string) : Property A :=
  match obj !! name with
  | Some a => Own a
  | None => if bool_decide (name ∈ objectPrototypeKeys) then Inherited else Undefined
  end.

End Js.

Notation "'let*' x ':=' c 'in' k" := (Js.bind c (fun x => k))
  (at level 10, x name, c at level 100, k at level 200).

(* ===================================================================== *)
(** ** src/agents/base-agent.ts *)
(* ===================================================================== *)

(** [interface Message] of swarm.ts; [BaseAgent.execute] reads the [from] and
    [content] of the messages of its context. *)
Module Message.
Record t := mk {
  from : string;
  to : string;
  type : string;
  content : string;
  timestamp : string;
}.
End Message.

Module BaseAgent.
Import Js.

(** What [generateContent] resolves to, as far as [execute] inspects it:
    [result.text] when it is truthy, else [result.response], else the
    object itself, through [JSON.stringify].  The inner completion is that
    of [text().trim] (or of [JSON.stringify]). *)
Inductive GenerateResult :=
| WithText (text : Completion string)
| WithResponse (text : Completion string)
| Bare (json : Completion string).

(** The client the constructor installs: the dummy one (tests, or no
    credentials, or a failed initialisation) or the GenAI one. *)
Inductive Client := DummyClient | GenAIClient.

Record HistoryEntry := mkEntry { h_role : string; h_content : string }.

Record t := mk {
  role : string;
  systemPrompt : string;
  conversationHistory : list HistoryEntry;
  model : option Client;
}.

(** The constructor, the choice of client made. *)
Definition new (role systemPrompt : string) (client : Client) : t :=
  mk role systemPrompt [] (Some client).

(** [this.model.models.generateContent(...)]: the dummy client answers by
    itself, the GenAI client asks the remote service. *)
Definition generateContent (remote : string -> Completion GenerateResult)
    (a : t) (client : Client) (prompt : string) : Completion GenerateResult :=
  match client with
  | DummyClient => Normal (WithText (Normal ("[" +:+ role a +:+ "] Task completed")))
  | GenAIClient => remote prompt
  end.

(** [result.text ? result.text().trim()
      : (result.response ? result.response.text().trim() : JSON.stringify(result))] *)
Definition outputOf (result : GenerateResult) : Completion string :=
  match result with
  | WithText text => let* s := text in Normal (trim s)
  | WithResponse text => let* s := text in Normal (trim s)
  | Bare json => json
  end.

Definition renderContext (context : list Message.t) : string :=
  fold_left
    (fun contextStr msg =>
       contextStr +:+ "[" +:+ orElse (Message.from msg) "unknown" +:+ "]: " +:+
       orElse (Message.content msg) "" +:+ nl)
    context
    (nl +:+ nl +:+ "Context from other agents:" +:+ nl).

(** [promptParts.join('')] *)
Definition fullPrompt (a : t) (task : string) (context : option (list Message.t)) : string :=
  let promptParts := [systemPrompt a; nl +:+ nl +:+ "Task: " +:+ task] in
  let promptParts :=
    match context with
    | Some ((_ :: _) as msgs) => promptParts ++ [renderContext msgs]
    | _ => promptParts
    end in
  String.concat "" promptParts.

(** The body of the [try] block up to [output]. *)
Definition modelOutput (remote : string -> Completion GenerateResult)
    (a : t) (client : Client) (prompt : string) : Completion string :=
  let* result := generateContent remote a client prompt in
  outputOf result.

(** [execute(task, context)]: the agent after the call, and the text returned. *)
Definition execute (remote : string -> Completion GenerateResult)
    (a : t) (task : string) (context : option (list Message.t)) : t * string :=
  let prompt := fullPrompt a task context in
  match model a with
  | None => (a, "[" +:+ role a +:+ "] Error: Model not initialized")
  | Some client =>
      match modelOutput remote a client prompt with
      | Normal output =>
          (mk (role a) (systemPrompt a)
              (conversationHistory a ++ [mkEntry "user" task; mkEntry "assistant" output])
              (model a),
           output)
      | Throw error => (a, "[" +:+ role a +:+ "] Error executing task: " +:+ error)
      end
  end.

Definition resetHistory (a : t) : t := mk (role a) (systemPrompt a) [] (model a).

End BaseAgent.

(* ===================================================================== *)
(** ** src/agents/router-agent.ts: the delegation plan *)
(* ===================================================================== *)

Module Router.
Import Js.

Record Delegation := mkDelegation { agent : string; task : string }.

(** [Partial<Delegation>]: either field may be missing. *)
Record PartialDelegation := mkPartial { p_agent : option string; p_task : option string }.

Definition present (o : option string) : bool :=
  match o with Some s => truthy s | None => false end.

(** [if (cur.agent && cur.task) delegations.push(cur as Delegation)] *)
Definition pushIfComplete (cur : PartialDelegation) (delegations : list Delegation)
  : list Delegation :=
  match p_agent cur, p_task cur with
  | Some a, Some t =>
      if truthy a && truthy t then delegations ++ [mkDelegation a t] else delegations
  | _, _ => delegations
  end.

(** [line.split(':', 2)[1].trim()]; reading [.trim] of a missing second
    piece is a TypeError. *)
Definition fieldOf (line : string) : Completion string :=
  match splitLimit ":" 2 line !! 1 with
  | Some piece => Normal (trim piece)
  | None => Throw "TypeError: Cannot read properties of undefined (reading 'trim')"
  end.

Definition isAgentLine (line : string) : bool := startsWith (trim line) "- agent:".
Definition isTaskLine (line : string) : bool := startsWith (trim line) "- task:".

(** One turn of the [for (let line of lines)] loop of [analyzeAndDelegate]. *)
Definition parseLine (st : PartialDelegation * list Delegation) (line0 : string)
  : Completion (PartialDelegation * list Delegation) :=
  let '(cur, delegations) := st in
  let line := trim line0 in
  if startsWith line "- agent:" then
    let delegations' := pushIfComplete cur delegations in
    let* a := fieldOf line in
    Normal (mkPartial (Some a) None, delegations')
  else if startsWith line "- task:" && present (p_agent cur) then
    let* t := fieldOf line in
    Normal (mkPartial (p_agent cur) (Some t), delegations)
  else Normal st.

Fixpoint parseLoop (lines : list string) (st : PartialDelegation * list Delegation)
  : Completion (PartialDelegation * list Delegation) :=
  match lines with
  | [] => Normal st
  | line :: rest => let* st' := parseLine st line in parseLoop rest st'
  end.

(** The loop over the lines, then the flush of a complete pending delegation. *)
Definition parseLines (lines : list string) : Completion (list Delegation) :=
  let* st := parseLoop lines (mkPartial None None, []) in
  Normal (pushIfComplete (fst st) (snd st)).

(** Lines 52-71: the delegations read from the planning response. *)
Definition parseDelegations (analysis : string) : Completion (list Delegation) :=
  parseLines (split "010" analysis).

Definition codeWords : list string :=
  ["code"; "implement"; "build"; "create"; "write"; "function"].
Definition reviewWords : list string :=
  ["review"; "check"; "security"; "quality"; "analyze"].
Definition researchWords : list string :=
  ["research"; "search"; "find"; "information"; "learn"].

(** [words.some((word) => taskLower.includes(word))] *)
Definition someIncluded (words : list string) (taskLower : string) : bool :=
  existsb (includes taskLower) words.

(** [simpleDelegate]: the keyword fallback. *)
Definition simpleDelegate (task : string) : list Delegation :=
  let taskLower := toLowerCase task in
  let delegations := [] in
  let delegations :=
    if someIncluded codeWords taskLower
    then delegations ++ [mkDelegation "coder" task] else delegations in
  let delegations :=
    if someIncluded reviewWords taskLower
    then delegations ++ [mkDelegation "reviewer" task] else delegations in
  let delegations :=
    if someIncluded researchWords taskLower
    then delegations ++ [mkDelegation "researcher" task] else delegations in
  if length delegations =? 0
  then delegations ++ [mkDelegation "coder" task] else delegations.

(** Lines 52-78 of [analyzeAndDelegate], from the text [analysis] that
    [this.execute(userTask)] returned. *)
Definition delegationsFrom (analysis userTask : string) : Completion (list Delegation) :=
  let* delegations := parseDelegations analysis in
  if length delegations =? 0 then Normal (simpleDelegate userTask)
  else Normal delegations.

Definition systemPrompt : string :=
"You are the Router Agent, the coordinator of a multi-agent system.

Your responsibilities:
1. Analyze user tasks and determine which specialist agents to involve
2. Break down complex tasks into subtasks for different specialists
3. Coordinate the workflow between agents
4. Synthesize final results from multiple specialists

Available specialist agents:
- coder: Writes and refactors code, creates files, implements features
- reviewer: Reviews code quality, checks for security issues, analyzes logs
- researcher: Gathers information, performs web searches, analyzes data

When analyzing a task, respond with a delegation plan in this format:
DELEGATION:
- agent: <agent_name>
- task: <specific task for that agent>

You may delegate to multiple agents in sequence or parallel.".

(** [new RouterAgent()] *)
Definition new (client : BaseAgent.Client) : BaseAgent.t :=
  BaseAgent.new "router" systemPrompt client.

(** [analyzeAndDelegate(userTask)]: the router after the planning call, and
    the delegation plan. *)
Definition analyzeAndDelegate (remote : string -> Completion BaseAgent.GenerateResult)
    (router : BaseAgent.t) (userTask : string)
  : BaseAgent.t * Completion (list Delegation) :=
  let '(router', analysis) := BaseAgent.execute remote router userTask None in
  (router', delegationsFrom analysis userTask).

(** [results[i] || 'No result'] *)
Definition resultOr (results : list string) (i : nat) : string :=
  match results !! i with
  | Some r => orElse r "No result"
  | None => "No result"
  end.

(** The [forEach] of [synthesizeResults], from index [i] on. *)
Fixpoint synthesisEntries (i : nat) (delegations : list Delegation)
    (results : list string) (synthesisPrompt : string) : string :=
  match delegations with
  | [] => synthesisPrompt
  | delegation :: rest =>
      let synthesisPrompt :=
        synthesisPrompt +:+ showNat (i + 1) +:+ ". [" +:+ agent delegation +:+ "] " +:+
        task delegation +:+ nl in
      let synthesisPrompt :=
        synthesisPrompt +:+ "   Result: " +:+ resultOr results i +:+ nl +:+ nl in
      synthesisEntries (S i) rest results synthesisPrompt
  end.

Definition synthesisPrompt (delegations : list Delegation) (results : list string) : string :=
  synthesisEntries 0 delegations results
    ("Synthesize a final response based on the following agent outputs:" +:+ nl +:+ nl)
  +:+ "Provide a concise final report summarizing what was accomplished.".

(** [synthesizeResults(delegations, results)] *)
Definition synthesizeResults (remote : string -> Completion BaseAgent.GenerateResult)
    (router : BaseAgent.t) (delegations : list Delegation) (results : list string)
  : BaseAgent.t * string :=
  BaseAgent.execute remote router (synthesisPrompt delegations results) None.

End Router.

(** The specialists of src/agents: a role and a system instruction each. *)
Module CoderAgent.
Definition systemPrompt : string :=
"You are the Coder Agent, a specialist in software engineering.

Your responsibilities:
1. Write clean, efficient, and well-documented code
2. Refactor existing code for better performance and readability
3. Implement new features based on requirements
4. Debug and fix issues

Focus on technical accuracy and best practices. When writing code, provide the complete implementation.".
Definition new (client : BaseAgent.Client) : BaseAgent.t :=
  BaseAgent.new "coder" systemPrompt client.
End CoderAgent.

Module ReviewerAgent.
Definition systemPrompt : string :=
"You are the Reviewer Agent, a specialist in code quality and security.

Your responsibilities:
1. Review code for bugs, security vulnerabilities, and performance issues
2. Ensure code follows style guidelines and best practices
3. Analyze logs and error messages to diagnose problems
4. Suggest improvements for maintainability and scalability

Be thorough and critical in your analysis. Point out potential pitfalls.".
Definition new (client : BaseAgent.Client) : BaseAgent.t :=
  BaseAgent.new "reviewer" systemPrompt client.
End ReviewerAgent.

Module ResearcherAgent.
Definition systemPrompt : string :=
"You are the Researcher Agent, a specialist in information gathering.

Your responsibilities:
1. Research topics to provide context for coding tasks
2. Search for libraries, tools, and best practices
3. Analyze data and summarize findings
4. verify assumptions and requirements

Provide clear, sourced information to support technical decisions.".
Definition new (client : BaseAgent.Client) : BaseAgent.t :=
  BaseAgent.new "researcher" systemPrompt client.
End ResearcherAgent.

(* ===================================================================== *)
(** ** swarm.ts *)
(* ===================================================================== *)

Module MessageBus.
Import Js.

Record t := mk { messages : list Message.t }.

Definition empty : t := mk [].

(** [send(fromAgent, toAgent, messageType, content)], with [now] the time
    value that [new Date()] reads. *)
Definition send (now : Z) (bus : t) (fromAgent toAgent messageType content : string) : t :=
  let message := Message.mk fromAgent toAgent messageType content (toISOString now) in
  mk (messages bus ++ [message]).

(** [getContextFor(agentName)] *)
Definition getContextFor (bus : t) (agentName : string) : list Message.t :=
  filter (fun msg => Message.to msg = agentName \/ Message.from msg = agentName)
         (messages bus).

Definition getAllMessages (bus : t) : list Message.t := messages bus.

Definition clear (bus : t) : t := mk [].
End MessageBus.

Module Swarm.
Import Js Router.

(** What the run does not control: the successive readings of the wall
    clock, and what the remote model service does with the request of the
    k-th call of [BaseAgent.execute]. *)
Record World := mkWorld {
  wallClock : nat -> Z;
  genai : nat -> string -> Completion BaseAgent.GenerateResult;
}.

Record SwarmOrchestrator := mkSwarm {
  messageBus : MessageBus.t;
  router : BaseAgent.t;
  workers : gmap string BaseAgent.t;
}.

(** [new SwarmOrchestrator()] *)
Definition new (client : BaseAgent.Client) : SwarmOrchestrator :=
  mkSwarm MessageBus.empty (Router.new client)
    (<["researcher" := ResearcherAgent.new client]>
       (<["reviewer" := ReviewerAgent.new client]>
          (<["coder" := CoderAgent.new client]> ∅))).

(** The orchestrator together with how much of the world it has consumed. *)
Record Run := mkRun {
  swarm : SwarmOrchestrator;
  clockReads : nat;
  modelCalls : nat;
}.

Definition start (o : SwarmOrchestrator) : Run := mkRun o 0 0.

(** An asynchronous method: it changes the run and resolves or rejects. *)
Definition M (A : Type) : Type := Run -> Completion A * Run.

Definition ret {A} (a : A) : M A := fun r => (Normal a, r).
Definition throw {A} (e : string) : M A := fun r => (Throw e, r).
Definition bindM {A B} (m : M A) (k : A -> M B) : M B :=
  fun r =>
    match m r with
    | (Normal a, r') => k a r'
    | (Throw e, r') => (Throw e, r')
    end.

Notation "'await' x ':=' c 'in' k" := (bindM c (fun x => k))
  (at level 10, x name, c at level 100, k at level 200).

Section Execute.
Variable w : World.

(** [this.messageBus.send(...)] *)
Definition send (fromAgent toAgent messageType content : string) : M unit :=
  fun r =>
    let o := swarm r in
    let bus := MessageBus.send (wallClock w (clockReads r)) (messageBus o)
                 fromAgent toAgent messageType content in
    (Normal tt, mkRun (mkSwarm bus (router o) (workers o)) (S (clockReads r)) (modelCalls r)).

(** [this.messageBus.getContextFor(agentName)] *)
Definition getContextFor (agentName : string) : M (list Message.t) :=
  fun r => (Normal (MessageBus.getContextFor (messageBus (swarm r)) agentName), r).

(** [this.workers[agentName]] *)
Definition getWorker (agentName : string) : M (Property BaseAgent.t) :=
  fun r => (Normal (getProperty (workers (swarm r)) agentName), r).

(** [worker.execute(agentTask, context)] on the worker object stored under
    [agentName]: the object is updated in place. *)
Definition workerExecute (agentName : string) (worker : BaseAgent.t)
    (agentTask : string) (context : list Message.t) : M string :=
  fun r =>
    let o := swarm r in
    let '(worker', result) :=
      BaseAgent.execute (genai w (modelCalls r)) worker agentTask (Some context) in
    (Normal result,
     mkRun (mkSwarm (messageBus o) (router o) (<[agentName := worker']> (workers o)))
           (clockReads r) (S (modelCalls r))).

(** [this.router.analyzeAndDelegate(userTask)] *)
Definition analyzeAndDelegate (userTask : string) : M (list Delegation) :=
  fun r =>
    let o := swarm r in
    let '(router', delegations) :=
      Router.analyzeAndDelegate (genai w (modelCalls r)) (router o) userTask in
    (delegations,
     mkRun (mkSwarm (messageBus o) router' (workers o)) (clockReads r) (S (modelCalls r))).

(** [this.router.synthesizeResults(delegations, results)] *)
Definition synthesizeResults (delegations : list Delegation) (results : list string)
  : M string :=
  fun r =>
    let o := swarm r in
    let '(router', finalResult) :=
      Router.synthesizeResults (genai w (modelCalls r)) (router o) delegations results in
    (Normal finalResult,
     mkRun (mkSwarm (messageBus o) router' (workers o)) (clockReads r) (S (modelCalls r))).

(** One turn of the loop of step 2 of [execute] (the console output left
    out): the results after the turn.  A value found on the prototype
    chain passes the [!worker] test and has no [execute] method. *)
Definition delegate (delegation : Delegation) (results : list string) : M (list string) :=
  let agentName := agent delegation in
  let agentTask := task delegation in
  await _ := send "router" agentName "task" agentTask in
  await worker := getWorker agentName in
  match worker with
  | Undefined =>
      let result := "Error: Unknown agent '" +:+ agentName +:+ "'" in
      ret (results ++ [result])
  | Inherited =>
      await context := getContextFor agentName in
      throw "TypeError: worker.execute is not a function"
  | Own worker =>
      await context := getContextFor agentName in
      await result := workerExecute agentName worker agentTask context in
      let results := results ++ [result] in
      await _ := send agentName "router" "result" result in
      ret results
  end.

(** [for (const [i, delegation] of delegations.entries())] *)
Fixpoint runDelegations (delegations : list Delegation) (results : list string)
  : M (list string) :=
  match delegations with
  | [] => ret results
  | delegation :: rest =>
      await results' := delegate delegation results in
      runDelegations rest results'
  end.

(** [execute(userTask)] *)
Definition execute (userTask : string) : M string :=
  await delegations := analyzeAndDelegate userTask in
  await results := runDelegations delegations [] in
  synthesizeResults delegations results.

End Execute.

(** The states that one turn of the loop goes through. *)
Section Turn.
Variable w : World.

(** The task message that [delegate] records for a delegation. *)
Definition taskMessage (r : Run) (d : Delegation) : Message.t :=
  Message.mk "router" (agent d) "task" (task d) (toISOString (wallClock w (clockReads r))).

(** The bus once the task message is recorded. *)
Definition busWithTask (r : Run) (d : Delegation) : MessageBus.t :=
  MessageBus.send (wallClock w (clockReads r)) (messageBus (swarm r))
    "router" (agent d) "task" (task d).

(** The run after the turn of a delegation to a registered worker. *)
Definition afterWorker (r : Run) (d : Delegation) (worker' : BaseAgent.t) (result : string)
  : Run :=
  mkRun
    (mkSwarm
       (MessageBus.send (wallClock w (S (clockReads r))) (busWithTask r d)
          (agent d) "router" "result" result)
       (router (swarm r))
       (<[agent d := worker']> (workers (swarm r))))
    (S (S (clockReads r))) (S (modelCalls r)).

(** The run after the turn of a delegation that finds no worker. *)
Definition afterTask (r : Run) (d : Delegation) : Run :=
  mkRun (mkSwarm (busWithTask r d) (router (swarm r)) (workers (swarm r)))
        (S (clockReads r)) (modelCalls r).

End Turn.

Definition getMessageLog (o : SwarmOrchestrator) : list Message.t :=
  MessageBus.getAllMessages (messageBus o).

Definition reset (o : SwarmOrchestrator) : SwarmOrchestrator :=
  mkSwarm (MessageBus.clear (messageBus o)) (BaseAgent.resetHistory (router o))
          (BaseAgent.resetHistory <$> workers o).

End Swarm.

(* ===================================================================== *)
(** ** mcp-client.ts *)
(* ===================================================================== *)

(** [MCPServerConfig] of config.ts. *)
Module MCPServerConfig.
Record t := mk {
  name : string;
  transport : string;
  command : option string;
  args : list string;
  url : option string;
  env : list (string * string);
  enabled : bool;
}.
End MCPServerConfig.

Module MCPTool.
(** [inputSchema] is kept as the JSON text of the schema object. *)
Record t := mk {
  name : string;
  description : string;
  serverName : string;
  inputSchema : string;
  originalName : string;
}.
End MCPTool.

Module McpClient.
Import Js.

(** [getPrefixedName(tool, prefix = '')] *)
Definition getPrefixedName (tool : MCPTool.t) (prefix : string) : string :=
  if truthy prefix
  then prefix +:+ MCPTool.serverName tool +:+ "_" +:+ MCPTool.originalName tool
  else MCPTool.serverName tool +:+ "_" +:+ MCPTool.originalName tool.

(** One element of [result.content]. *)
Record ContentItem := mkItem { text : option string; data : option string }.

(** What [callTool] resolves to: [content] is [Some] when [result.content]
    is an array. *)
Record CallToolResult := mkResult { content : option (list ContentItem) }.

(** What [listTools] reports for one tool. *)
Record ListedTool := mkListed {
  l_name : string;
  l_description : option string;
  l_inputSchema : option string;
}.

Section Manager.
(** The type of the argument objects handed to a tool. *)
Context {Args : Type}.

(** The session of an SDK client, as far as the manager uses it. *)
Record Session := mkSession {
  listTools : Completion (list ListedTool);
  callTool : string -> Args -> Completion CallToolResult;
}.

(** [MCPServerConnection]; [readStream], [writeStream] and [clientCm] are
    never assigned and left out. *)
Record MCPServerConnection := mkConnection {
  config : MCPServerConfig.t;
  session : option Session;
  tools : list MCPTool.t;
  connected : bool;
  error : option string;
}.

(** The manager; [servers] is a [Map], kept in insertion order. *)
Record MCPClientManager := mkManager {
  configPath : string;
  servers : list (string * MCPServerConnection);
  toolPrefix : string;
  initialized : bool;
}.

(** [discoverTools(connection)] *)
Definition discoverTools (connection : MCPServerConnection) : MCPServerConnection :=
  match session connection with
  | None => connection
  | Some client =>
      match listTools client with
      | Normal listed =>
          let discovered :=
            map (fun tool =>
                   MCPTool.mk (l_name tool)
                     (match l_description tool with
                      | Some d => orElse d "No description provided"
                      | None => "No description provided"
                      end)
                     (MCPServerConfig.name (config connection))
                     (default "{}" (l_inputSchema tool))
                     (l_name tool))
                listed in
          mkConnection (config connection) (session connection)
            (tools connection ++ discovered) (connected connection) (error connection)
      | Throw _ => connection
      end
  end.

(** [getAllTools()] *)
Definition getAllTools (m : MCPClientManager) : list MCPTool.t :=
  fold_left
    (fun allTools entry =>
       let connection := snd entry in
       if connected connection then allTools ++ tools connection else allTools)
    (servers m) [].

(** The closure that [createToolWrapper] returns: the connection and the
    tool it captures. *)
Record ToolWrapper := createToolWrapper {
  w_connection : MCPServerConnection;
  w_tool : MCPTool.t;
}.

Definition presentText (o : option string) : bool :=
  match o with Some s => truthy s | None => false end.

(** The loop over [result.content]. *)
Fixpoint extractContents (items : list ContentItem) (contents : list string) : list string :=
  match items with
  | [] => contents
  | item :: rest =>
      let contents :=
        if presentText (text item) then contents ++ [default "" (text item)]
        else if presentText (data item)
             then contents ++
                  ["[Binary data: " +:+
                   showNat (String.length (default "" (data item))) +:+ " bytes]"]
             else contents in
      extractContents rest contents
  end.

(** Calling the wrapper: the body of the closure. *)
Definition callWrapper (wrapper : ToolWrapper) (args : Args) : string :=
  let connection := w_connection wrapper in
  let tool := w_tool wrapper in
  match connected connection, session connection with
  | true, Some client =>
      match callTool client (MCPTool.originalName tool) args with
      | Normal result =>
          match content result with
          | Some items =>
              let contents := extractContents items [] in
              if 0 <? length contents then String.concat nl contents
              else "[object Object]"
          | None => "[object Object]"
          end
      | Throw error =>
          "Error calling MCP tool '" +:+ MCPTool.originalName tool +:+ "': " +:+ error
      end
  | _, _ =>
      "Error: MCP server '" +:+ MCPServerConfig.name (config connection) +:+
      "' is not connected"
  end.

(** The inner loop of [getAllToolsAsCallables]. *)
Definition registerTools (prefix : string) (connection : MCPServerConnection)
    (callables : gmap string ToolWrapper) : gmap string ToolWrapper :=
  fold_left
    (fun callables tool =>
       let prefixedName := getPrefixedName tool prefix in
       <[prefixedName := createToolWrapper connection tool]> callables)
    (tools connection) callables.

(** [getAllToolsAsCallables()] *)
Definition getAllToolsAsCallables (m : MCPClientManager) : gmap string ToolWrapper :=
  fold_left
    (fun callables entry =>
       let connection := snd entry in
       if negb (connected connection) then callables
       else registerTools (toolPrefix m) connection callables)
    (servers m) ∅.

End Manager.
Arguments Session : clear implicits.
Arguments MCPServerConnection : clear implicits.
Arguments MCPClientManager : clear implicits.
Arguments ToolWrapper : clear implicits.

End McpClient.

(** The life cycle of the manager: [initialize], [connectServer] with its
    transports, and [shutdown]. *)
Module McpLifecycle.
Import Js McpClient.

Section Lifecycle.
Context {Args : Type}.

(** What the SDK part of a connection attempt comes to: the connected
    client, or the message of what was thrown ([error.message] of an
    [Error], [String(error)] of anything else). *)
Inductive Attempt :=
| Connected (client : Session Args)
| Failed (errorMessage : string).

(** The SDK at one call of [connectServer]: the message of what the dynamic
    imports throw, if they throw, and what building the transport and
    [client.connect(transport)] come to for a configuration. *)
Record Sdk := mkSdk {
  importStdio : option string;
  connectStdioTransport : MCPServerConfig.t -> Attempt;
  importHttp : option string;
  connectHttpTransport : MCPServerConfig.t -> Attempt;
}.

(** The [catch] of [connectStdio] and [connectHttp]: the connection with
    the message recorded, and the message of the error thrown again. *)
Definition failed (connection : MCPServerConnection Args) (errorMessage : string)
  : MCPServerConnection Args * option string :=
  (mkConnection (config connection) (session connection) (tools connection) false
     (Some errorMessage),
   Some errorMessage).

(** [connection.session = client; connection.connected = true] *)
Definition established (connection : MCPServerConnection Args) (client : Session Args)
  : MCPServerConnection Args * option string :=
  (mkConnection (config connection) (Some client) (tools connection) true (error connection),
   None).

(** [connectStdio(connection)]: the connection afterwards, and the message
    of the error thrown, if any. *)
Definition connectStdio (sdk : Sdk) (connection : MCPServerConnection Args)
  : MCPServerConnection Args * option string :=
  match importStdio sdk with
  | Some errorMessage => failed connection errorMessage
  | None =>
      let config := config connection in
      if negb (presentText (MCPServerConfig.command config))
      then failed connection "stdio transport requires 'command' field"
      else
        match connectStdioTransport sdk config with
        | Connected client => established connection client
        | Failed errorMessage => failed connection errorMessage
        end
  end.

(** [connectHttp(connection)] *)
Definition connectHttp (sdk : Sdk) (connection : MCPServerConnection Args)
  : MCPServerConnection Args * option string :=
  match importHttp sdk with
  | Some errorMessage => failed connection errorMessage
  | None =>
      let config := config connection in
      if negb (presentText (MCPServerConfig.url config))
      then failed connection "http transport requires 'url' field"
      else
        match connectHttpTransport sdk config with
        | Connected client => established connection client
        | Failed errorMessage => failed connection errorMessage
        end
  end.

(** [connectSse(connection)] *)
Definition connectSse (sdk : Sdk) (connection : MCPServerConnection Args)
  : MCPServerConnection Args * option string :=
  connectHttp sdk connection.

(** The connection that [connectServer(config)] builds, up to its last
    statement (the console output left out). *)
Definition connect (sdk : Sdk) (config : MCPServerConfig.t) : MCPServerConnection Args :=
  let connection := mkConnection config None [] false None in
  let transport := MCPServerConfig.transport config in
  let '(connection, thrown) :=
    if String.eqb transport "stdio" then connectStdio sdk connection
    else if String.eqb transport "http" || String.eqb transport "streamable-http"
         then connectHttp sdk connection
         else if String.eqb transport "sse" then connectSse sdk connection
              else (connection, Some ("Unsupported transport: " +:+ transport)) in
  match thrown with
  | None =>
      if connected connection && bool_decide (is_Some (session connection))
      then discoverTools connection
      else connection
  | Some errorMessage =>
      mkConnection (McpClient.config connection) (session connection) (tools connection)
        (connected connection) (Some errorMessage)
  end.

(** [Map.prototype.set]: the value of a key that is present is replaced
    where it is, a new key goes to the end. *)
Fixpoint mapSet {V : Type} (key : string) (value : V) (entries : list (string * V))
  : list (string * V) :=
  match entries with
  | [] => [(key, value)]
  | (k, v) :: rest =>
      if String.eqb k key then (k, value) :: rest
      else (k, v) :: mapSet key value rest
  end.

(** [connectServer(config)] *)
Definition connectServer (sdk : Sdk) (m : MCPClientManager Args) (config : MCPServerConfig.t)
  : MCPClientManager Args :=
  let connection := connect sdk config in
  mkManager (configPath m) (mapSet (MCPServerConfig.name config) connection (servers m))
    (toolPrefix m) (initialized m).

(** [for (const config of configs) await this.connectServer(config)], with
    [sdks k] the SDK at the k-th call. *)
Fixpoint connectAll (sdks : nat -> Sdk) (k : nat) (configs : list MCPServerConfig.t)
    (m : MCPClientManager Args) : MCPClientManager Args :=
  match configs with
  | [] => m
  | config :: rest => connectAll sdks (S k) rest (connectServer (sdks k) m config)
  end.

(** [new MCPClientManager(configPath)], with the two settings it reads. *)
Definition new (configPath : option string) (serversConfig toolPrefix : string)
  : MCPClientManager Args :=
  mkManager (match configPath with
             | Some path => orElse path serversConfig
             | None => serversConfig
             end) [] toolPrefix false.

(** [initialize()], with [mcpEnabled] the setting [MCP_ENABLED] and
    [configs] what [loadMCPServerConfigs(this.configPath)] returns. *)
Definition initialize (sdks : nat -> Sdk) (mcpEnabled : bool)
    (configs : list MCPServerConfig.t) (m : MCPClientManager Args) : MCPClientManager Args :=
  if initialized m then m
  else if negb mcpEnabled then m
  else if length configs =? 0 then m
  else
    let m := connectAll sdks 0 configs m in
    mkManager (configPath m) (servers m) (toolPrefix m) true.

(** [shutdown()]: what closing the clients throws is caught. *)
Definition shutdown (m : MCPClientManager Args) : MCPClientManager Args :=
  mkManager (configPath m) [] (toolPrefix m) false.

End Lifecycle.
Arguments Attempt : clear implicits.
Arguments Sdk : clear implicits.

End McpLifecycle.

(* ===================================================================== *)
(** ** agent.ts: the tool dispatch of [GeminiAgent.act] *)
(* ===================================================================== *)

Module GeminiAgent.
Import Js.

Section Dispatch.
Context {Args : Type}.

(** [type ToolFunction = (args: any) => Promise<any> | any], awaited. *)
Definition ToolFunction : Type := Args -> Completion string.

(** A tool of the MCP manager, loaded into [availableTools] by
    [initializeMcp]. *)
Definition ofWrapper (wrapper : McpClient.ToolWrapper Args) : ToolFunction :=
  fun args => Normal (McpClient.callWrapper wrapper args).

(** [initializeMcp]: every callable of the manager is set in
    [availableTools] under its name. *)
Definition loadMcpTools (mcpTools : gmap string (McpClient.ToolWrapper Args))
    (availableTools : gmap string ToolFunction) : gmap string ToolFunction :=
  (ofWrapper <$> mcpTools) ∪ availableTools.

(** Lines 395-406 of [act]: the observation for the tool call
    [toolName(toolArgs)]. *)
Definition observe (availableTools : gmap string ToolFunction)
    (toolName : string) (toolArgs : Args) : Completion string :=
  match availableTools !! toolName with
  | None => Normal ("Requested tool '" +:+ toolName +:+ "' is not registered.")
  | Some toolFn =>
      match toolFn toolArgs with
      | Normal observation => Normal observation
      | Throw error =>
          Normal ("Error executing tool '" +:+ toolName +:+ "': " +:+ error)
      end
  end.

End Dispatch.
Arguments ToolFunction : clear implicits.

End GeminiAgent.

(* ===================================================================== *)
(** ** memory.ts *)
(* ===================================================================== *)

Module MemoryManager.
Import Js.

(** [MemoryEntry]; [metadata] is kept as the JSON text of the object. *)
Record MemoryEntry := mkEntry {
  role : string;
  content : string;
  metadata : string;
}.

Record ContextMessage := mkMessage {
  c_role : string;
  c_content : string;
}.

(** [SummarizerFn], as [getContextWindow] uses its result: it throws, or it
    returns a string ([Some]) or something else ([None]). *)
Definition SummarizerFn : Type :=
  list MemoryEntry -> string -> Completion (option string).

Record t := mk {
  memoryFile : string;
  _memory : list MemoryEntry;
  summary : string;
}.

(** The manager together with the calls of [fs.writeFileSync] made so far,
    each with the payload ([summary] and [history]) that it serialises. *)
Record Run := mkRun {
  manager : t;
  writeCalls : list (string * list MemoryEntry);
}.

(** [Array.prototype.slice] with integer bounds: a negative bound counts
    from the end, and both are clamped to the array. *)
Definition relative (len : nat) (i : Z) : nat :=
  Z.to_nat (if (i <? 0)%Z then Z.max (Z.of_nat len + i) 0 else Z.min i (Z.of_nat len)).

Definition slice {A : Type} (l : list A) (first last : Z) : list A :=
  take (relative (length l) last - relative (length l) first)
       (drop (relative (length l) first) l).

Definition sliceFrom {A : Type} (l : list A) (first : Z) : list A :=
  drop (relative (length l) first) l.

(** [getHistory()] *)
Definition getHistory (m : t) : list MemoryEntry := _memory m.

(** [defaultSummarizer(oldMessages, previousSummary)] *)
Definition defaultSummarizer (oldMessages : list MemoryEntry) (previousSummary : string)
  : string :=
  let lines := [] in
  let lines := if truthy previousSummary then lines ++ [trim previousSummary] else lines in
  let lines :=
    fold_left
      (fun lines message =>
         let role := orElse (role message) "unknown" in
         let content := orElse (content message) "" in
         lines ++ [role +:+ ": " +:+ content])
      oldMessages lines in
  trim (String.concat nl lines).

Definition toContext (m : MemoryEntry) : ContextMessage :=
  mkMessage (role m) (content m).

Section Disk.
(** Whether the k-th call of [fs.writeFileSync] throws, and what. *)
Variable writeFails : nat -> option string.

(** [saveMemory()] *)
Definition saveMemory (r : Run) : Completion unit * Run :=
  let payload := (summary (manager r), _memory (manager r)) in
  let r' := mkRun (manager r) (writeCalls r ++ [payload]) in
  match writeFails (length (writeCalls r)) with
  | None => (Normal tt, r')
  | Some error => (Throw error, r')
  end.

(** [addEntry(role, content, metadata)] *)
Definition addEntry (role content : string) (metadata : option string) (r : Run)
  : Completion unit * Run :=
  let entry := mkEntry role content (default "{}" metadata) in
  let m := manager r in
  saveMemory (mkRun (mk (memoryFile m) (_memory m ++ [entry]) (summary m)) (writeCalls r)).

(** [getContextWindow(systemPrompt, maxMessages, summarizer)], for an
    integer [maxMessages]. *)
Definition getContextWindow (systemPrompt : string) (maxMessages : Z)
    (summarizer : option SummarizerFn) (r : Run) : Completion (list ContextMessage) * Run :=
  if negb (truthy systemPrompt)
  then (Throw "Error: systemPrompt is required to build the context window.", r)
  else if (maxMessages <? 1)%Z
  then (Throw "Error: maxMessages must be at least 1.", r)
  else
    let m := manager r in
    let history := getHistory m in
    let systemMessage := mkMessage "system" systemPrompt in
    if (Z.of_nat (length history) <=? maxMessages)%Z
    then (Normal (systemMessage :: map toContext history), r)
    else
      let summarizerFn :=
        match summarizer with
        | Some fn => fn
        | None => fun oldMessages previousSummary =>
                    Normal (Some (defaultSummarizer oldMessages previousSummary))
        end in
      let messagesToSummarize := slice history 0 (- maxMessages) in
      let recentHistory := sliceFrom history (- maxMessages) in
      match summarizerFn messagesToSummarize (summary m) with
      | Throw _ =>
          (Throw "TypeError: Summarizer must accept two arguments: (oldMessages, previousSummary).",
           r)
      | Normal None => (Throw "Error: Summarizer must return a string.", r)
      | Normal (Some newSummary) =>
          let previousSummary := summary m in
          let r := mkRun (mk (memoryFile m) (_memory m) (trim newSummary)) (writeCalls r) in
          let '(saved, r) :=
            if negb (String.eqb (summary (manager r)) previousSummary)
            then saveMemory r else (Normal tt, r) in
          match saved with
          | Throw error => (Throw error, r)
          | Normal _ =>
              let summaryMessage :=
                mkMessage "system" ("Previous Summary: " +:+ summary (manager r)) in
              (Normal (systemMessage :: summaryMessage :: map toContext recentHistory), r)
          end
      end.

(** [clearMemory()] *)
Definition clearMemory (r : Run) : Completion unit * Run :=
  saveMemory (mkRun (mk (memoryFile (manager r)) [] "") (writeCalls r)).

End Disk.

End MemoryManager.

(* ===================================================================== *)
(** ** tools/test-tool.ts *)
(* ===================================================================== *)

Module TestTool.

(** [text.split('')]: the code units, each a string. *)
Fixpoint units (text : string) : list string :=
  match text with
  | EmptyString => []
  | String c rest => String c EmptyString :: units rest
  end.

(** [reverseText({ text })]: [text.split('').reverse().join('')] *)
Definition reverseText (text : string) : string :=
  String.concat "" (rev (units text)).

End TestTool.

(* ===================================================================== *)
(** ** Scenarios: the concrete inputs that the properties are tried on *)
(* ===================================================================== *)

Module Scenarios.
Import Js Router Swarm McpClient.

(** The planning response of the spec's parsing example. *)
Definition examplePlan : string :=
  "- agent: coder" +:+ nl +:+ "- task: write X" +:+ nl +:+
  "- agent: reviewer" +:+ nl +:+ "- task: review X".

(** The task of the spec's end-to-end scenario. *)
Definition reviewTask : string := "review this function for security issues".

(** A plan with an agent line that no task line follows. *)
Definition orphanPlan : string :=
  "- agent: coder" +:+ nl +:+ "- task: write X" +:+ nl +:+
  "- agent: ghost" +:+ nl +:+ "(no task for this one)" +:+ nl +:+
  "- agent: reviewer" +:+ nl +:+ "- task: review X".

(** Timestamps that grow strictly from each message to the next, in the
    order of [<] on strings. *)
Fixpoint strictlyIncreasing (stamps : list string) : bool :=
  match stamps with
  | t1 :: (t2 :: _) as rest => String.ltb t1 t2 && strictlyIncreasing rest
  | _ => true
  end.

(** The order of dates: by year, then month, then day. *)
Definition dateLt (a b : Z * Z * Z) : Prop :=
  let '(y1, m1, d1) := a in
  let '(y2, m2, d2) := b in
  (y1 < y2 \/ (y1 = y2 /\ (m1 < m2 \/ (m1 = m2 /\ d1 < d2))))%Z.

(** The time values that render with a four-digit year: from
    0000-01-01T00:00:00.000Z to 9999-12-31T23:59:59.999Z. *)
Definition fourDigitYear (t : Z) : Prop :=
  (-62167219200000 <= t < 253402300800000)%Z.

(** A world in which every model request fails. *)
Definition failingWorld : World :=
  mkWorld (fun k => Z.of_nat (1000 + k)) (fun _ _ => Throw "Error: quota exceeded").

(** A world whose model plans one delegation to "constructor", a name that
    is no worker and that every object inherits. *)
Definition inheritedNameWorld : World :=
  mkWorld (fun k => Z.of_nat (1000 + k))
    (fun _ _ => Normal (BaseAgent.WithText
                          (Normal ("- agent: constructor" +:+ nl +:+ "- task: x")))).

(** A world whose model answers every request with the request itself. *)
Definition echoWorld : World :=
  mkWorld (fun k => Z.of_nat (1000 + k))
    (fun _ prompt => Normal (BaseAgent.WithText (Normal prompt))).

(** The run after a first delegation to the coder in that world, and the
    coder as that delegation left it. *)
Definition afterFirstDelegation : Run :=
  snd (delegate echoWorld (Router.mkDelegation "coder" "write X") []
         (start (new BaseAgent.GenAIClient))).

Definition coderAfterFirstDelegation : BaseAgent.t :=
  default (CoderAgent.new BaseAgent.GenAIClient)
    (workers (swarm afterFirstDelegation) !! "coder").

(** Two servers, "a_b" with the tool "c" and "a" with the tool "b_c". *)
Definition toolC : MCPTool.t := MCPTool.mk "c" "first" "a_b" "{}" "c".
Definition toolBC : MCPTool.t := MCPTool.mk "b_c" "second" "a" "{}" "b_c".

Definition echoSession : Session unit :=
  mkSession (Normal []) (fun name _ => Normal (mkResult (Some [mkItem (Some name) None]))).

Definition serverOf (name : string) (tool : MCPTool.t) : MCPServerConnection unit :=
  mkConnection (MCPServerConfig.mk name "stdio" (Some "node") [] None [] true)
               (Some echoSession) [tool] true None.

Definition collidingManager : MCPClientManager unit :=
  mkManager "mcp_servers.json"
    [("a_b", serverOf "a_b" toolC); ("a", serverOf "a" toolBC)] "mcp_" true.

Definition cleanManager : MCPClientManager unit :=
  mkManager "mcp_servers.json"
    [("files", serverOf "files" (MCPTool.mk "read" "reads" "files" "{}" "read"));
     ("web", serverOf "web" (MCPTool.mk "read" "fetches" "web" "{}" "read"))] "mcp_" true.

End Scenarios.

(* ===================================================================== *)
(** ** Notions that the further properties are stated with *)
(* ===================================================================== *)

Module Specs.
Import Js Router.

(** A text that does not start with white space. *)
Definition startsClean (s : string) : Prop :=
  match s with
  | EmptyString => True
  | String c _ => isWhiteSpace c = false
  end.

(** What a field read by [fieldOf] looks like, empty or not. *)
Definition readField (s : string) : Prop :=
  trim s = s /\ includes s ":" = false /\ includes s nl = false.

(** A pending delegation whose fields were read by [fieldOf]. *)
Definition pendingRead (cur : PartialDelegation) : Prop :=
  (forall a, p_agent cur = Some a -> readField a) /\
  (forall t, p_task cur = Some t -> readField t).

(** A field that the plan format carries unchanged: not empty, no white
    space around it, no colon and no line break inside. *)
Definition cleanField (s : string) : Prop :=
  truthy s = true /\ trim s = s /\ includes s ":" = false /\ includes s nl = false.

Definition cleanDelegation (d : Delegation) : Prop :=
  cleanField (agent d) /\ cleanField (task d).

(** The plan format of the router's instruction, for one delegation and for a
    whole plan. *)
Definition planLines (d : Delegation) : list string :=
  ["DELEGATION:"; "- agent: " +:+ agent d; "- task: " +:+ task d].

Definition planText (delegations : list Delegation) : string :=
  String.concat nl (flat_map planLines delegations).

(** The lines that the parser looks at. *)
Definition isPlanLine (line : string) : bool := isAgentLine line || isTaskLine line.

(** A conversation history made of exchanges: a user entry, then the
    assistant entry that answers it. *)
Inductive exchanges : list BaseAgent.HistoryEntry -> Prop :=
| exchanges_nil : exchanges []
| exchanges_cons (task output : string) (rest : list BaseAgent.HistoryEntry) :
    exchanges rest ->
    exchanges (BaseAgent.mkEntry "user" task :: BaseAgent.mkEntry "assistant" output :: rest).

End Specs.

Module RunSpecs.
Import Js Router Swarm.

(** An agent later on: the same role, instruction and client, and a history
    that has only grown, by exchanges if it was made of exchanges. *)
Definition agentKept (a a' : BaseAgent.t) : Prop :=
  BaseAgent.role a' = BaseAgent.role a /\
  BaseAgent.systemPrompt a' = BaseAgent.systemPrompt a /\
  BaseAgent.model a' = BaseAgent.model a /\
  BaseAgent.conversationHistory a `prefix_of` BaseAgent.conversationHistory a' /\
  (Specs.exchanges (BaseAgent.conversationHistory a) ->
   Specs.exchanges (BaseAgent.conversationHistory a')).

(** Messages stamped with the successive clock readings from the reading
    number [first] on. *)
Definition stamped (w : World) (first : nat) (added : list Message.t) : Prop :=
  map Message.timestamp added
  = map (fun k => toISOString (wallClock w k)) (seq first (length added)).

(** A run later on: the log has grown at its end by messages stamped with
    the clock readings consumed, and every agent is kept. *)
Definition advances (w : World) (r r' : Run) : Prop :=
  (exists added,
      MessageBus.messages (messageBus (swarm r'))
      = MessageBus.messages (messageBus (swarm r)) ++ added /\
      stamped w (clockReads r) added /\
      clockReads r' = clockReads r + length added) /\
  modelCalls r <= modelCalls r' /\
  agentKept (router (swarm r)) (router (swarm r')) /\
  forall name,
    option_Forall2 agentKept (workers (swarm r) !! name) (workers (swarm r') !! name).

(** The delegations that find a worker, and those whose agent name is only
    found on the prototype chain. *)
Definition registered (r : Run) (d : Delegation) : bool :=
  bool_decide (is_Some (workers (swarm r) !! agent d)).

Definition inheritedName (r : Run) (d : Delegation) : Prop :=
  getProperty (workers (swarm r)) (agent d) = Inherited.

(** The run after [execute] was called with each of [tasks] in turn, whether
    the calls resolved or rejected. *)
Definition runs (w : World) (tasks : list string) (r : Run) : Run :=
  fold_left (fun r userTask => snd (execute w userTask r)) tasks r.

(** A message without its time: sender, receiver, type and content. *)
Definition summary (m : Message.t) : string * string * string * string :=
  (Message.from m, Message.to m, Message.type m, Message.content m).

(** What the turn of a delegation that completes with [result] leaves in the
    log: the task message, and the result message when a worker ran. *)
Definition turnMessages (r : Run) (d : Delegation) (result : string)
  : list (string * string * string * string) :=
  ("router", agent d, "task", task d) ::
  (if registered r d then [(agent d, "router", "result", result)] else []).

(** A clock that never steps back and stays within the four-digit years. *)
Definition steadyClock (w : World) : Prop :=
  (forall i j, i <= j -> (wallClock w i <= wallClock w j)%Z) /\
  (forall i, Scenarios.fourDigitYear (wallClock w i)).

(** A world whose clock advances by a millisecond for ten readings and then
    stands still, and whose model requests all fail. *)
Definition haltingClockWorld : World :=
  mkWorld (fun k => Z.of_nat (1000 + Nat.min k 10))
    (fun _ _ => Throw "Error: quota exceeded").

End RunSpecs.

Module McpSpecs.
Import Js McpClient McpLifecycle.

Section Settled.
Context {Args : Type}.

(** A connection as [connectServer] leaves it under [name]: it belongs to
    the configuration of that name; it is either connected, with a session
    and no error, or not connected, with no session, no tools and an error
    message; its tools carry its name, a description and their own name as
    the original one. *)
Definition settled (name : string) (c : MCPServerConnection Args) : Prop :=
  MCPServerConfig.name (config c) = name /\
  (if connected c then is_Some (session c) /\ error c = None
   else session c = None /\ tools c = [] /\ is_Some (error c)) /\
  Forall (fun tool => MCPTool.serverName tool = name /\
                      MCPTool.originalName tool = MCPTool.name tool /\
                      truthy (MCPTool.description tool) = true) (tools c).

(** A manager whose servers are all settled, each name once. *)
Definition sound (m : MCPClientManager Args) : Prop :=
  NoDup (map fst (servers m)) /\
  Forall (fun entry => settled (fst entry) (snd entry)) (servers m).

End Settled.

(** [stripPrefix p s]: what follows [p] in [s], when [s] starts with [p]. *)
Fixpoint stripPrefix (p s : string) : option string :=
  match p, s with
  | EmptyString, _ => Some s
  | String _ _, EmptyString => None
  | String c p', String c' s' => if Ascii.eqb c c' then stripPrefix p' s' else None
  end.

(** [straddles t1 t2]: the server name of [t2] is that of [t1] followed by
    "_x", and the tool name of [t1] is "x_" followed by that of [t2], for
    some text x: the underscore that separates the two names of [t1] falls
    inside the server name of [t2]. *)
Definition straddles (t1 t2 : MCPTool.t) : bool :=
  match stripPrefix (MCPTool.serverName t1 +:+ "_") (MCPTool.serverName t2) with
  | Some x => String.eqb (MCPTool.originalName t1) (x +:+ "_" +:+ MCPTool.originalName t2)
  | None => false
  end.

(** A server that lists two tools and answers a call with the name called. *)
Definition listingSession : Session unit :=
  mkSession
    (Normal [mkListed "read" (Some "reads a file") None; mkListed "write" None (Some "{}")])
    (fun name _ => Normal (mkResult (Some [mkItem (Some name) None]))).

(** An SDK with which stdio connections succeed and http connections fail. *)
Definition stdioOnlySdk : Sdk unit :=
  mkSdk None (fun _ => Connected listingSession) None (fun _ => Failed "fetch failed").

Definition filesConfig : MCPServerConfig.t :=
  MCPServerConfig.mk "files" "stdio" (Some "node") ["server.js"] None [] true.
Definition webConfig : MCPServerConfig.t :=
  MCPServerConfig.mk "web" "http" None [] (Some "http://localhost:1/mcp") [] true.
Definition localConfig : MCPServerConfig.t :=
  MCPServerConfig.mk "local" "stdio" None [] None [] true.

(** One server whose name holds an underscore, with two tools. *)
Definition braveConnection : MCPServerConnection unit :=
  mkConnection (MCPServerConfig.mk "brave_search" "stdio" (Some "npx") [] None [] true)
    (Some listingSession)
    [MCPTool.mk "web_search" "searches the web" "brave_search" "{}" "web_search";
     MCPTool.mk "local_search" "searches nearby" "brave_search" "{}" "local_search"]
    true None.

Definition braveManager : MCPClientManager unit :=
  mkManager "mcp_servers.json" [("brave_search", braveConnection)] "mcp_" true.

Definition threeServers : MCPClientManager unit :=
  initialize (fun _ => stdioOnlySdk) true [filesConfig; webConfig; localConfig]
    (new None "mcp_servers.json" "mcp_").

End McpSpecs.

Module MemorySpecs.
Import Js MemoryManager.

(** The last call of [fs.writeFileSync] carried the summary and the history
    that the manager holds. *)
Definition inSync (r : Run) : Prop :=
  last (writeCalls r) = Some (summary (manager r), _memory (manager r)).

(** The file holds the state of the manager: the last call of
    [fs.writeFileSync] carried the summary and the history that the manager
    holds, and it did not throw. *)
Definition persisted (writeFails : nat -> option string) (r : Run) : Prop :=
  exists earlier,
    writeCalls r = earlier ++ [(summary (manager r), _memory (manager r))] /\
    writeFails (length earlier) = None.

(** A text with a character that [trim] keeps. *)
Definition inked (s : string) : Prop := trimEnd s <> "".

(** The entry that [addEntry(role, content, metadata)] builds, and the run
    after a sequence of calls of [addEntry], thrown errors caught. *)
Definition entryOf (call : string * string * option string) : MemoryEntry :=
  let '(role, content, metadata) := call in mkEntry role content (default "{}" metadata).

Definition addEntries (writeFails : nat -> option string)
    (calls : list (string * string * option string)) (r : Run) : Run :=
  fold_left
    (fun r call =>
       let '(role, content, metadata) := call in
       snd (addEntry writeFails role content metadata r))
    calls r.

(** A disk that takes every write. *)
Definition writable : nat -> option string := fun _ => None.

(** A disk that takes one write and is full then. *)
Definition fillsUp : nat -> option string :=
  fun k => if k =? 0 then None else Some "Error: ENOSPC: no space left on device, write".

(** A disk that is full. *)
Definition diskFull : nat -> option string :=
  fun _ => Some "Error: ENOSPC: no space left on device, write".

(** A manager with three entries, nothing summarised and nothing written. *)
Definition threeEntries : Run :=
  mkRun (mk "agent_memory.json"
           [mkEntry "user" "hello" "{}"; mkEntry "assistant" "hi" "{}";
            mkEntry "user" "sort this list" "{}"] "") [].

End MemorySpecs.

(* ===================================================================== *)
(** * Properties *)
(* ===================================================================== *)

(** ** The embedding on concrete inputs *)

Module Checks.
Import Js Router Swarm McpClient Scenarios.

Example trim_strips_both_ends : trim ("  - agent: coder " +:+ nl) = "- agent: coder".
Proof. reflexivity. Qed.

Example split_keeps_empty_pieces : split ":" "a::b:" = ["a"; ""; "b"; ""].
Proof. reflexivity. Qed.

Example splitLimit_discards_the_rest :
  splitLimit ":" 2 "- task: fix a:b" = ["- task"; " fix a"].
Proof. reflexivity. Qed.

Example fieldOf_stops_at_second_colon : fieldOf "- task: fix a:b" = Normal "fix a".
Proof. reflexivity. Qed.

Example toLowerCase_letters : toLowerCase "Review THIS, Please!" = "review this, please!".
Proof. reflexivity. Qed.

Example includes_inside : includes "please check it" "check" = true.
Proof. reflexivity. Qed.

Example includes_missing : includes "please chec it" "check" = false.
Proof. reflexivity. Qed.

Example toISOString_epoch : toISOString 0 = "1970-01-01T00:00:00.000Z".
Proof. reflexivity. Qed.

Example toISOString_leap_day : toISOString 951782400000 = "2000-02-29T00:00:00.000Z".
Proof. reflexivity. Qed.

Example toISOString_millis : toISOString 1234567890123 = "2009-02-13T23:31:30.123Z".
Proof. reflexivity. Qed.

Example toISOString_before_epoch : toISOString (-1) = "1969-12-31T23:59:59.999Z".
Proof. reflexivity. Qed.

Example parse_task_before_agent_is_ignored :
  parseDelegations ("- task: lost" +:+ nl +:+ "- agent: coder" +:+ nl +:+ "- task: kept")
  = Normal [mkDelegation "coder" "kept"].
Proof. reflexivity. Qed.

Example parse_last_task_wins :
  parseDelegations ("- agent: coder" +:+ nl +:+ "- task: one" +:+ nl +:+ "- task: two")
  = Normal [mkDelegation "coder" "two"].
Proof. reflexivity. Qed.

Example simpleDelegate_demo_task :
  simpleDelegate "Create a Python function to calculate Fibonacci numbers efficiently, review it for performance, and explain the time complexity."
  = [mkDelegation "coder" "Create a Python function to calculate Fibonacci numbers efficiently, review it for performance, and explain the time complexity.";
     mkDelegation "reviewer" "Create a Python function to calculate Fibonacci numbers efficiently, review it for performance, and explain the time complexity."].
Proof. reflexivity. Qed.

Example simpleDelegate_all_three :
  map agent (simpleDelegate "find and check the code") = ["coder"; "reviewer"; "researcher"].
Proof. reflexivity. Qed.

Example synthesisPrompt_missing_result :
  synthesisPrompt [mkDelegation "coder" "a"; mkDelegation "reviewer" "b"] ["done"]
  = "Synthesize a final response based on the following agent outputs:" +:+ nl +:+ nl +:+
    "1. [coder] a" +:+ nl +:+ "   Result: done" +:+ nl +:+ nl +:+
    "2. [reviewer] b" +:+ nl +:+ "   Result: No result" +:+ nl +:+ nl +:+
    "Provide a concise final report summarizing what was accomplished.".
Proof. reflexivity. Qed.

Example workers_own_inherited_undefined :
  let workers := workers (new BaseAgent.DummyClient) in
  getProperty workers "coder" = Own (CoderAgent.new BaseAgent.DummyClient) /\
  getProperty workers "toString" = Inherited /\
  getProperty workers "tester" = Undefined.
Proof. repeat split; vm_compute; reflexivity. Qed.

(** Every message of the context is rendered, the first one too, and a
    missing sender or content gets its default. *)
Example fullPrompt_renders_every_message :
  BaseAgent.fullPrompt (BaseAgent.new "coder" "Be brief." BaseAgent.GenAIClient) "write X"
    (Some [Message.mk "router" "coder" "task" "write X" "t0";
           Message.mk "" "router" "result" "" "t1"])
  = "Be brief." +:+ nl +:+ nl +:+ "Task: write X" +:+ nl +:+ nl
    +:+ "Context from other agents:" +:+ nl
    +:+ "[router]: write X" +:+ nl +:+ "[unknown]: " +:+ nl.
Proof. reflexivity. Qed.

(** The coder's context at a second delegation holds the task and the result
    of the first. *)
Example context_after_first_delegation :
  map (fun m => (Message.from m, Message.to m, Message.type m, Message.content m))
    (MessageBus.getContextFor (messageBus (swarm afterFirstDelegation)) "coder")
  = [("router", "coder", "task", "write X");
     ("coder", "router", "result",
      snd (BaseAgent.execute (genai echoWorld 0) (CoderAgent.new BaseAgent.GenAIClient)
             "write X"
             (Some [Message.mk "router" "coder" "task" "write X"
                      "1970-01-01T00:00:01.000Z"])))].
Proof. vm_compute. reflexivity. Qed.

Example fullPrompt_without_context :
  BaseAgent.fullPrompt (BaseAgent.new "coder" "Be brief." BaseAgent.GenAIClient) "write X"
    (Some [])
  = BaseAgent.fullPrompt (BaseAgent.new "coder" "Be brief." BaseAgent.GenAIClient) "write X"
      None.
Proof. reflexivity. Qed.

(** The test configuration: every agent answers "[<role>] Task completed". *)
Example execute_with_dummy_clients :
  let run := execute failingWorld reviewTask (start (new BaseAgent.DummyClient)) in
  fst run = Normal "[router] Task completed" /\
  map (fun m => (Message.from m, Message.to m, Message.type m))
      (getMessageLog (swarm (snd run)))
  = [("router", "coder", "task"); ("coder", "router", "result");
     ("router", "reviewer", "task"); ("reviewer", "router", "result")].
Proof. split; vm_compute; reflexivity. Qed.

Example callWrapper_echo :
  callWrapper (createToolWrapper (serverOf "files" toolC) toolC) tt = "c".
Proof. reflexivity. Qed.

Example callWrapper_not_connected :
  callWrapper
    (createToolWrapper
       (mkConnection (MCPServerConfig.mk "files" "stdio" (Some "node") [] None [] true)
                     None [toolC] false (Some "spawn node ENOENT"))
       toolC) tt
  = "Error: MCP server 'files' is not connected".
Proof. reflexivity. Qed.

End Checks.

(** ** Strings *)

Module JsFacts.
Import Js.

Lemma append_cons (c : ascii) (s t : string) : String c s +:+ t = String c (s +:+ t).
Proof. reflexivity. Qed.

Lemma append_nil_l (t : string) : "" +:+ t = t.
Proof. reflexivity. Qed.

Lemma append_inj_l (p s t : string) : p +:+ s = p +:+ t -> s = t.
Proof.
  induction p as [|c p IH]; intros H.
  - exact H.
  - rewrite !append_cons in H. injection H as H. auto.
Qed.

Lemma startsWith_append (s p : string) :
  startsWith s p = true -> exists r, s = p +:+ r.
Proof.
  unfold startsWith. revert s.
  induction p as [|a p IH]; intros s H.
  - exists s. reflexivity.
  - destruct s as [|b s]; simpl in H; [discriminate|].
    destruct (ascii_dec a b) as [->|]; [|discriminate].
    destruct (IH _ H) as [r ->]. exists r. reflexivity.
Qed.

Lemma split_nonempty (sep : ascii) (s : string) : split sep s <> [].
Proof.
  destruct s as [|c s]; simpl; [discriminate|].
  destruct (Ascii.eqb c sep); [discriminate|].
  destruct (split sep s); discriminate.
Qed.

Lemma includes_cons (c : ascii) (s word : string) :
  includes (String c s) word = String.prefix word (String c s) || includes s word.
Proof. reflexivity. Qed.

Lemma includes_char_cons (sep c : ascii) (s : string) :
  includes (String c s) (String sep "") = false ->
  c <> sep /\ includes s (String sep "") = false.
Proof.
  rewrite includes_cons. intros H. apply orb_false_elim in H as [H1 H2].
  split; [|exact H2].
  intros ->. simpl in H1. destruct (ascii_dec sep sep); [|congruence].
  destruct s; discriminate H1.
Qed.

(** Up to the first separator, [split] cuts off the text before it. *)
Lemma split_first (sep : ascii) (p r : string) :
  includes p (String sep "") = false ->
  split sep (p +:+ String sep r) = p :: split sep r.
Proof.
  induction p as [|c p IH]; intros H.
  - rewrite append_nil_l. simpl. rewrite Ascii.eqb_refl. reflexivity.
  - apply includes_char_cons in H as [Hne Hp].
    rewrite append_cons. simpl.
    destruct (Ascii.eqb_spec c sep) as [->|_]; [congruence|].
    rewrite (IH Hp). reflexivity.
Qed.

End JsFacts.

(** ** Dates: the ISO rendering keeps the order of the time values *)

Module DateFacts.
Import Js JsFacts Scenarios.

(** Linear arithmetic with divisions and remainders by constants. *)
Ltac div_lia := Z.div_mod_to_equations; lia.

Lemma yearOfEra_range (doe : Z) :
  (0 <= doe < 146097)%Z ->
  (0 <= yearOfEra doe <= 399)%Z /\ (0 <= dayOfYear doe <= 365)%Z.
Proof. unfold dayOfYear, yearOfEra. intros H. div_lia. Qed.

Lemma yearOfEra_mono (doe1 doe2 : Z) :
  (0 <= doe1)%Z -> (doe1 <= doe2)%Z -> (doe2 < 146097)%Z ->
  (yearOfEra doe1 <= yearOfEra doe2)%Z.
Proof. unfold yearOfEra. intros. div_lia. Qed.

Lemma dayOfYear_lt (doe1 doe2 : Z) :
  yearOfEra doe1 = yearOfEra doe2 -> (doe1 < doe2)%Z ->
  (dayOfYear doe1 < dayOfYear doe2)%Z.
Proof. unfold dayOfYear. intros ->. lia. Qed.

Lemma monthIndex_range (doy : Z) :
  (0 <= doy <= 365)%Z ->
  (0 <= monthIndex doy <= 11)%Z /\ (1 <= dayOfMonth doy <= 31)%Z.
Proof. unfold dayOfMonth, monthIndex. intros H. div_lia. Qed.

Lemma monthIndex_mono (doy1 doy2 : Z) :
  (doy1 <= doy2)%Z -> (monthIndex doy1 <= monthIndex doy2)%Z.
Proof. unfold monthIndex. intros. div_lia. Qed.

Lemma dayOfMonth_lt (doy1 doy2 : Z) :
  monthIndex doy1 = monthIndex doy2 -> (doy1 < doy2)%Z ->
  (dayOfMonth doy1 < dayOfMonth doy2)%Z.
Proof. unfold dayOfMonth. intros ->. lia. Qed.

Lemma yearMonthDay_range (days : Z) :
  let '(_, m, d) := yearMonthDay days in (1 <= m <= 12)%Z /\ (1 <= d <= 31)%Z.
Proof.
  unfold yearMonthDay. cbv zeta.
  set (z := (days + 719468)%Z).
  set (doe := (z - z / 146097 * 146097)%Z).
  assert (Hdoe : (0 <= doe < 146097)%Z) by (subst doe; div_lia).
  destruct (yearOfEra_range doe Hdoe) as [_ Hdoy].
  destruct (monthIndex_range _ Hdoy) as [Hmp Hd].
  split; [|exact Hd].
  destruct (Z.ltb_spec (monthIndex (dayOfYear doe)) 10); lia.
Qed.

(** A later day is a later date. *)
Lemma yearMonthDay_mono (days1 days2 : Z) :
  (days1 < days2)%Z -> dateLt (yearMonthDay days1) (yearMonthDay days2).
Proof.
  intros Hlt. unfold yearMonthDay, dateLt. cbv zeta.
  set (z1 := (days1 + 719468)%Z). set (z2 := (days2 + 719468)%Z).
  set (era1 := (z1 / 146097)%Z). set (era2 := (z2 / 146097)%Z).
  set (doe1 := (z1 - era1 * 146097)%Z). set (doe2 := (z2 - era2 * 146097)%Z).
  assert (Hdoe1 : (0 <= doe1 < 146097)%Z)
    by (subst doe1 era1; div_lia).
  assert (Hdoe2 : (0 <= doe2 < 146097)%Z)
    by (subst doe2 era2; div_lia).
  assert (Hera : (era1 < era2 \/ (era1 = era2 /\ doe1 < doe2))%Z)
    by (subst doe1 doe2 era1 era2 z1 z2; div_lia).
  destruct (yearOfEra_range doe1 Hdoe1) as [Hy1 Hdoy1].
  destruct (yearOfEra_range doe2 Hdoe2) as [Hy2 Hdoy2].
  destruct (monthIndex_range _ Hdoy1) as [Hmp1 Hd1].
  destruct (monthIndex_range _ Hdoy2) as [Hmp2 Hd2].
  assert (Hyear : (era1 = era2 -> doe1 < doe2 ->
                   yearOfEra doe1 < yearOfEra doe2 \/
                   (yearOfEra doe1 = yearOfEra doe2 /\
                    (monthIndex (dayOfYear doe1) < monthIndex (dayOfYear doe2) \/
                     (monthIndex (dayOfYear doe1) = monthIndex (dayOfYear doe2) /\
                      dayOfMonth (dayOfYear doe1) < dayOfMonth (dayOfYear doe2)))))%Z).
  { intros _ Hd.
    pose proof (yearOfEra_mono doe1 doe2 ltac:(lia) ltac:(lia) ltac:(lia)) as Hmono.
    destruct (Z.eq_dec (yearOfEra doe1) (yearOfEra doe2)) as [Heq|Hne]; [|lia].
    right. split; [exact Heq|].
    pose proof (dayOfYear_lt _ _ Heq Hd) as Hdoy.
    assert (Hm : (monthIndex (dayOfYear doe1) <= monthIndex (dayOfYear doe2))%Z)
      by (apply monthIndex_mono; lia).
    destruct (Z.eq_dec (monthIndex (dayOfYear doe1)) (monthIndex (dayOfYear doe2)))
      as [Hmeq|Hmne]; [|lia].
    right. split; [exact Hmeq|]. exact (dayOfMonth_lt _ _ Hmeq Hdoy). }
  clearbody era1 era2 doe1 doe2.
  generalize dependent (dayOfMonth (dayOfYear doe1)).
  generalize dependent (dayOfMonth (dayOfYear doe2)).
  generalize dependent (monthIndex (dayOfYear doe1)).
  generalize dependent (monthIndex (dayOfYear doe2)).
  generalize dependent (yearOfEra doe1).
  generalize dependent (yearOfEra doe2).
  intros yoe2 Hy2 yoe1 Hy1 mp2 Hmp2 mp1 Hmp1 d2 Hd2 d1 Hd1 Hyear.
  destruct (Z.ltb_spec mp1 10), (Z.ltb_spec mp2 10);
    repeat match goal with
           | |- context [Z.leb ?x ?y] => destruct (Z.leb_spec x y)
           end; lia.
Qed.

(** *** Comparing renderings *)

Lemma ascii_compare_refl (c : ascii) : Ascii.compare c c = Eq.
Proof. apply N.compare_refl. Qed.

Lemma compare_same_prefix (sep r1 r2 : string) :
  String.compare (sep +:+ r1) (sep +:+ r2) = String.compare r1 r2.
Proof.
  induction sep as [|c sep IH]; [reflexivity|].
  rewrite !append_cons. simpl. rewrite ascii_compare_refl. exact IH.
Qed.

(** Two texts that start with fields of the same width compare by the
    fields first. *)
Lemma compare_app (a1 : string) : forall a2 b1 b2,
  String.length a1 = String.length a2 ->
  String.compare (a1 +:+ b1) (a2 +:+ b2)
  = match String.compare a1 a2 with Eq => String.compare b1 b2 | c => c end.
Proof.
  induction a1 as [|c1 a1 IH]; intros [|c2 a2] b1 b2 Hlen; try discriminate Hlen.
  - reflexivity.
  - rewrite !append_cons. simpl. destruct (Ascii.compare c1 c2); auto.
Qed.

Lemma compare_field (a1 a2 sep r1 r2 : string) :
  String.length a1 = String.length a2 ->
  String.compare (a1 +:+ sep +:+ r1) (a2 +:+ sep +:+ r2)
  = match String.compare a1 a2 with Eq => String.compare r1 r2 | c => c end.
Proof. intros Hlen. rewrite (compare_app _ _ _ _ Hlen), compare_same_prefix. reflexivity. Qed.

Lemma length_append (s t : string) :
  String.length (s +:+ t) = String.length s + String.length t.
Proof. induction s as [|c s IH]; [reflexivity|]. rewrite append_cons. simpl. auto. Qed.

Lemma fixedWidth_length (width : nat) : forall n, String.length (fixedWidth width n) = width.
Proof.
  induction width as [|w IH]; intros n; [reflexivity|].
  cbn [fixedWidth]. rewrite length_append, IH. simpl. lia.
Qed.

Lemma digit_compare (n m : Z) :
  Ascii.compare (digit n) (digit m) = (n mod 10 ?= m mod 10)%Z.
Proof.
  unfold Ascii.compare, digit, ascii_of_nat.
  rewrite !N_ascii_embedding by (div_lia).
  destruct (N.compare_spec (N.of_nat (48 + Z.to_nat (n mod 10)))
              (N.of_nat (48 + Z.to_nat (m mod 10))));
    destruct (Z.compare_spec (n mod 10) (m mod 10)); try reflexivity;
    div_lia.
Qed.

Lemma compare_single (c1 c2 : ascii) :
  String.compare (String c1 "") (String c2 "") = Ascii.compare c1 c2.
Proof. simpl. destruct (Ascii.compare c1 c2); reflexivity. Qed.

(** Numbers of the same width compare as their renderings do. *)
Lemma fixedWidth_compare (width : nat) : forall n m,
  (0 <= n < 10 ^ Z.of_nat width)%Z -> (0 <= m < 10 ^ Z.of_nat width)%Z ->
  String.compare (fixedWidth width n) (fixedWidth width m) = (n ?= m)%Z.
Proof.
  induction width as [|w IH]; intros n m Hn Hm.
  - simpl in Hn, Hm. assert (n = m) as -> by lia. rewrite Z.compare_refl. reflexivity.
  - rewrite Nat2Z.inj_succ, Z.pow_succ_r in Hn, Hm by lia.
    cbn [fixedWidth].
    rewrite compare_app by (rewrite !fixedWidth_length; reflexivity).
    rewrite IH by (div_lia).
    rewrite compare_single, digit_compare.
    destruct (Z.compare_spec (n / 10) (m / 10));
      destruct (Z.compare_spec (n mod 10) (m mod 10));
      destruct (Z.compare_spec n m); try reflexivity;
      div_lia.
Qed.

Lemma string_compare_refl (s : string) : String.compare s s = Eq.
Proof. induction s as [|c s IH]; [reflexivity|]. simpl. rewrite ascii_compare_refl. exact IH. Qed.

Lemma compare_suffix (a1 a2 sep : string) :
  String.length a1 = String.length a2 ->
  String.compare (a1 +:+ sep) (a2 +:+ sep) = String.compare a1 a2.
Proof.
  intros Hlen. rewrite (compare_app _ _ _ _ Hlen), string_compare_refl.
  destruct (String.compare a1 a2); reflexivity.
Qed.

Lemma yearMonthDay_year_range (days : Z) :
  (-719528 <= days <= 2932896)%Z ->
  let '(y, _, _) := yearMonthDay days in (0 <= y <= 9999)%Z.
Proof.
  intros H.
  assert (Hfirst : yearMonthDay (-719528)%Z = (0, 1, 1)%Z) by (vm_compute; reflexivity).
  assert (Hlast : yearMonthDay 2932896%Z = (9999, 12, 31)%Z) by (vm_compute; reflexivity).
  destruct (Z.eq_dec days (-719528)%Z) as [->|Hne1]; [rewrite Hfirst; lia|].
  destruct (Z.eq_dec days 2932896%Z) as [->|Hne2]; [rewrite Hlast; lia|].
  pose proof (yearMonthDay_mono (-719528)%Z days ltac:(lia)) as Hlo.
  pose proof (yearMonthDay_mono days 2932896%Z ltac:(lia)) as Hhi.
  rewrite Hfirst in Hlo. rewrite Hlast in Hhi.
  destruct (yearMonthDay days) as [[y m] d]. unfold dateLt in Hlo, Hhi. lia.
Qed.

(** Within a day, a later millisecond has a later time of day. *)
Lemma timeOfDay_lt (ms1 ms2 : Z) :
  (0 <= ms1)%Z -> (ms1 < ms2)%Z -> (ms2 < 86400000)%Z ->
  match (ms1 / 3600000 ?= ms2 / 3600000)%Z with
  | Eq =>
      match (ms1 / 60000 mod 60 ?= ms2 / 60000 mod 60)%Z with
      | Eq =>
          match (ms1 / 1000 mod 60 ?= ms2 / 1000 mod 60)%Z with
          | Eq => (ms1 mod 1000 ?= ms2 mod 1000)%Z
          | c => c
          end
      | c => c
      end
  | c => c
  end = Lt.
Proof.
  intros H0 Hlt Hday.
  destruct (Z.compare_spec (ms1 / 3600000) (ms2 / 3600000)) as [Hh|Hh|Hh];
    [|reflexivity|exfalso; div_lia].
  destruct (Z.compare_spec (ms1 / 60000 mod 60) (ms2 / 60000 mod 60)) as [Hm|Hm|Hm];
    [|reflexivity|exfalso; div_lia].
  destruct (Z.compare_spec (ms1 / 1000 mod 60) (ms2 / 1000 mod 60)) as [Hs|Hs|Hs];
    [|reflexivity|exfalso; div_lia].
  apply Z.compare_lt_iff. div_lia.
Qed.

(** A later time value renders as a greater text, for four-digit years. *)
Lemma toISOString_lt (t1 t2 : Z) :
  fourDigitYear t1 -> fourDigitYear t2 -> (t1 < t2)%Z ->
  String.compare (toISOString t1) (toISOString t2) = Lt.
Proof.
  unfold fourDigitYear. intros H1 H2 Hlt. unfold toISOString.
  set (days1 := (t1 / 86400000)%Z). set (days2 := (t2 / 86400000)%Z).
  set (ms1 := (t1 mod 86400000)%Z). set (ms2 := (t2 mod 86400000)%Z).
  assert (Hd1 : (-719528 <= days1 <= 2932896)%Z)
    by (subst days1; div_lia).
  assert (Hd2 : (-719528 <= days2 <= 2932896)%Z)
    by (subst days2; div_lia).
  assert (Hm1 : (0 <= ms1 < 86400000)%Z) by (subst ms1; div_lia).
  assert (Hm2 : (0 <= ms2 < 86400000)%Z) by (subst ms2; div_lia).
  assert (Hcases : (days1 < days2 \/ (days1 = days2 /\ ms1 < ms2))%Z)
    by (subst days1 days2 ms1 ms2; div_lia).
  pose proof (yearMonthDay_year_range days1 Hd1) as Hy1.
  pose proof (yearMonthDay_year_range days2 Hd2) as Hy2.
  pose proof (yearMonthDay_range days1) as Hr1.
  pose proof (yearMonthDay_range days2) as Hr2.
  assert (Hdate : (days1 < days2)%Z -> dateLt (yearMonthDay days1) (yearMonthDay days2))
    by apply yearMonthDay_mono.
  assert (Hsame : days1 = days2 -> yearMonthDay days1 = yearMonthDay days2)
    by (intros ->; reflexivity).
  clearbody days1 days2 ms1 ms2.
  destruct (yearMonthDay days1) as [[y1 m1] d1].
  destruct (yearMonthDay days2) as [[y2 m2] d2].
  unfold showYear.
  replace ((0 <=? y1)%Z && (y1 <=? 9999)%Z) with true
    by (symmetry; apply andb_true_intro; split; apply Z.leb_le; lia).
  replace ((0 <=? y2)%Z && (y2 <=? 9999)%Z) with true
    by (symmetry; apply andb_true_intro; split; apply Z.leb_le; lia).
  rewrite !compare_field by (rewrite !fixedWidth_length; reflexivity).
  rewrite compare_suffix by (rewrite !fixedWidth_length; reflexivity).
  rewrite !fixedWidth_compare by (simpl; div_lia).
  destruct Hcases as [Hdays | [Hdays Hms]].
  - specialize (Hdate Hdays). unfold dateLt in Hdate.
    destruct Hdate as [Hy | [-> [Hm | [-> Hd]]]].
    + rewrite (proj2 (Z.compare_lt_iff _ _) Hy). reflexivity.
    + rewrite Z.compare_refl, (proj2 (Z.compare_lt_iff _ _) Hm). reflexivity.
    + rewrite !Z.compare_refl, (proj2 (Z.compare_lt_iff _ _) Hd). reflexivity.
  - specialize (Hsame Hdays). injection Hsame as -> -> ->.
    rewrite !Z.compare_refl. apply timeOfDay_lt; lia.
Qed.

(** The ISO rendering is an order embedding of the time values with a
    four-digit year into the texts. *)
Lemma toISOString_compare (t1 t2 : Z) :
  fourDigitYear t1 -> fourDigitYear t2 ->
  String.compare (toISOString t1) (toISOString t2) = (t1 ?= t2)%Z.
Proof.
  intros H1 H2.
  destruct (Z.compare_spec t1 t2) as [-> | Hlt | Hgt].
  - apply string_compare_refl.
  - apply toISOString_lt; assumption.
  - rewrite String.compare_antisym, (toISOString_lt t2 t1) by assumption. reflexivity.
Qed.

End DateFacts.

(** ** The router: parsing the plan, and the keyword fallback *)

Module RouterFacts.
Import Js JsFacts Router Scenarios.

Lemma fieldOf_after_colon (head r : string) :
  includes head ":" = false ->
  fieldOf (head +:+ String ":" r) = Normal (trim (hd "" (split ":" r))).
Proof.
  intros H. unfold fieldOf, splitLimit. rewrite (split_first _ _ _ H).
  pose proof (split_nonempty ":" r) as Hne.
  destruct (split ":" r) as [|piece rest]; [congruence|]. reflexivity.
Qed.

Lemma fieldOf_agent (line : string) :
  startsWith line "- agent:" = true -> exists a, fieldOf line = Normal a.
Proof.
  intros H. apply startsWith_append in H as [r ->].
  exists (trim (hd "" (split ":" r))).
  apply (fieldOf_after_colon "- agent" r). reflexivity.
Qed.

Lemma fieldOf_task (line : string) :
  startsWith line "- task:" = true -> exists t, fieldOf line = Normal t.
Proof.
  intros H. apply startsWith_append in H as [r ->].
  exists (trim (hd "" (split ":" r))).
  apply (fieldOf_after_colon "- task" r). reflexivity.
Qed.

(** The loop body never throws: the second piece of the split is there
    whenever the line passed the [startsWith] test. *)
Lemma parseLine_total st line : exists st', parseLine st line = Normal st'.
Proof.
  destruct st as [cur delegations]. unfold parseLine.
  destruct (startsWith (trim line) "- agent:") eqn:Ha.
  - destruct (fieldOf_agent _ Ha) as [a ->]. simpl. eauto.
  - destruct (startsWith (trim line) "- task:") eqn:Ht; simpl; [|eauto].
    destruct (present (p_agent cur)); [|eauto].
    destruct (fieldOf_task _ Ht) as [t ->]. simpl. eauto.
Qed.

Lemma parseLoop_total lines : forall st, exists st', parseLoop lines st = Normal st'.
Proof.
  induction lines as [|line rest IH]; intros st; simpl; [eauto|].
  destruct (parseLine_total st line) as [st1 ->]. simpl. apply IH.
Qed.

Lemma parseLines_total lines : exists delegations, parseLines lines = Normal delegations.
Proof.
  unfold parseLines.
  destruct (parseLoop_total lines (mkPartial None None, [])) as [st ->].
  simpl. eauto.
Qed.

Lemma parseDelegations_total analysis :
  exists delegations, parseDelegations analysis = Normal delegations.
Proof. apply parseLines_total. Qed.

Lemma parseLoop_app l1 l2 : forall st,
  parseLoop (l1 ++ l2) st = let* st' := parseLoop l1 st in parseLoop l2 st'.
Proof.
  induction l1 as [|line rest IH]; intros st; simpl; [reflexivity|].
  destruct (parseLine st line) as [st1|e]; simpl; [apply IH | reflexivity].
Qed.

(** A line that starts neither an agent nor a task field is skipped. *)
Lemma parseLine_other st line :
  isAgentLine line = false -> isTaskLine line = false -> parseLine st line = Normal st.
Proof.
  unfold isAgentLine, isTaskLine, parseLine. intros -> ->.
  destruct st. reflexivity.
Qed.

Lemma parseLoop_others lines : forall st,
  Forall (fun l => isAgentLine l = false /\ isTaskLine l = false) lines ->
  parseLoop lines st = Normal st.
Proof.
  induction lines as [|line rest IH]; intros st H; simpl; [reflexivity|].
  inversion H as [|? ? [Ha Ht] Hrest]; subst.
  rewrite (parseLine_other _ _ Ha Ht). simpl. auto.
Qed.

(** An agent line opens a pending delegation that has no task yet. *)
Lemma parseLine_agent line :
  isAgentLine line = true ->
  exists a, forall cur delegations,
    parseLine (cur, delegations) line
    = Normal (mkPartial (Some a) None, pushIfComplete cur delegations).
Proof.
  unfold isAgentLine, parseLine. intros H. rewrite H.
  destruct (fieldOf_agent _ H) as [a ->]. exists a. reflexivity.
Qed.

Lemma pushIfComplete_no_task a delegations :
  pushIfComplete (mkPartial a None) delegations = delegations.
Proof. unfold pushIfComplete. simpl. destruct a; reflexivity. Qed.

Lemma simpleDelegate_nonempty userTask : simpleDelegate userTask <> [].
Proof.
  unfold simpleDelegate.
  destruct (someIncluded codeWords _), (someIncluded reviewWords _),
    (someIncluded researchWords _); simpl; discriminate.
Qed.

Lemma simpleDelegate_default userTask :
  someIncluded codeWords (toLowerCase userTask) = false ->
  someIncluded reviewWords (toLowerCase userTask) = false ->
  someIncluded researchWords (toLowerCase userTask) = false ->
  simpleDelegate userTask = [mkDelegation "coder" userTask].
Proof. unfold simpleDelegate. intros -> -> ->. reflexivity. Qed.

Lemma delegationsFrom_cases analysis userTask :
  exists parsed, parseDelegations analysis = Normal parsed /\
    delegationsFrom analysis userTask
    = Normal (match parsed with [] => simpleDelegate userTask | _ => parsed end).
Proof.
  destruct (parseDelegations_total analysis) as [parsed Hp].
  exists parsed. split; [exact Hp|].
  unfold delegationsFrom. rewrite Hp. simpl.
  destruct parsed; reflexivity.
Qed.

(** From an agent line that no task line follows, the loop reaches the
    next agent line (or the end) with only a task-less pending delegation. *)
Lemma parseLoop_orphan orphan a skipped rest cur delegations :
  (forall cur delegations,
      parseLine (cur, delegations) orphan
      = Normal (mkPartial (Some a) None, pushIfComplete cur delegations)) ->
  Forall (fun l => isAgentLine l = false /\ isTaskLine l = false) skipped ->
  parseLoop (orphan :: skipped ++ rest) (cur, delegations)
  = parseLoop rest (mkPartial (Some a) None, pushIfComplete cur delegations).
Proof.
  intros Ha Hskipped. cbn [parseLoop]. rewrite Ha. cbn [bind].
  rewrite parseLoop_app, (parseLoop_others _ _ Hskipped). reflexivity.
Qed.

(** C1: [analyzeAndDelegate] returns, and returns a non-empty plan, whatever
    the task, the router and the model do; when nothing is parsed from the
    planning response the plan is that of [simpleDelegate], which is the
    single delegation of the task text to "coder" when no keyword set
    matches. *)
Theorem analyzeAndDelegate_nonempty
    (remote : string -> Completion BaseAgent.GenerateResult)
    (router : BaseAgent.t) (userTask : string) :
  exists delegations,
    snd (analyzeAndDelegate remote router userTask) = Normal delegations /\
    delegations <> [] /\
    (parseDelegations (snd (BaseAgent.execute remote router userTask None)) = Normal [] ->
     delegations = simpleDelegate userTask) /\
    (someIncluded codeWords (toLowerCase userTask) = false ->
     someIncluded reviewWords (toLowerCase userTask) = false ->
     someIncluded researchWords (toLowerCase userTask) = false ->
     simpleDelegate userTask = [mkDelegation "coder" userTask]).
Proof.
  unfold analyzeAndDelegate.
  destruct (BaseAgent.execute remote router userTask None) as [router' analysis].
  cbn [fst snd].
  destruct (delegationsFrom_cases analysis userTask) as (parsed & Hp & Hd).
  eexists. split; [exact Hd|]. split; [|split].
  - destruct parsed; [apply simpleDelegate_nonempty | discriminate].
  - rewrite Hp. intros [= ->]. reflexivity.
  - apply simpleDelegate_default.
Qed.

Lemma analyzeAndDelegate_nonempty_witness :
  simpleDelegate "say hello" = [mkDelegation "coder" "say hello"].
Proof.
  destruct (analyzeAndDelegate_nonempty (fun _ => Throw "Error: offline")
              (Router.new BaseAgent.GenAIClient) "say hello")
    as (delegations & _ & _ & Hparsed & Hdefault).
  assert (delegations = simpleDelegate "say hello") as _.
  { apply Hparsed. vm_compute. reflexivity. }
  apply Hdefault; vm_compute; reflexivity.
Defined.

(** C2: the plan of the example parses to its two delegations, in order; and
    in every planning response an agent line followed by no task line
    before the next agent line, or before the end, leaves nothing in the
    output: the result is that of the response without that line and the
    lines up to the next agent line. *)
Theorem parseDelegations_example_and_orphans :
  parseDelegations examplePlan
  = Normal [mkDelegation "coder" "write X"; mkDelegation "reviewer" "review X"] /\
  forall analysis pre orphan skipped rest,
    split "010" analysis = pre ++ orphan :: skipped ++ rest ->
    isAgentLine orphan = true ->
    Forall (fun l => isAgentLine l = false /\ isTaskLine l = false) skipped ->
    (rest = [] \/ exists next rest', rest = next :: rest' /\ isAgentLine next = true) ->
    parseDelegations analysis = parseLines (pre ++ rest).
Proof.
  split; [vm_compute; reflexivity|].
  intros analysis pre orphan skipped rest Hsplit Horphan Hskipped Hrest.
  unfold parseDelegations, parseLines. rewrite Hsplit.
  rewrite !parseLoop_app.
  destruct (parseLoop pre _) as [[cur delegations]|e]; [|reflexivity].
  cbn [bind].
  destruct (parseLine_agent orphan Horphan) as [a Ha].
  rewrite (parseLoop_orphan _ _ _ _ _ _ Ha Hskipped).
  destruct Hrest as [-> | (next & rest' & -> & Hnext)].
  - cbn [parseLoop bind fst snd]. rewrite pushIfComplete_no_task. reflexivity.
  - destruct (parseLine_agent next Hnext) as [b Hb].
    cbn [parseLoop]. rewrite !Hb, pushIfComplete_no_task. reflexivity.
Qed.

Lemma parseDelegations_example_and_orphans_witness :
  parseDelegations orphanPlan
  = Normal [mkDelegation "coder" "write X"; mkDelegation "reviewer" "review X"].
Proof.
  destruct parseDelegations_example_and_orphans as [_ Horphans].
  rewrite (Horphans orphanPlan
             ["- agent: coder"; "- task: write X"] "- agent: ghost"
             ["(no task for this one)"]
             ["- agent: reviewer"; "- task: review X"]).
  - vm_compute. reflexivity.
  - vm_compute. reflexivity.
  - vm_compute. reflexivity.
  - repeat constructor.
  - right. eexists _, _. split; [reflexivity | vm_compute; reflexivity].
Defined.

(** C3, as stated, fails: with the test client nothing is parsed from the
    planning response, and the fallback for the review task is not the
    single delegation to "reviewer". *)
Lemma fallback_reviewTask_not_reviewer_alone :
  parseDelegations
    (snd (BaseAgent.execute (fun _ => Throw "Error: offline")
            (Router.new BaseAgent.DummyClient) reviewTask None)) = Normal [] /\
  snd (analyzeAndDelegate (fun _ => Throw "Error: offline")
         (Router.new BaseAgent.DummyClient) reviewTask)
  <> Normal [mkDelegation "reviewer" reviewTask].
Proof. split; [vm_compute; reflexivity | vm_compute; discriminate]. Qed.

(** C3, amended: for the review task, when nothing is parsed from the
    planning response, the fallback selects two delegations of the task
    text, to "coder" (the task contains "function") and then to
    "reviewer" (it contains "review" and "security"). *)
Theorem fallback_reviewTask
    (remote : string -> Completion BaseAgent.GenerateResult) (router : BaseAgent.t) :
  parseDelegations (snd (BaseAgent.execute remote router reviewTask None)) = Normal [] ->
  snd (analyzeAndDelegate remote router reviewTask)
  = Normal [mkDelegation "coder" reviewTask; mkDelegation "reviewer" reviewTask].
Proof.
  unfold analyzeAndDelegate.
  destruct (BaseAgent.execute remote router reviewTask None) as [router' analysis].
  cbn [fst snd]. intros Hparsed.
  unfold delegationsFrom. rewrite Hparsed. vm_compute. reflexivity.
Qed.

Lemma fallback_reviewTask_witness :
  snd (analyzeAndDelegate (fun _ => Throw "Error: offline")
         (Router.new BaseAgent.DummyClient) reviewTask)
  = Normal [mkDelegation "coder" reviewTask; mkDelegation "reviewer" reviewTask].
Proof. apply fallback_reviewTask. vm_compute. reflexivity. Defined.

End RouterFacts.

(** ** The base agent: the conversation history *)

Module BaseAgentFacts.
Import Js BaseAgent.

(** C9: when the model call of [execute] throws, the agent is left as it
    was, its conversation history included, and the error text is returned;
    when it yields an output, exactly the user task and that output are
    appended to the history. *)
Theorem execute_failure_keeps_history
    (remote : string -> Completion GenerateResult)
    (a : t) (task : string) (context : option (list Message.t)) (client : Client) :
  model a = Some client ->
  (forall error,
      modelOutput remote a client (fullPrompt a task context) = Throw error ->
      conversationHistory (fst (execute remote a task context)) = conversationHistory a /\
      fst (execute remote a task context) = a /\
      snd (execute remote a task context)
      = "[" +:+ role a +:+ "] Error executing task: " +:+ error) /\
  (forall output,
      modelOutput remote a client (fullPrompt a task context) = Normal output ->
      conversationHistory (fst (execute remote a task context))
      = conversationHistory a ++ [mkEntry "user" task; mkEntry "assistant" output] /\
      snd (execute remote a task context) = output).
Proof.
  intros Hmodel. unfold execute. rewrite Hmodel.
  split; intros x Hx; rewrite Hx; cbn [fst snd conversationHistory]; auto.
Qed.

Lemma execute_failure_keeps_history_witness :
  let a := mk "coder" "You write code." [mkEntry "user" "hi"; mkEntry "assistant" "hello"]
              (Some GenAIClient) in
  conversationHistory (fst (execute (fun _ => Throw "Error: quota exceeded") a "write X" None))
  = [mkEntry "user" "hi"; mkEntry "assistant" "hello"].
Proof.
  intros a.
  destruct (execute_failure_keeps_history (fun _ => Throw "Error: quota exceeded")
              a "write X" None GenAIClient eq_refl) as [Hthrow _].
  destruct (Hthrow "Error: quota exceeded" eq_refl) as [Hhistory _].
  exact Hhistory.
Defined.

End BaseAgentFacts.

(** ** The message bus *)

Module MessageBusFacts.
Import Js MessageBus Scenarios.

Lemma getContextFor_send_to (now : Z) (bus : t) (fromAgent toAgent messageType content : string) :
  getContextFor (send now bus fromAgent toAgent messageType content) toAgent
  = getContextFor bus toAgent
    ++ [Message.mk fromAgent toAgent messageType content (toISOString now)].
Proof.
  unfold getContextFor, send. cbn [messages].
  rewrite filter_app. f_equal.
  rewrite filter_cons. cbn [Message.to Message.from].
  rewrite decide_True by (left; reflexivity). reflexivity.
Qed.

(** C8, as stated, fails: two messages appended within one millisecond
    carry the same timestamp. *)
Lemma send_twice_same_millisecond :
  let bus := send 1000 (send 1000 empty "router" "ghost" "task" "x")
                  "router" "coder" "task" "y" in
  map Message.timestamp (messages bus)
  = ["1970-01-01T00:00:01.000Z"; "1970-01-01T00:00:01.000Z"] /\
  strictlyIncreasing (map Message.timestamp (messages bus)) = false.
Proof. split; vm_compute; reflexivity. Qed.

(** C8, amended: [send] always succeeds and appends one message, stamped
    with the ISO rendering of the clock reading of the call.  Of two
    messages appended one after the other (readings with a four-digit year),
    the later one has the strictly greater timestamp exactly when the clock
    advanced between the two calls, and a timestamp that is not smaller
    exactly when the clock did not step back: the two are equal when both
    calls read the same millisecond. *)
Theorem send_appends_stamped (bus : t) (now1 now2 : Z)
    (from1 to1 type1 content1 from2 to2 type2 content2 : string) :
  fourDigitYear now1 -> fourDigitYear now2 ->
  let m1 := Message.mk from1 to1 type1 content1 (toISOString now1) in
  let m2 := Message.mk from2 to2 type2 content2 (toISOString now2) in
  messages (send now1 bus from1 to1 type1 content1) = messages bus ++ [m1] /\
  messages (send now2 (send now1 bus from1 to1 type1 content1) from2 to2 type2 content2)
  = messages bus ++ [m1; m2] /\
  (String.ltb (Message.timestamp m1) (Message.timestamp m2) = true <-> (now1 < now2)%Z) /\
  (String.leb (Message.timestamp m1) (Message.timestamp m2) = true <-> (now1 <= now2)%Z) /\
  (now1 = now2 -> Message.timestamp m1 = Message.timestamp m2).
Proof.
  intros H1 H2 m1 m2. unfold send. cbn [messages].
  split; [reflexivity|]. split; [rewrite <- app_assoc; reflexivity|].
  subst m1 m2. cbn [Message.timestamp].
  unfold String.ltb, String.leb. rewrite (DateFacts.toISOString_compare _ _ H1 H2).
  split; [|split].
  - destruct (Z.compare_spec now1 now2); split; intros; try discriminate; try lia; reflexivity.
  - destruct (Z.compare_spec now1 now2); split; intros; try discriminate; try lia; reflexivity.
  - intros ->. reflexivity.
Qed.

Lemma send_appends_stamped_witness :
  String.ltb "1970-01-01T00:00:01.000Z" "1970-01-01T00:00:01.001Z" = true <-> (1000 < 1001)%Z.
Proof.
  destruct (send_appends_stamped empty 1000 1001
              "router" "coder" "task" "write X" "coder" "router" "result" "done")
    as (_ & _ & Hlt & _).
  - unfold fourDigitYear. lia.
  - unfold fourDigitYear. lia.
  - exact Hlt.
Defined.

End MessageBusFacts.

(** ** The orchestrator *)

Module SwarmFacts.
Import Js Router Swarm Scenarios.

(** Unfolds one turn of the loop down to the run it computes. *)
Ltac unfold_turn :=
  unfold delegate, bindM, send, getWorker, getContextFor, workerExecute, ret, throw;
  cbn [swarm workers messageBus router clockReads modelCalls].

Section Run.
Variable w : World.

Lemma getProperty_own (obj : gmap string BaseAgent.t) name a :
  obj !! name = Some a -> getProperty obj name = Own a.
Proof. unfold getProperty. intros ->. reflexivity. Qed.

Lemma delegate_own r d results worker :
  workers (swarm r) !! agent d = Some worker ->
  delegate w d results r =
  let context := MessageBus.getContextFor (busWithTask w r d) (agent d) in
  let run := BaseAgent.execute (genai w (modelCalls r)) worker (task d) (Some context) in
  (Normal (results ++ [snd run]), afterWorker w r d (fst run) (snd run)).
Proof.
  intros Hworker.
  unfold_turn.
  rewrite (getProperty_own _ _ _ Hworker).
  fold (busWithTask w r d).
  destruct (BaseAgent.execute _ worker (task d) _) as [worker' result].
  reflexivity.
Qed.

Lemma delegate_undefined r d results :
  getProperty (workers (swarm r)) (agent d) = Undefined ->
  delegate w d results r =
  (Normal (results ++ ["Error: Unknown agent '" +:+ agent d +:+ "'"]), afterTask w r d).
Proof.
  intros Hworker.
  unfold_turn.
  rewrite Hworker. reflexivity.
Qed.

Lemma delegate_inherited r d results :
  getProperty (workers (swarm r)) (agent d) = Inherited ->
  delegate w d results r =
  (Throw "TypeError: worker.execute is not a function", afterTask w r d).
Proof.
  intros Hworker.
  unfold_turn.
  rewrite Hworker. reflexivity.
Qed.

Lemma runDelegations_app pre post : forall results r,
  runDelegations w (pre ++ post) results r =
  match runDelegations w pre results r with
  | (Normal results', r') => runDelegations w post results' r'
  | (Throw e, r') => (Throw e, r')
  end.
Proof.
  induction pre as [|d pre IH]; intros results r; [reflexivity|].
  cbn [app runDelegations]. unfold bindM.
  destruct (delegate w d results r) as [[results'|e] r']; [apply IH | reflexivity].
Qed.

(** Each turn that completes appends one result. *)
Lemma delegate_appends d results r results' r' :
  delegate w d results r = (Normal results', r') ->
  exists result, results' = results ++ [result].
Proof.
  unfold_turn.
  destruct (getProperty _ _) as [worker| |].
  - destruct (BaseAgent.execute _ worker _ _). intros [= <- _]. eauto.
  - discriminate.
  - intros [= <- _]. eauto.
Qed.

(** The loop only appends: one result for each delegation, in order. *)
Lemma runDelegations_appends ds : forall results r results' r',
  runDelegations w ds results r = (Normal results', r') ->
  exists added, results' = results ++ added /\ length added = length ds.
Proof.
  induction ds as [|d ds IH]; intros results r results' r' H.
  - injection H as <- _. exists []. rewrite app_nil_r. auto.
  - cbn [runDelegations] in H. unfold bindM in H.
    destruct (delegate w d results r) as [[results1|e] r1] eqn:Hd; [|discriminate].
    destruct (delegate_appends _ _ _ _ _ Hd) as [result ->].
    destruct (IH _ _ _ _ H) as (added & -> & Hlen).
    exists (result :: added). rewrite <- app_assoc. cbn. auto.
Qed.

Lemma renderContext_snoc (context : list Message.t) (msg : Message.t) :
  BaseAgent.renderContext (context ++ [msg])
  = BaseAgent.renderContext context +:+ "[" +:+ orElse (Message.from msg) "unknown" +:+ "]: "
    +:+ orElse (Message.content msg) "" +:+ nl.
Proof. unfold BaseAgent.renderContext. rewrite fold_left_app. reflexivity. Qed.

Lemma orElse_empty (s : string) : orElse s "" = s.
Proof. destruct s; reflexivity. Qed.

(** The prompt of a context that is not empty: the instruction, the task,
    and the rendering of every message of the context. *)
Lemma fullPrompt_snoc (a : BaseAgent.t) (agentTask : string) (context : list Message.t)
    (msg : Message.t) :
  BaseAgent.fullPrompt a agentTask (Some (context ++ [msg]))
  = BaseAgent.systemPrompt a +:+ (nl +:+ nl +:+ "Task: " +:+ agentTask)
    +:+ BaseAgent.renderContext (context ++ [msg]).
Proof. unfold BaseAgent.fullPrompt. destruct context; reflexivity. Qed.

Lemma fullPrompt_length (a : BaseAgent.t) (agentTask : string) (context : list Message.t) :
  String.length (BaseAgent.fullPrompt a agentTask (Some context))
  <= String.length (BaseAgent.systemPrompt a)
     + String.length (nl +:+ nl +:+ "Task: " +:+ agentTask)
     + String.length (BaseAgent.renderContext context).
Proof.
  unfold BaseAgent.fullPrompt. destruct context as [|msg context].
  - cbn [app String.concat]. rewrite !DateFacts.length_append. cbn [String.length]. lia.
  - cbn [app String.concat]. rewrite !DateFacts.length_append. cbn [String.length]. lia.
Qed.

(** C10: [delegate] records the task message of the delegation before it
    asks the bus for the worker's context, so the context that
    [worker.execute] receives is the worker's earlier messages followed by
    that task message, not the earlier messages alone.  The theorem gives
    the context that the query returns, the run of the worker on it, the
    prompt that this context makes (it ends with the rendering
    "[router]: <task>" of the task message, after the rendering of the
    earlier messages), the result of the turn as what the model answers to
    that prompt, and the difference with the prompt of the earlier messages
    alone, which is shorter. *)
Theorem worker_context_ends_with_task r d results worker :
  workers (swarm r) !! agent d = Some worker ->
  let prior := MessageBus.getContextFor (messageBus (swarm r)) (agent d) in
  let context := prior ++ [taskMessage w r d] in
  let prompt :=
    BaseAgent.systemPrompt worker +:+ (nl +:+ nl +:+ "Task: " +:+ task d)
    +:+ (BaseAgent.renderContext prior +:+ "[router]: " +:+ task d +:+ nl) in
  let run := BaseAgent.execute (genai w (modelCalls r)) worker (task d) (Some context) in
  delegate w d results r = (Normal (results ++ [snd run]), afterWorker w r d (fst run) (snd run)) /\
  MessageBus.getContextFor (busWithTask w r d) (agent d) = context /\
  last context = Some (taskMessage w r d) /\
  Message.type (taskMessage w r d) = "task" /\
  Message.content (taskMessage w r d) = task d /\
  context <> prior /\
  BaseAgent.fullPrompt worker (task d) (Some context) = prompt /\
  (forall client,
      BaseAgent.model worker = Some client ->
      snd run
      = match BaseAgent.modelOutput (genai w (modelCalls r)) worker client prompt with
        | Normal output => output
        | Throw error => "[" +:+ BaseAgent.role worker +:+ "] Error executing task: " +:+ error
        end) /\
  String.length (BaseAgent.fullPrompt worker (task d) (Some prior)) < String.length prompt.
Proof.
  intros Hworker prior context prompt run.
  assert (Hcontext : MessageBus.getContextFor (busWithTask w r d) (agent d) = context)
    by (unfold busWithTask; apply MessageBusFacts.getContextFor_send_to).
  assert (Hprompt : BaseAgent.fullPrompt worker (task d) (Some context) = prompt).
  { unfold context, prompt. rewrite fullPrompt_snoc, renderContext_snoc.
    cbn [taskMessage Message.from Message.content]. rewrite orElse_empty. reflexivity. }
  split; [|split; [|split; [|split; [|split; [|split; [|split; [|split]]]]]]].
  - rewrite (delegate_own _ _ _ _ Hworker). cbn zeta. rewrite Hcontext. reflexivity.
  - exact Hcontext.
  - apply last_snoc.
  - reflexivity.
  - reflexivity.
  - intros Heq. apply (f_equal length) in Heq.
    unfold context in Heq. rewrite length_app in Heq. cbn in Heq. lia.
  - exact Hprompt.
  - intros client Hclient. unfold run, BaseAgent.execute. rewrite Hclient, Hprompt.
    destruct (BaseAgent.modelOutput _ worker client prompt); reflexivity.
  - pose proof (fullPrompt_length worker (task d) prior) as Hprior.
    unfold prompt. rewrite !DateFacts.length_append in *. cbn [String.length] in *. lia.
Qed.

(** C6, amended: when the model call of a registered worker throws, the
    turn of its delegation completes with the result
    "[<role>] Error executing task: <cause>", recorded at the position of
    the delegation; the loop goes on with the remaining delegations, and
    [execute] with them and the synthesis. *)
Theorem worker_failure_recorded pre d post r0 results1 r1 worker client error :
  runDelegations w pre [] r0 = (Normal results1, r1) ->
  workers (swarm r1) !! agent d = Some worker ->
  BaseAgent.model worker = Some client ->
  BaseAgent.modelOutput (genai w (modelCalls r1)) worker client
    (BaseAgent.fullPrompt worker (task d)
       (Some (MessageBus.getContextFor (busWithTask w r1 d) (agent d))))
  = Throw error ->
  let result := "[" +:+ BaseAgent.role worker +:+ "] Error executing task: " +:+ error in
  let r2 := afterWorker w r1 d worker result in
  delegate w d results1 r1 = (Normal (results1 ++ [result]), r2) /\
  runDelegations w (pre ++ d :: post) [] r0
  = runDelegations w post (results1 ++ [result]) r2 /\
  (forall results r3,
      runDelegations w post (results1 ++ [result]) r2 = (Normal results, r3) ->
      results !! length pre = Some result /\ length results = length (pre ++ d :: post)) /\
  (forall userTask r,
      analyzeAndDelegate w userTask r = (Normal (pre ++ d :: post), r0) ->
      execute w userTask r =
      match runDelegations w post (results1 ++ [result]) r2 with
      | (Normal results, r3) => synthesizeResults w (pre ++ d :: post) results r3
      | (Throw e, r3) => (Throw e, r3)
      end).
Proof.
  intros Hpre Hworker Hmodel Hthrow result r2.
  assert (Hturn : delegate w d results1 r1 = (Normal (results1 ++ [result]), r2)).
  { rewrite (delegate_own _ _ _ _ Hworker). cbn zeta.
    unfold BaseAgent.execute. rewrite Hmodel, Hthrow. reflexivity. }
  assert (Hloop : runDelegations w (pre ++ d :: post) [] r0
                  = runDelegations w post (results1 ++ [result]) r2).
  { rewrite runDelegations_app, Hpre. cbn [runDelegations]. unfold bindM.
    rewrite Hturn. reflexivity. }
  destruct (runDelegations_appends _ _ _ _ _ Hpre) as (added1 & Hadded1 & Hlen1).
  cbn [app] in Hadded1. subst added1.
  split; [exact Hturn|]. split; [exact Hloop|]. split.
  - intros results r3 Hpost.
    destruct (runDelegations_appends _ _ _ _ _ Hpost) as (added & -> & Hlen).
    split.
    + rewrite <- app_assoc, lookup_app_r by lia.
      rewrite Hlen1, Nat.sub_diag. reflexivity.
    + rewrite !length_app. cbn. lia.
  - intros userTask r Hplan. unfold execute, bindM.
    rewrite Hplan, Hloop. reflexivity.
Qed.

End Run.

Lemma worker_failure_recorded_witness :
  delegate failingWorld (mkDelegation "coder" "write X") []
    (start (new BaseAgent.GenAIClient))
  = (Normal ["[coder] Error executing task: Error: quota exceeded"],
     afterWorker failingWorld (start (new BaseAgent.GenAIClient))
       (mkDelegation "coder" "write X") (CoderAgent.new BaseAgent.GenAIClient)
       "[coder] Error executing task: Error: quota exceeded").
Proof.
  destruct (worker_failure_recorded failingWorld
              [] (mkDelegation "coder" "write X") []
              (start (new BaseAgent.GenAIClient)) []
              (start (new BaseAgent.GenAIClient))
              (CoderAgent.new BaseAgent.GenAIClient) BaseAgent.GenAIClient
              "Error: quota exceeded")
    as [Hturn _].
  - reflexivity.
  - vm_compute. reflexivity.
  - reflexivity.
  - vm_compute. reflexivity.
  - exact Hturn.
Defined.

(** C6, as stated, fails: the text recorded for the failed worker starts
    with the role of the worker, not with "Error executing task: ". *)
Lemma worker_failure_text_has_role_prefix :
  fst (runDelegations failingWorld [mkDelegation "coder" "write X"] []
         (start (new BaseAgent.GenAIClient)))
  = Normal ["[coder] Error executing task: Error: quota exceeded"] /\
  fst (runDelegations failingWorld [mkDelegation "coder" "write X"] []
         (start (new BaseAgent.GenAIClient)))
  <> Normal ["Error executing task: " +:+ "Error: quota exceeded"].
Proof. split; [vm_compute; reflexivity | vm_compute; discriminate]. Qed.

Lemma worker_context_ends_with_task_witness :
  BaseAgent.fullPrompt coderAfterFirstDelegation "test X"
    (Some (MessageBus.getContextFor (messageBus (swarm afterFirstDelegation)) "coder"
           ++ [taskMessage echoWorld afterFirstDelegation (mkDelegation "coder" "test X")]))
  = CoderAgent.systemPrompt +:+ (nl +:+ nl +:+ "Task: test X")
    +:+ (BaseAgent.renderContext
           (MessageBus.getContextFor (messageBus (swarm afterFirstDelegation)) "coder")
         +:+ "[router]: test X" +:+ nl).
Proof.
  destruct (worker_context_ends_with_task echoWorld afterFirstDelegation
              (mkDelegation "coder" "test X") [] coderAfterFirstDelegation)
    as (_ & _ & _ & _ & _ & _ & Hprompt & _).
  - vm_compute. reflexivity.
  - exact Hprompt.
Defined.

(** C5 fails on the code at this plan: "constructor" is not in the worker
    registry, yet the lookup [this.workers[agentName]] finds the inherited
    [Object.prototype.constructor], the [!worker] test passes, no error
    text is recorded, and [worker.execute] throws: [execute] rejects. *)
Theorem execute_inherited_name_rejects :
  let r := start (new BaseAgent.GenAIClient) in
  workers (swarm r) !! "constructor" = None /\
  fst (analyzeAndDelegate inheritedNameWorld "do it" r)
  = Normal [mkDelegation "constructor" "x"] /\
  fst (execute inheritedNameWorld "do it" r)
  = Throw "TypeError: worker.execute is not a function".
Proof. repeat split; vm_compute; reflexivity. Qed.

End SwarmFacts.

(** ** The MCP tool registry *)

Module McpFacts.
Import Js JsFacts McpClient Scenarios McpSpecs.

Lemma getPrefixedName_eq (tool : MCPTool.t) (prefix : string) :
  getPrefixedName tool prefix
  = prefix +:+ (MCPTool.serverName tool +:+ String "_" (MCPTool.originalName tool)).
Proof. unfold getPrefixedName. destruct prefix; reflexivity. Qed.

(** Two texts cut at an underscore are cut at the same place when neither
    head holds an underscore. *)
Lemma underscore_cut (p1 : string) : forall p2 n1 n2,
  includes p1 "_" = false -> includes p2 "_" = false ->
  p1 +:+ String "_" n1 = p2 +:+ String "_" n2 -> p1 = p2 /\ n1 = n2.
Proof.
  induction p1 as [|c1 p1 IH]; intros [|c2 p2] n1 n2 H1 H2 Heq.
  - injection Heq as ->. auto.
  - apply includes_char_cons in H2 as [Hne _].
    rewrite append_nil_l, append_cons in Heq. injection Heq as Hc _. congruence.
  - apply includes_char_cons in H1 as [Hne _].
    rewrite append_nil_l, append_cons in Heq. injection Heq as Hc _. congruence.
  - apply includes_char_cons in H1 as [_ H1]. apply includes_char_cons in H2 as [_ H2].
    rewrite !append_cons in Heq. injection Heq as -> Heq.
    destruct (IH _ _ _ H1 H2 Heq) as [-> ->]. auto.
Qed.

Lemma getPrefixedName_inj (prefix : string) (t1 t2 : MCPTool.t) :
  includes (MCPTool.serverName t1) "_" = false ->
  includes (MCPTool.serverName t2) "_" = false ->
  getPrefixedName t1 prefix = getPrefixedName t2 prefix ->
  MCPTool.serverName t1 = MCPTool.serverName t2 /\
  MCPTool.originalName t1 = MCPTool.originalName t2.
Proof.
  intros H1 H2. rewrite !getPrefixedName_eq. intros Heq.
  apply append_inj_l in Heq. exact (underscore_cut _ _ _ _ H1 H2 Heq).
Qed.

Lemma append_assoc (a b c : string) : (a +:+ b) +:+ c = a +:+ (b +:+ c).
Proof. induction a as [|x a IH]; [reflexivity|]. rewrite !append_cons, IH. reflexivity. Qed.

Lemma append_nil_r (a : string) : a +:+ "" = a.
Proof. induction a as [|x a IH]; [reflexivity|]. rewrite append_cons, IH. reflexivity. Qed.

(** Two ways of cutting one text: one head is the other followed by what
    the tails differ by. *)
Lemma append_eq_cases (a : string) : forall b c d,
  a +:+ b = c +:+ d ->
  (exists x, c = a +:+ x /\ b = x +:+ d) \/ (exists x, a = c +:+ x /\ d = x +:+ b).
Proof.
  induction a as [|x a IH]; intros b c d Heq.
  - left. exists c. rewrite !append_nil_l in *. auto.
  - destruct c as [|y c].
    + right. exists (String x a). rewrite !append_nil_l in *. auto.
    + rewrite !append_cons in Heq. injection Heq as -> Heq.
      destruct (IH _ _ _ Heq) as [(z & -> & ->)|(z & -> & ->)]; [left | right];
        exists z; rewrite ?append_cons; auto.
Qed.

Lemma stripPrefix_spec (p : string) : forall s x, stripPrefix p s = Some x <-> s = p +:+ x.
Proof.
  induction p as [|c p IH]; intros s x; cbn [stripPrefix].
  - rewrite append_nil_l. split; [intros [= ->] | intros ->]; reflexivity.
  - destruct s as [|c' s].
    + rewrite append_cons. split; discriminate.
    + rewrite append_cons. destruct (Ascii.eqb_spec c c') as [->|Hne].
      * rewrite IH. split; [intros ->; reflexivity | intros [= ->]; reflexivity].
      * split; [discriminate | intros [= Hc _]; congruence].
Qed.

Lemma straddles_spec (t1 t2 : MCPTool.t) :
  straddles t1 t2 = true
  <-> exists x,
        MCPTool.serverName t2 = MCPTool.serverName t1 +:+ String "_" x /\
        MCPTool.originalName t1 = x +:+ String "_" (MCPTool.originalName t2).
Proof.
  unfold straddles. split.
  - destruct (stripPrefix _ _) as [x|] eqn:Hstrip; [|discriminate].
    apply stripPrefix_spec in Hstrip. rewrite append_assoc in Hstrip.
    intros Heq%String.eqb_eq. eauto.
  - intros (x & Hserver & Hname).
    assert (Hstrip : stripPrefix (MCPTool.serverName t1 +:+ "_") (MCPTool.serverName t2)
                     = Some x)
      by (apply stripPrefix_spec; rewrite append_assoc; exact Hserver).
    rewrite Hstrip. apply String.eqb_eq. exact Hname.
Qed.

(** When two derived names are the same. *)
Lemma getPrefixedName_collide (prefix : string) (t1 t2 : MCPTool.t) :
  getPrefixedName t1 prefix = getPrefixedName t2 prefix
  <-> (MCPTool.serverName t1, MCPTool.originalName t1)
      = (MCPTool.serverName t2, MCPTool.originalName t2)
      \/ straddles t1 t2 = true \/ straddles t2 t1 = true.
Proof.
  rewrite !getPrefixedName_eq, !straddles_spec. split.
  - intros Heq%append_inj_l.
    destruct (append_eq_cases _ _ _ _ Heq) as [(x & Hs & Ho)|(x & Hs & Ho)].
    + destruct x as [|c x].
      * left. rewrite append_nil_r in Hs. rewrite append_nil_l in Ho.
        injection Ho as ->. rewrite Hs. reflexivity.
      * right. left. rewrite append_cons in Ho. injection Ho as <- Ho. eauto.
    + destruct x as [|c x].
      * left. rewrite append_nil_r in Hs. rewrite append_nil_l in Ho.
        injection Ho as ->. rewrite Hs. reflexivity.
      * right. right. rewrite append_cons in Ho. injection Ho as <- Ho. eauto.
  - intros [Hsame|[Hs|Hs]].
    + injection Hsame as -> ->. reflexivity.
    + destruct Hs as (x & -> & ->). f_equal. rewrite append_assoc. reflexivity.
    + destruct Hs as (x & -> & ->). f_equal. rewrite append_assoc. reflexivity.
Qed.

Lemma straddles_longer (t1 t2 : MCPTool.t) :
  straddles t1 t2 = true ->
  String.length (MCPTool.serverName t1) < String.length (MCPTool.serverName t2) /\
  String.length (MCPTool.originalName t2) < String.length (MCPTool.originalName t1).
Proof.
  intros (x & -> & ->)%straddles_spec.
  rewrite !DateFacts.length_append. cbn [String.length]. lia.
Qed.

Lemma entries_same_key {V : Type} (entries : list (string * V)) (k : string) (a b : V) :
  NoDup (map fst entries) -> (k, a) ∈ entries -> (k, b) ∈ entries -> a = b.
Proof.
  induction entries as [|[k' v] rest IH]; intros Hnodup Ha Hb; [inversion Ha|].
  cbn [map fst] in Hnodup. apply NoDup_cons in Hnodup as [Hhead Hrest].
  apply elem_of_cons in Ha as [Ha|Ha]; apply elem_of_cons in Hb as [Hb|Hb].
  - congruence.
  - exfalso. apply Hhead. injection Ha as <- _.
    exact (list_elem_of_fmap_2 fst _ _ Hb).
  - exfalso. apply Hhead. injection Hb as <- _.
    exact (list_elem_of_fmap_2 fst _ _ Ha).
  - exact (IH Hrest Ha Hb).
Qed.

Section Registry.
Context {Args : Type}.
Abbreviation Connection := (MCPServerConnection Args).
Abbreviation Wrapper := (ToolWrapper Args).

(** What the inner loop leaves under a name: the wrapper of the last tool
    of the list with that derived name, or what was there. *)
Lemma registerTools_lookup (prefix : string) (connection : Connection) (k : string)
    (l : list MCPTool.t) : forall callables : gmap string Wrapper,
  let result :=
    fold_left (fun callables tool =>
                 <[getPrefixedName tool prefix := createToolWrapper connection tool]>
                   callables) l callables in
  (exists tool, tool ∈ l /\ getPrefixedName tool prefix = k /\
                result !! k = Some (createToolWrapper connection tool)) \/
  ((forall tool, tool ∈ l -> getPrefixedName tool prefix <> k) /\
   result !! k = callables !! k).
Proof.
  induction l as [|tool l IH]; intros callables; cbn [fold_left].
  - right. split; [|reflexivity]. intros tool H. inversion H.
  - destruct (IH (<[getPrefixedName tool prefix := createToolWrapper connection tool]>
                    callables))
      as [(tool' & Hin & Hk & Hl) | [Hnone Hl]].
    + left. exists tool'. split; [right; exact Hin | auto].
    + destruct (decide (getPrefixedName tool prefix = k)) as [Hk | Hk].
      * left. exists tool. split; [left|]. split; [exact Hk|].
        cbn zeta in Hl. rewrite Hl, Hk. apply lookup_insert_eq.
      * right. split.
        -- intros tool' [-> | Hin]%elem_of_cons; auto.
        -- cbn zeta in Hl. rewrite Hl. apply lookup_insert_ne. exact Hk.
Qed.

(** The same for the whole registry. *)
Lemma callables_lookup (prefix : string) (k : string)
    (entries : list (string * Connection)) : forall callables : gmap string Wrapper,
  let result :=
    fold_left (fun callables entry =>
                 let connection := snd entry in
                 if negb (connected connection) then callables
                 else registerTools prefix connection callables) entries callables in
  (exists entry tool, entry ∈ entries /\ connected (snd entry) = true /\
                      tool ∈ tools (snd entry) /\ getPrefixedName tool prefix = k /\
                      result !! k = Some (createToolWrapper (snd entry) tool)) \/
  ((forall entry tool, entry ∈ entries -> connected (snd entry) = true ->
                       tool ∈ tools (snd entry) -> getPrefixedName tool prefix <> k) /\
   result !! k = callables !! k).
Proof.
  induction entries as [|entry entries IH]; intros callables; cbn [fold_left].
  - right. split; [|reflexivity]. intros entry tool H. inversion H.
  - cbn zeta.
    destruct (connected (snd entry)) eqn:Hc; cbn [negb].
    + destruct (IH (registerTools prefix (snd entry) callables))
        as [(entry' & tool & Hin & Hc' & Ht & Hk & Hl) | [Hnone Hl]].
      * left. exists entry', tool. split; [right; exact Hin | auto].
      * cbn zeta in Hl.
        destruct (registerTools_lookup prefix (snd entry) k (tools (snd entry)) callables)
          as [(tool & Ht & Hk & Hl') | [Hnone' Hl']]; cbn zeta in Hl'.
        -- left. exists entry, tool. split; [left|]. repeat split; auto.
           rewrite Hl. exact Hl'.
        -- right. split.
           ++ intros entry' tool [-> | Hin]%elem_of_cons; eauto.
           ++ rewrite Hl. exact Hl'.
    + destruct (IH callables)
        as [(entry' & tool & Hin & Hc' & Ht & Hk & Hl) | [Hnone Hl]].
      * left. exists entry', tool. split; [right; exact Hin | auto].
      * right. split; [|exact Hl].
        intros entry' tool [-> | Hin]%elem_of_cons; [congruence | eauto].
Qed.

(** C4, amended: two derived local names are the same exactly when the
    (provider, original name) pairs are the same or one tool straddles the
    other: the provider name of the one is the provider name of the other
    followed by "_x", and the original name of the other is "x_" followed
    by the original name of the one.  So two tools of one provider with
    different original names, two tools with the same original name on
    different providers, and two tools whose provider names hold no
    underscore never collide.  And for a tool of a connected server that
    straddles no tool of a connected server and that none straddles, the
    registry keeps under its local name a callable made from a connected
    server of the manager and a tool of that server with the same provider
    and original name; in a manager whose servers are as [initialize] leaves
    them, that server is the tool's own and the callable calls it as a
    callable made from the tool itself would. *)
Theorem prefixed_names_collide_only_straddling (m : MCPClientManager Args) :
  (forall tool1 tool2 : MCPTool.t,
      getPrefixedName tool1 (toolPrefix m) = getPrefixedName tool2 (toolPrefix m)
      <-> (MCPTool.serverName tool1, MCPTool.originalName tool1)
          = (MCPTool.serverName tool2, MCPTool.originalName tool2)
          \/ straddles tool1 tool2 = true \/ straddles tool2 tool1 = true) /\
  (forall tool1 tool2 : MCPTool.t,
      MCPTool.serverName tool1 = MCPTool.serverName tool2 ->
      MCPTool.originalName tool1 <> MCPTool.originalName tool2 ->
      getPrefixedName tool1 (toolPrefix m) <> getPrefixedName tool2 (toolPrefix m)) /\
  (forall tool1 tool2 : MCPTool.t,
      MCPTool.originalName tool1 = MCPTool.originalName tool2 ->
      MCPTool.serverName tool1 <> MCPTool.serverName tool2 ->
      getPrefixedName tool1 (toolPrefix m) <> getPrefixedName tool2 (toolPrefix m)) /\
  (forall tool1 tool2 : MCPTool.t,
      includes (MCPTool.serverName tool1) "_" = false ->
      includes (MCPTool.serverName tool2) "_" = false ->
      (MCPTool.serverName tool1, MCPTool.originalName tool1)
      <> (MCPTool.serverName tool2, MCPTool.originalName tool2) ->
      getPrefixedName tool1 (toolPrefix m) <> getPrefixedName tool2 (toolPrefix m)) /\
  forall entry1 tool1,
    entry1 ∈ servers m -> connected (snd entry1) = true -> tool1 ∈ tools (snd entry1) ->
    (forall entry2 tool2,
        entry2 ∈ servers m -> connected (snd entry2) = true -> tool2 ∈ tools (snd entry2) ->
        straddles tool1 tool2 = false /\ straddles tool2 tool1 = false) ->
    exists wrapper,
      getAllToolsAsCallables m !! getPrefixedName tool1 (toolPrefix m) = Some wrapper /\
      MCPTool.serverName (w_tool wrapper) = MCPTool.serverName tool1 /\
      MCPTool.originalName (w_tool wrapper) = MCPTool.originalName tool1 /\
      (exists entry,
          entry ∈ servers m /\ connected (snd entry) = true /\
          w_connection wrapper = snd entry /\ w_tool wrapper ∈ tools (snd entry)) /\
      (sound m ->
       w_connection wrapper = snd entry1 /\
       forall args,
         callWrapper wrapper args = callWrapper (createToolWrapper (snd entry1) tool1) args).
Proof.
  split; [intros tool1 tool2; apply getPrefixedName_collide|].
  split; [|split; [|split]].
  - intros tool1 tool2 Hserver Hname [[= _ Ho]|[Hs|Hs]]%getPrefixedName_collide.
    + contradiction.
    + apply straddles_longer in Hs as [Hs _]. rewrite Hserver in Hs. lia.
    + apply straddles_longer in Hs as [Hs _]. rewrite Hserver in Hs. lia.
  - intros tool1 tool2 Hname Hserver [[= Hs _]|[Hs|Hs]]%getPrefixedName_collide.
    + contradiction.
    + apply straddles_longer in Hs as [_ Hs]. rewrite Hname in Hs. lia.
    + apply straddles_longer in Hs as [_ Hs]. rewrite Hname in Hs. lia.
  - intros tool1 tool2 H1 H2 Hpairs Heq.
    destruct (getPrefixedName_inj (toolPrefix m) tool1 tool2 H1 H2 Heq) as [Hs Ho].
    apply Hpairs. congruence.
  - intros entry1 tool1 Hin1 Hc1 Ht1 Halone.
    unfold getAllToolsAsCallables.
    destruct (callables_lookup (toolPrefix m) (getPrefixedName tool1 (toolPrefix m))
                (servers m) ∅)
      as [(entry & tool & Hin & Hc & Ht & Hk & Hl) | [Hnone _]]; cbn zeta in *.
    + assert (Hpair : MCPTool.serverName tool = MCPTool.serverName tool1 /\
                      MCPTool.originalName tool = MCPTool.originalName tool1).
      { destruct (Halone entry tool Hin Hc Ht) as [H12 H21].
        apply getPrefixedName_collide in Hk as [[= -> ->]|[Hs|Hs]]; [auto | congruence ..]. }
      destruct Hpair as [Hserver Hname].
      exists (createToolWrapper (snd entry) tool). cbn [w_tool w_connection].
      split; [exact Hl|]. split; [exact Hserver|]. split; [exact Hname|].
      split; [exists entry; auto|].
      intros [Hnodup Hall]. rewrite Forall_forall in Hall.
      destruct (Hall entry Hin) as (_ & _ & Htools).
      destruct (Hall entry1 Hin1) as (_ & _ & Htools1).
      rewrite Forall_forall in Htools, Htools1.
      destruct (Htools tool Ht) as (Hkey & _). destruct (Htools1 tool1 Ht1) as (Hkey1 & _).
      assert (Hsame : snd entry = snd entry1).
      { destruct entry as [k c], entry1 as [k1 c1]. cbn [fst snd] in *.
        apply (entries_same_key (servers m) k c c1 Hnodup Hin).
        replace k with k1 by congruence. exact Hin1. }
      split; [exact Hsame|]. intros args. unfold callWrapper. cbn [w_tool w_connection].
      rewrite Hsame, Hname. reflexivity.
    + exfalso. exact (Hnone entry1 tool1 Hin1 Hc1 Ht1 eq_refl).
Qed.

End Registry.
(** C4, as stated, fails: the tool "c" of the server "a_b" and the tool
    "b_c" of the server "a" both get the local name "mcp_a_b_c", and the
    registry keeps one entry for the two of them. *)
Lemma prefixed_names_collide :
  (MCPTool.serverName toolC, MCPTool.originalName toolC)
  <> (MCPTool.serverName toolBC, MCPTool.originalName toolBC) /\
  getPrefixedName toolC "mcp_" = getPrefixedName toolBC "mcp_" /\
  length (getAllTools collidingManager) = 2 /\
  size (getAllToolsAsCallables collidingManager) = 1.
Proof. repeat split; [discriminate | vm_compute; reflexivity ..]. Qed.

Lemma prefixed_names_collide_only_straddling_witness :
  exists wrapper,
    getAllToolsAsCallables braveManager !! "mcp_brave_search_web_search" = Some wrapper /\
    w_connection wrapper = braveConnection /\
    MCPTool.originalName (w_tool wrapper) = "web_search".
Proof.
  destruct (prefixed_names_collide_only_straddling braveManager) as (_ & _ & _ & _ & Hkept).
  destruct (Hkept ("brave_search", braveConnection)
              (MCPTool.mk "web_search" "searches the web" "brave_search" "{}" "web_search"))
    as (wrapper & Hlookup & _ & Hname & _ & Hown).
  - cbn. left.
  - reflexivity.
  - cbn. left.
  - intros entry2 tool2 Hentry _ Htool.
    cbn in Hentry. apply list_elem_of_singleton in Hentry as ->.
    cbn in Htool.
    apply elem_of_cons in Htool as [-> | Htool];
      [|apply list_elem_of_singleton in Htool as ->]; split; reflexivity.
  - exists wrapper. split; [exact Hlookup|]. split; [|exact Hname].
    apply Hown. split.
    + cbn. repeat constructor. intros H. inversion H.
    + repeat constructor; cbn; eauto.
Defined.

End McpFacts.

(** ** The tool dispatch of the agent *)

Module GeminiAgentFacts.
Import Js GeminiAgent.

(** C7: the dispatch of a tool call whose name is not in [availableTools]
    completes, whatever the name and the arguments, with the text
    "Requested tool '<name>' is not registered."; nothing is thrown. *)
Theorem observe_unregistered {Args : Type}
    (availableTools : gmap string (ToolFunction Args)) (toolName : string) (toolArgs : Args) :
  availableTools !! toolName = None ->
  observe availableTools toolName toolArgs
  = Normal ("Requested tool '" +:+ toolName +:+ "' is not registered.").
Proof. unfold observe, ToolFunction in *. intros ->. reflexivity. Qed.

Lemma observe_unregistered_witness :
  observe (loadMcpTools (McpClient.getAllToolsAsCallables Scenarios.cleanManager) ∅)
          "mcp_mail_send" tt
  = Normal "Requested tool 'mcp_mail_send' is not registered.".
Proof.
  apply (observe_unregistered
           (loadMcpTools (McpClient.getAllToolsAsCallables Scenarios.cleanManager) ∅)
           "mcp_mail_send" tt).
  vm_compute. reflexivity.
Defined.

(** The dispatch never throws, registered or not. *)
Lemma observe_completes {Args : Type}
    (availableTools : gmap string (ToolFunction Args)) (toolName : string) (toolArgs : Args) :
  exists observation, observe availableTools toolName toolArgs = Normal observation.
Proof.
  unfold observe. destruct (_ !! toolName) as [toolFn|]; [|eauto].
  destruct (toolFn toolArgs); eauto.
Qed.

End GeminiAgentFacts.


(* ===================================================================== *)
(** * Further properties of the code *)
(* ===================================================================== *)

(** ** Strings, continued *)

Module JsMoreFacts.
Import Js JsFacts Specs.

Lemma includes_char_intro (sep c : ascii) (s : string) :
  c <> sep -> includes s (String sep "") = false ->
  includes (String c s) (String sep "") = false.
Proof.
  intros Hne Hs. rewrite includes_cons, Hs, orb_false_r. simpl.
  destruct (ascii_dec sep c) as [->|]; [congruence | reflexivity].
Qed.

Lemma includes_char_nil (sep : ascii) : includes "" (String sep "") = false.
Proof. reflexivity. Qed.

Lemma trimStart_no_char (sep : ascii) (s : string) :
  includes s (String sep "") = false -> includes (trimStart s) (String sep "") = false.
Proof.
  induction s as [|c s IH]; intros H; [exact H|].
  cbn [trimStart]. destruct (isWhiteSpace c); [|exact H].
  apply includes_char_cons in H as [_ H]. auto.
Qed.

Lemma trimEnd_no_char (sep : ascii) (s : string) :
  includes s (String sep "") = false -> includes (trimEnd s) (String sep "") = false.
Proof.
  induction s as [|c s IH]; intros H; [exact H|].
  apply includes_char_cons in H as [Hne H]. specialize (IH H).
  cbn [trimEnd]. destruct (trimEnd s) as [|c' t].
  - destruct (isWhiteSpace c); [reflexivity|].
    apply includes_char_intro; [exact Hne | reflexivity].
  - apply includes_char_intro; assumption.
Qed.

Lemma trim_no_char (sep : ascii) (s : string) :
  includes s (String sep "") = false -> includes (trim s) (String sep "") = false.
Proof. intros H. unfold trim. apply trimEnd_no_char, trimStart_no_char, H. Qed.

(** No piece of a split holds the separator. *)
Lemma split_pieces_no_sep (sep : ascii) (s : string) :
  Forall (fun piece => includes piece (String sep "") = false) (split sep s).
Proof.
  induction s as [|c s IH]; cbn [split].
  - repeat constructor.
  - destruct (Ascii.eqb_spec c sep) as [->|Hne].
    + constructor; [reflexivity | exact IH].
    + destruct (split sep s) as [|piece rest].
      * repeat constructor. apply includes_char_intro; [exact Hne | reflexivity].
      * inversion IH as [|? ? Hp Hrest]; subst.
        constructor; [|exact Hrest]. apply includes_char_intro; assumption.
Qed.

(** A text without the separator is its own single piece. *)
Lemma split_none (sep : ascii) (s : string) :
  includes s (String sep "") = false -> split sep s = [s].
Proof.
  induction s as [|c s IH]; intros H; [reflexivity|].
  apply includes_char_cons in H as [Hne H]. cbn [split].
  destruct (Ascii.eqb_spec c sep) as [->|_]; [congruence|].
  rewrite (IH H). reflexivity.
Qed.

Lemma trimEnd_cons (c : ascii) (s : string) :
  trimEnd (String c s)
  = match trimEnd s with
    | EmptyString => if isWhiteSpace c then EmptyString else String c EmptyString
    | t => String c t
    end.
Proof. reflexivity. Qed.

Lemma trimStart_startsClean (s : string) : startsClean (trimStart s).
Proof.
  induction s as [|c s IH]; [exact I|].
  cbn [trimStart]. destruct (isWhiteSpace c) eqn:Hc; [exact IH | exact Hc].
Qed.

Lemma trimStart_id (s : string) : startsClean s -> trimStart s = s.
Proof. destruct s as [|c s]; [reflexivity|]. cbn. intros ->. reflexivity. Qed.

Lemma trimEnd_startsClean (s : string) : startsClean s -> startsClean (trimEnd s).
Proof.
  destruct s as [|c s]; [intros _; exact I|]. rewrite trimEnd_cons. cbn [startsClean].
  intros Hc. destruct (trimEnd s); [rewrite Hc|]; exact Hc.
Qed.

Lemma trimEnd_idem (s : string) : trimEnd (trimEnd s) = trimEnd s.
Proof.
  induction s as [|c s IH]; [reflexivity|].
  rewrite trimEnd_cons. destruct (trimEnd s) as [|c' t] eqn:Ht.
  - destruct (isWhiteSpace c) eqn:Hc; [reflexivity|].
    rewrite trimEnd_cons. cbn. rewrite Hc. reflexivity.
  - rewrite trimEnd_cons, IH. reflexivity.
Qed.

Lemma trim_idem (s : string) : trim (trim s) = trim s.
Proof.
  unfold trim.
  rewrite (trimStart_id (trimEnd (trimStart s)))
    by apply trimEnd_startsClean, trimStart_startsClean.
  apply trimEnd_idem.
Qed.

(** A trimmed text has nothing to trim at either end. *)
Lemma trim_fixed (s : string) : trim s = s -> trimStart s = s /\ trimEnd s = s.
Proof.
  intros H.
  assert (Hs : trimStart s = s).
  { apply trimStart_id. rewrite <- H. unfold trim.
    apply trimEnd_startsClean, trimStart_startsClean. }
  split; [exact Hs|]. unfold trim in H. rewrite Hs in H. exact H.
Qed.

Lemma trimEnd_append (p a : string) :
  truthy a = true -> trimEnd a = a -> trimEnd (p +:+ a) = p +:+ a.
Proof.
  intros Ha Hend. induction p as [|c p IH]; [exact Hend|].
  rewrite append_cons, trimEnd_cons, IH.
  destruct (p +:+ a) as [|c' t] eqn:E; [|reflexivity].
  destruct p; [|discriminate E]. rewrite append_nil_l in E. subst a. discriminate Ha.
Qed.

Lemma startsWith_prefix (p r : string) : startsWith (p +:+ r) p = true.
Proof.
  unfold startsWith. induction p as [|c p IH]; [destruct r; reflexivity|].
  rewrite append_cons. simpl. destruct (ascii_dec c c); [exact IH | congruence].
Qed.

(** Joining lines and splitting the text again gives the lines back. *)
Lemma split_concat (sep : ascii) (line : string) (lines : list string) :
  Forall (fun l => includes l (String sep "") = false) (line :: lines) ->
  split sep (String.concat (String sep "") (line :: lines)) = line :: lines.
Proof.
  revert line. induction lines as [|l2 lines IH]; intros line H.
  - inversion H; subst. cbn [String.concat]. apply split_none. assumption.
  - inversion H as [|? ? Hl Hrest]; subst.
    change (String.concat (String sep "") (line :: l2 :: lines))
      with (line +:+ String sep "" +:+ String.concat (String sep "") (l2 :: lines)).
    change (String sep "" +:+ String.concat (String sep "") (l2 :: lines))
      with (String sep (String.concat (String sep "") (l2 :: lines))).
    rewrite (split_first _ _ _ Hl), (IH _ Hrest). reflexivity.
Qed.

End JsMoreFacts.

(** ** The router, continued: what the parser yields and accepts *)

Module RouterMoreFacts.
Import Js JsFacts JsMoreFacts Router RouterFacts Specs.

Lemma includes_char_app (c : ascii) (p a : string) :
  includes p (String c "") = false -> includes a (String c "") = false ->
  includes (p +:+ a) (String c "") = false.
Proof.
  intros Hp Ha. induction p as [|c' p IH]; [exact Ha|].
  apply includes_char_cons in Hp as [Hne Hp]. rewrite append_cons.
  apply includes_char_intro; auto.
Qed.

(** The pieces of a split hold no character that the text does not hold. *)
Lemma split_pieces_no_char (sep c : ascii) (s : string) :
  includes s (String c "") = false ->
  Forall (fun piece => includes piece (String c "") = false) (split sep s).
Proof.
  induction s as [|c' s IH]; intros H; cbn [split].
  - repeat constructor.
  - apply includes_char_cons in H as [Hne H]. specialize (IH H).
    destruct (Ascii.eqb c' sep).
    + constructor; [reflexivity | exact IH].
    + destruct (split sep s) as [|piece rest].
      * repeat constructor. apply includes_char_intro; [exact Hne | reflexivity].
      * inversion IH as [|? ? Hp Hrest]; subst.
        constructor; [|exact Hrest]. apply includes_char_intro; assumption.
Qed.

Lemma fieldOf_readField (line a : string) :
  includes line nl = false -> fieldOf line = Normal a -> readField a.
Proof.
  unfold fieldOf, splitLimit. intros Hnl H.
  destruct (take 2 (split ":" line) !! 1) as [piece|] eqn:E; [|discriminate].
  injection H as <-.
  assert (Hin : piece ∈ split ":" line).
  { apply list_elem_of_lookup_2 in E. eapply subseteq_take. exact E. }
  pose proof (split_pieces_no_sep ":" line) as Hcolon.
  pose proof (split_pieces_no_char ":" "010" line Hnl) as Hbreak.
  rewrite Forall_forall in Hcolon, Hbreak.
  split; [apply trim_idem|]. split; apply trim_no_char; auto.
Qed.

Lemma pushIfComplete_clean cur delegations :
  pendingRead cur -> Forall cleanDelegation delegations ->
  Forall cleanDelegation (pushIfComplete cur delegations).
Proof.
  intros [Ha Ht] Hds. unfold pushIfComplete.
  destruct (p_agent cur) as [a|]; [|exact Hds].
  destruct (p_task cur) as [t|]; [|exact Hds].
  destruct (truthy a) eqn:Hta; [|exact Hds].
  destruct (truthy t) eqn:Htt; [|exact Hds]. cbn [andb].
  apply Forall_app. split; [exact Hds|]. constructor; [|constructor].
  destruct (Ha a eq_refl) as (? & ? & ?). destruct (Ht t eq_refl) as (? & ? & ?).
  repeat split; assumption.
Qed.

Lemma parseLine_clean cur delegations line cur' delegations' :
  includes line nl = false ->
  pendingRead cur -> Forall cleanDelegation delegations ->
  parseLine (cur, delegations) line = Normal (cur', delegations') ->
  pendingRead cur' /\ Forall cleanDelegation delegations'.
Proof.
  intros Hnl Hcur Hds. unfold parseLine.
  assert (Htrim : includes (trim line) nl = false) by (apply trim_no_char, Hnl).
  destruct (startsWith (trim line) "- agent:").
  - destruct (fieldOf (trim line)) as [a|e] eqn:Ha; [|discriminate].
    cbn [bind]. intros [= <- <-]. split; [|apply pushIfComplete_clean; assumption].
    split; cbn; [intros ? [= <-]; eapply fieldOf_readField; eassumption | discriminate].
  - destruct (startsWith (trim line) "- task:" && present (p_agent cur)).
    + destruct (fieldOf (trim line)) as [t|e] eqn:Ht; [|discriminate].
      cbn [bind]. intros [= <- <-]. split; [|exact Hds].
      destruct Hcur as [Hagent _]. split; cbn; [exact Hagent|].
      intros ? [= <-]. eapply fieldOf_readField; eassumption.
    + intros [= <- <-]. auto.
Qed.

Lemma parseLoop_clean lines : forall cur delegations cur' delegations',
  Forall (fun l => includes l nl = false) lines ->
  pendingRead cur -> Forall cleanDelegation delegations ->
  parseLoop lines (cur, delegations) = Normal (cur', delegations') ->
  pendingRead cur' /\ Forall cleanDelegation delegations'.
Proof.
  induction lines as [|line rest IH]; intros cur ds cur' ds' Hlines Hcur Hds H.
  - injection H as <- <-. auto.
  - inversion Hlines as [|? ? Hl Hrest]; subst. cbn [parseLoop] in H.
    destruct (parseLine (cur, ds) line) as [[cur1 ds1]|e] eqn:E; [|discriminate].
    destruct (parseLine_clean _ _ _ _ _ Hl Hcur Hds E) as [Hcur1 Hds1].
    exact (IH _ _ _ _ Hrest Hcur1 Hds1 H).
Qed.

(** Whatever the planning response, the parser completes, and each
    delegation it yields has a non-empty agent and task, with no white space
    around them and no colon or line break inside. *)
Theorem parsed_delegations_clean (analysis : string) :
  exists delegations,
    parseDelegations analysis = Normal delegations /\
    Forall cleanDelegation delegations.
Proof.
  destruct (parseDelegations_total analysis) as [ds Hds]. exists ds.
  split; [exact Hds|].
  unfold parseDelegations, parseLines in Hds.
  destruct (parseLoop _ _) as [[cur acc]|e] eqn:E; [|discriminate].
  injection Hds as <-.
  assert (Hstart : pendingRead (mkPartial None None))
    by (split; intros ? Hsome; discriminate Hsome).
  destruct (parseLoop_clean _ _ _ _ _ (split_pieces_no_sep "010" analysis)
              Hstart (Forall_nil_2 _) E) as [Hcur Hacc].
  apply pushIfComplete_clean; assumption.
Qed.

(** The lines that start neither field do not count: the parser yields what
    it yields on the agent and task lines alone. *)
Theorem parse_skips_other_lines (lines : list string) :
  parseLines lines = parseLines (List.filter isPlanLine lines).
Proof.
  unfold parseLines. generalize (mkPartial None None, @nil Delegation).
  induction lines as [|line rest IH]; intros st; [reflexivity|].
  cbn [List.filter]. unfold isPlanLine at 1.
  destruct (isAgentLine line) eqn:Ha; cbn [orb].
  - cbn [parseLoop]. destruct (parseLine st line); cbn [bind]; [apply IH | reflexivity].
  - destruct (isTaskLine line) eqn:Ht.
    + cbn [parseLoop]. destruct (parseLine st line); cbn [bind]; [apply IH | reflexivity].
    + cbn [parseLoop]. rewrite (parseLine_other _ _ Ha Ht). cbn [bind]. apply IH.
Qed.

Lemma pushIfComplete_length cur delegations :
  length (pushIfComplete cur delegations)
  <= length delegations + (match p_agent cur with Some _ => 1 | None => 0 end).
Proof.
  unfold pushIfComplete. destruct (p_agent cur) as [a|]; [|lia].
  destruct (p_task cur) as [t|]; [|lia].
  destruct (truthy a && truthy t); [rewrite length_app; cbn|]; lia.
Qed.

Lemma parseLoop_count lines : forall cur delegations cur' delegations',
  parseLoop lines (cur, delegations) = Normal (cur', delegations') ->
  length delegations' + (match p_agent cur' with Some _ => 1 | None => 0 end)
  <= length delegations + (match p_agent cur with Some _ => 1 | None => 0 end)
     + length (List.filter isAgentLine lines).
Proof.
  induction lines as [|line rest IH]; intros cur ds cur' ds' H.
  - injection H as <- <-. cbn. lia.
  - cbn [parseLoop] in H.
    destruct (parseLine (cur, ds) line) as [[cur1 ds1]|e] eqn:E; [|discriminate].
    cbn [bind] in H. specialize (IH _ _ _ _ H).
    cbn [List.filter]. unfold parseLine in E. unfold isAgentLine at 1.
    destruct (startsWith (trim line) "- agent:").
    + destruct (fieldOf (trim line)); [|discriminate]. injection E as <- <-.
      pose proof (pushIfComplete_length cur ds). cbn in *. lia.
    + destruct (startsWith (trim line) "- task:" && present (p_agent cur)).
      * destruct (fieldOf (trim line)); [|discriminate]. injection E as <- <-.
        cbn in *. lia.
      * injection E as <- <-. lia.
Qed.

(** The parser yields at most one delegation for each agent line. *)
Theorem parsed_at_most_agent_lines (lines : list string) (delegations : list Delegation) :
  parseLines lines = Normal delegations ->
  length delegations <= length (List.filter isAgentLine lines).
Proof.
  unfold parseLines. intros H.
  destruct (parseLoop lines _) as [[cur acc]|e] eqn:E; [|discriminate].
  injection H as <-.
  pose proof (parseLoop_count _ _ _ _ _ E) as Hcount.
  pose proof (pushIfComplete_length cur acc). cbn in *. lia.
Qed.

Lemma parsed_at_most_agent_lines_witness :
  length [mkDelegation "coder" "write X"; mkDelegation "reviewer" "review X"]
  <= length (List.filter isAgentLine (split "010" Scenarios.orphanPlan)).
Proof.
  apply (parsed_at_most_agent_lines (split "010" Scenarios.orphanPlan)).
  vm_compute. reflexivity.
Defined.

Lemma trim_field_line (head a : string) :
  startsClean head -> truthy head = true ->
  truthy a = true -> trim a = a -> trim (head +:+ a) = head +:+ a.
Proof.
  intros Hhead Hne Ha Htrim. unfold trim.
  rewrite trimStart_id.
  - apply trimEnd_append; [exact Ha | apply trim_fixed, Htrim].
  - destruct head as [|c head]; [discriminate Hne|]. exact Hhead.
Qed.

Lemma fieldOf_clean (head a : string) :
  includes head ":" = false -> cleanField a ->
  fieldOf (head +:+ ": " +:+ a) = Normal a.
Proof.
  intros Hhead (Hne & Htrim & Hcolon & _).
  change (head +:+ ": " +:+ a) with (head +:+ String ":" (String " " a)).
  rewrite (fieldOf_after_colon _ _ Hhead).
  rewrite split_none by (apply includes_char_intro; [discriminate | exact Hcolon]).
  cbn [hd]. unfold trim. cbn [trimStart isWhiteSpace]. f_equal. exact Htrim.
Qed.

(** One delegation in the plan format: from any loop state, the parser
    commits what was pending and holds the delegation as the pending one. *)
Lemma parseLoop_planLines (d : Delegation) cur delegations :
  cleanDelegation d ->
  parseLoop (planLines d) (cur, delegations)
  = Normal (mkPartial (Some (agent d)) (Some (task d)), pushIfComplete cur delegations).
Proof.
  intros [Ha Ht]. unfold planLines. cbn [parseLoop].
  rewrite parseLine_other by reflexivity. cbn [bind].
  assert (Hla : trim ("- agent: " +:+ agent d) = "- agent: " +:+ agent d).
  { destruct Ha as (? & ? & _). apply trim_field_line; auto; reflexivity. }
  assert (Hlt : trim ("- task: " +:+ task d) = "- task: " +:+ task d).
  { destruct Ht as (? & ? & _). apply trim_field_line; auto; reflexivity. }
  assert (Hsa : startsWith ("- agent: " +:+ agent d) "- agent:" = true)
    by exact (startsWith_prefix "- agent:" (" " +:+ agent d)).
  assert (Hst : startsWith ("- task: " +:+ task d) "- task:" = true)
    by exact (startsWith_prefix "- task:" (" " +:+ task d)).
  assert (Hfa : fieldOf ("- agent: " +:+ agent d) = Normal (agent d))
    by exact (fieldOf_clean "- agent" (agent d) eq_refl Ha).
  assert (Hft : fieldOf ("- task: " +:+ task d) = Normal (task d))
    by exact (fieldOf_clean "- task" (task d) eq_refl Ht).
  unfold parseLine at 1. rewrite Hla, Hsa, Hfa. cbn [bind].
  unfold parseLine. rewrite Hlt, Hst, Hft.
  replace (startsWith ("- task: " +:+ task d) "- agent:") with false by reflexivity.
  destruct Ha as (Hne & _). cbn [p_agent present]. rewrite Hne. reflexivity.
Qed.

Lemma parseLoop_plan (delegations : list Delegation) : forall cur acc,
  Forall cleanDelegation delegations ->
  exists st, parseLoop (flat_map planLines delegations) (cur, acc) = Normal st /\
             pushIfComplete (fst st) (snd st) = pushIfComplete cur acc ++ delegations.
Proof.
  induction delegations as [|d ds IH]; intros cur acc Hclean.
  - exists (cur, acc). rewrite app_nil_r. auto.
  - inversion Hclean as [|? ? Hd Hds]; subst.
    cbn [flat_map]. rewrite parseLoop_app, (parseLoop_planLines d cur acc Hd). cbn [bind].
    destruct (IH (mkPartial (Some (agent d)) (Some (task d))) (pushIfComplete cur acc) Hds)
      as (st & Hloop & Hpush).
    exists st. split; [exact Hloop|]. rewrite Hpush.
    destruct Hd as [(Hna & _) (Hnt & _)].
    unfold pushIfComplete at 1. cbn [p_agent p_task]. rewrite Hna, Hnt. cbn [andb].
    rewrite <- app_assoc. destruct d. reflexivity.
Qed.

Lemma planLines_no_break (d : Delegation) :
  cleanDelegation d -> Forall (fun l => includes l nl = false) (planLines d).
Proof.
  intros [(_ & _ & _ & Ha) (_ & _ & _ & Ht)]. unfold planLines.
  repeat constructor; apply (includes_char_app "010"); auto.
Qed.

(** Round trip: a plan written in the format of the router's instruction,
    with clean fields, parses back to its delegations, in order. *)
Theorem parse_planText (delegations : list Delegation) :
  Forall cleanDelegation delegations ->
  parseDelegations (planText delegations) = Normal delegations.
Proof.
  intros Hclean. unfold parseDelegations, planText.
  assert (Hlines : split "010" (String.concat nl (flat_map planLines delegations))
                   = match delegations with
                     | [] => [""]
                     | _ => flat_map planLines delegations
                     end).
  { destruct delegations as [|d ds]; [reflexivity|].
    cbn [flat_map planLines app]. apply (split_concat "010").
    change (Forall (fun l => includes l nl = false) (flat_map planLines (d :: ds))).
    apply Forall_flat_map. eapply Forall_impl; [exact Hclean|].
    intros d' Hd'. apply planLines_no_break, Hd'. }
  rewrite Hlines. destruct delegations as [|d ds]; [reflexivity|].
  unfold parseLines.
  destruct (parseLoop_plan (d :: ds) (mkPartial None None) [] Hclean) as (st & -> & Hpush).
  cbn [bind]. rewrite Hpush. reflexivity.
Qed.

Lemma parse_planText_witness :
  parseDelegations
    (planText [mkDelegation "coder" "write the parser"; mkDelegation "tester" "run it"])
  = Normal [mkDelegation "coder" "write the parser"; mkDelegation "tester" "run it"].
Proof.
  apply parse_planText. repeat constructor.
Defined.

End RouterMoreFacts.

(** ** The fallback, the synthesis prompt and the base agent, continued *)

Module AgentMoreFacts.
Import Js JsFacts Router RouterFacts Specs.

(** The fallback plan has one to three delegations, each of the whole task
    text, to "coder", "reviewer" and "researcher" in that order, none of
    them twice; each of these is a worker of a new orchestrator. *)
Theorem simpleDelegate_shape (userTask : string) (client : BaseAgent.Client) :
  let delegations := simpleDelegate userTask in
  1 <= length delegations <= 3 /\
  Forall (fun d => task d = userTask) delegations /\
  sublist (map agent delegations) ["coder"; "reviewer"; "researcher"] /\
  Forall (fun d => is_Some (Swarm.workers (Swarm.new client) !! agent d)) delegations.
Proof.
  unfold simpleDelegate.
  destruct (someIncluded codeWords _), (someIncluded reviewWords _),
    (someIncluded researchWords _); cbn;
    (split; [lia|]); (split; [repeat constructor|]);
    (split; [repeat (first [apply sublist_nil | apply sublist_skip | apply sublist_cons])|]);
    repeat constructor; vm_compute; eauto.
Qed.

Lemma synthesisEntries_ext (delegations : list Delegation) : forall i r1 r2 acc,
  (forall j, i <= j < i + length delegations -> resultOr r1 j = resultOr r2 j) ->
  synthesisEntries i delegations r1 acc = synthesisEntries i delegations r2 acc.
Proof.
  induction delegations as [|d ds IH]; intros i r1 r2 acc H; [reflexivity|].
  cbn [synthesisEntries]. rewrite (H i) by (cbn; lia).
  apply IH. intros j Hj. apply H. cbn. lia.
Qed.

(** The synthesis prompt reads of the results only what it reports for each
    delegation: a missing result and an empty one both read "No result",
    and the results past the last delegation are not read. *)
Theorem synthesisPrompt_reads_reported (delegations : list Delegation) (r1 r2 : list string) :
  (forall i, i < length delegations -> resultOr r1 i = resultOr r2 i) ->
  synthesisPrompt delegations r1 = synthesisPrompt delegations r2.
Proof.
  intros H. unfold synthesisPrompt. f_equal.
  apply synthesisEntries_ext. intros j Hj. apply H. lia.
Qed.

Lemma synthesisPrompt_reads_reported_witness :
  synthesisPrompt [mkDelegation "coder" "a"; mkDelegation "reviewer" "b"] ["done"; ""]
  = synthesisPrompt [mkDelegation "coder" "a"; mkDelegation "reviewer" "b"]
      ["done"; "No result"; "left over"].
Proof.
  apply synthesisPrompt_reads_reported.
  intros [|[|i]] Hi; [reflexivity | reflexivity | cbn in Hi; lia].
Defined.

Lemma exchanges_app (h1 h2 : list BaseAgent.HistoryEntry) :
  exchanges h1 -> exchanges h2 -> exchanges (h1 ++ h2).
Proof. induction 1; intros H2; [exact H2|]. cbn. constructor. auto. Qed.

(** [execute] never changes the role, the system instruction or the client
    of the agent; it leaves the history as it is or appends one exchange,
    the task and the text it returns; and a history made of exchanges stays
    one. *)
Theorem execute_keeps_agent (remote : string -> Completion BaseAgent.GenerateResult)
    (a : BaseAgent.t) (userTask : string) (context : option (list Message.t)) :
  let a' := fst (BaseAgent.execute remote a userTask context) in
  let output := snd (BaseAgent.execute remote a userTask context) in
  BaseAgent.role a' = BaseAgent.role a /\
  BaseAgent.systemPrompt a' = BaseAgent.systemPrompt a /\
  BaseAgent.model a' = BaseAgent.model a /\
  (BaseAgent.conversationHistory a' = BaseAgent.conversationHistory a \/
   BaseAgent.conversationHistory a'
   = BaseAgent.conversationHistory a
     ++ [BaseAgent.mkEntry "user" userTask; BaseAgent.mkEntry "assistant" output]) /\
  (exchanges (BaseAgent.conversationHistory a) ->
   exchanges (BaseAgent.conversationHistory a')).
Proof.
  unfold BaseAgent.execute.
  destruct (BaseAgent.model a) as [client|] eqn:Hmodel; [|cbn; auto 6].
  destruct (BaseAgent.modelOutput _ _ _ _) as [output|e]; cbn; [|rewrite Hmodel; auto 6].
  repeat split; auto. intros H. apply exchanges_app; [exact H | repeat constructor].
Qed.

Lemma execute_keeps_agent_witness :
  exchanges
    (BaseAgent.conversationHistory
       (fst (BaseAgent.execute (fun _ => Throw "unused") (CoderAgent.new BaseAgent.DummyClient)
               "write X" None))).
Proof.
  destruct (execute_keeps_agent (fun _ => Throw "unused")
              (CoderAgent.new BaseAgent.DummyClient) "write X" None)
    as (_ & _ & _ & _ & Hkeeps).
  apply Hkeeps. constructor.
Defined.

End AgentMoreFacts.

(** ** The orchestrator, continued: what a run keeps *)

Module SwarmMoreFacts.
Import Js Router Swarm Specs RunSpecs SwarmFacts.

Lemma agentKept_refl (a : BaseAgent.t) : agentKept a a.
Proof. unfold agentKept. repeat split; auto. Qed.

Lemma agentKept_trans (a b c : BaseAgent.t) : agentKept a b -> agentKept b c -> agentKept a c.
Proof.
  unfold agentKept. intros (? & ? & ? & Hp1 & ?) (? & ? & ? & Hp2 & ?).
  repeat split; try congruence; [etransitivity; eassumption | auto].
Qed.

Lemma execute_agentKept (remote : string -> Completion BaseAgent.GenerateResult)
    (a : BaseAgent.t) (userTask : string) (context : option (list Message.t)) :
  agentKept a (fst (BaseAgent.execute remote a userTask context)).
Proof.
  unfold BaseAgent.execute.
  destruct (BaseAgent.model a) as [client|] eqn:Hmodel; [|apply agentKept_refl].
  destruct (BaseAgent.modelOutput _ _ _ _) as [output|e]; [|apply agentKept_refl].
  unfold agentKept. cbn. repeat split; auto.
  - apply prefix_app_r. reflexivity.
  - intros H. apply AgentMoreFacts.exchanges_app; [exact H | repeat constructor].
Qed.

Lemma stamped_nil (w : World) (first : nat) : stamped w first [].
Proof. reflexivity. Qed.

Lemma stamped_single (w : World) (first : nat) (m : Message.t) :
  Message.timestamp m = toISOString (wallClock w first) -> stamped w first [m].
Proof. unfold stamped. cbn. intros ->. reflexivity. Qed.

Lemma stamped_app (w : World) (first : nat) (a1 a2 : list Message.t) :
  stamped w first a1 -> stamped w (first + length a1) a2 -> stamped w first (a1 ++ a2).
Proof.
  unfold stamped. intros H1 H2.
  rewrite map_app, length_app, seq_app, map_app, H1, H2. reflexivity.
Qed.

(** A step that sends nothing. *)
Lemma advances_quiet (w : World) (r r' : Run) :
  messageBus (swarm r') = messageBus (swarm r) -> clockReads r' = clockReads r ->
  modelCalls r <= modelCalls r' ->
  agentKept (router (swarm r)) (router (swarm r')) ->
  (forall name,
      option_Forall2 agentKept (workers (swarm r) !! name) (workers (swarm r') !! name)) ->
  advances w r r'.
Proof.
  intros Hbus Hclock Hcalls Hrouter Hworkers. unfold advances.
  split; [|auto]. exists []. rewrite Hbus, app_nil_r, Hclock.
  split; [reflexivity|]. split; [apply stamped_nil | cbn; lia].
Qed.

Lemma workers_kept_refl (workers : gmap string BaseAgent.t) (name : string) :
  option_Forall2 agentKept (workers !! name) (workers !! name).
Proof. destruct (workers !! name); constructor. apply agentKept_refl. Qed.

Lemma advances_refl (w : World) (r : Run) : advances w r r.
Proof.
  apply advances_quiet; auto using agentKept_refl, workers_kept_refl.
Qed.

Lemma advances_trans (w : World) (r1 r2 r3 : Run) :
  advances w r1 r2 -> advances w r2 r3 -> advances w r1 r3.
Proof.
  intros ((a1 & Hm1 & Hs1 & Hc1) & Hn1 & Hr1 & Hw1) ((a2 & Hm2 & Hs2 & Hc2) & Hn2 & Hr2 & Hw2).
  split; [|split; [lia|split; [eapply agentKept_trans; eassumption|]]].
  - exists (a1 ++ a2). rewrite Hm2, Hm1, app_assoc, length_app.
    split; [reflexivity|]. split; [|lia].
    apply stamped_app; [exact Hs1|]. rewrite <- Hc1. exact Hs2.
  - intros name. specialize (Hw1 name). specialize (Hw2 name).
    destruct Hw1 as [x y Hxy|]; inversion Hw2; subst; constructor.
    eapply agentKept_trans; eassumption.
Qed.

Section Advance.
Variable w : World.

Lemma send_advances (fromAgent toAgent messageType content : string) (r : Run) :
  fst (send w fromAgent toAgent messageType content r) = Normal tt /\
  advances w r (snd (send w fromAgent toAgent messageType content r)).
Proof.
  split; [reflexivity|]. unfold send, advances.
  cbn [snd swarm messageBus router workers clockReads modelCalls MessageBus.send
       MessageBus.messages].
  split; [|split; [lia|split; [apply agentKept_refl | apply workers_kept_refl]]].
  eexists. split; [reflexivity|]. split; [apply stamped_single; reflexivity | cbn; lia].
Qed.

Lemma workerExecute_advances (agentName : string) (worker : BaseAgent.t)
    (agentTask : string) (context : list Message.t) (r : Run) :
  workers (swarm r) !! agentName = Some worker ->
  (exists result, fst (workerExecute w agentName worker agentTask context r) = Normal result) /\
  advances w r (snd (workerExecute w agentName worker agentTask context r)).
Proof.
  intros Hworker. unfold workerExecute.
  pose proof (execute_agentKept (genai w (modelCalls r)) worker agentTask (Some context))
    as Hkept.
  destruct (BaseAgent.execute _ worker agentTask _) as [worker' result].
  cbn [fst snd] in *. split; [eauto|].
  apply advances_quiet; cbn [swarm messageBus router workers clockReads modelCalls];
    auto using agentKept_refl.
  intros name. destruct (decide (agentName = name)) as [<-|Hne].
  - rewrite lookup_insert_eq, Hworker. constructor. exact Hkept.
  - rewrite lookup_insert_ne by exact Hne. apply workers_kept_refl.
Qed.

Lemma router_advances (r : Run) (router' : BaseAgent.t) :
  agentKept (router (swarm r)) router' ->
  advances w r (mkRun (mkSwarm (messageBus (swarm r)) router' (workers (swarm r)))
                      (clockReads r) (S (modelCalls r))).
Proof.
  intros Hkept.
  apply advances_quiet; cbn [swarm messageBus router workers clockReads modelCalls];
    auto using workers_kept_refl.
Qed.

Lemma analyzeAndDelegate_advances (userTask : string) (r : Run) :
  (exists delegations,
      fst (analyzeAndDelegate w userTask r) = Normal delegations /\ delegations <> []) /\
  advances w r (snd (analyzeAndDelegate w userTask r)).
Proof.
  unfold analyzeAndDelegate.
  destruct (RouterFacts.delegationsFrom_cases
              (snd (BaseAgent.execute (genai w (modelCalls r)) (router (swarm r)) userTask None))
              userTask) as (parsed & _ & Hplan).
  pose proof (execute_agentKept (genai w (modelCalls r)) (router (swarm r)) userTask None)
    as Hkept.
  unfold Router.analyzeAndDelegate.
  destruct (BaseAgent.execute _ (router (swarm r)) userTask None) as [router' analysis].
  cbn [fst snd] in *. split; [|apply router_advances, Hkept].
  eexists. split; [exact Hplan|].
  destruct parsed; [apply RouterFacts.simpleDelegate_nonempty | discriminate].
Qed.

Lemma synthesizeResults_advances (delegations : list Delegation) (results : list string)
    (r : Run) :
  (exists text, fst (synthesizeResults w delegations results r) = Normal text) /\
  advances w r (snd (synthesizeResults w delegations results r)).
Proof.
  unfold synthesizeResults, Router.synthesizeResults.
  pose proof (execute_agentKept (genai w (modelCalls r)) (router (swarm r))
                (synthesisPrompt delegations results) None) as Hkept.
  destruct (BaseAgent.execute _ (router (swarm r)) _ None) as [router' text].
  cbn [fst snd] in *. split; [eauto | apply router_advances, Hkept].
Qed.

Lemma getProperty_own_inv (obj : gmap string BaseAgent.t) (name : string) (a : BaseAgent.t) :
  getProperty obj name = Own a -> obj !! name = Some a.
Proof.
  unfold getProperty. destruct (obj !! name); [congruence|].
  destruct (bool_decide _); discriminate.
Qed.

Lemma delegate_advances (d : Delegation) (results : list string) (r : Run) :
  advances w r (snd (delegate w d results r)).
Proof.
  destruct (getProperty (workers (swarm r)) (agent d)) as [worker| |] eqn:Hprop.
  - apply getProperty_own_inv in Hprop.
    rewrite (delegate_own w r d results worker Hprop). cbn zeta. cbn [snd].
    pose proof (send_advances "router" (agent d) "task" (task d) r) as [_ H1].
    set (r1 := snd (send w "router" (agent d) "task" (task d) r)) in *.
    assert (Hw1 : workers (swarm r1) !! agent d = Some worker) by exact Hprop.
    pose proof (workerExecute_advances (agent d) worker (task d)
                  (MessageBus.getContextFor (busWithTask w r d) (agent d)) r1 Hw1) as [_ H2].
    unfold workerExecute in H2. subst r1. unfold send in H2.
    cbn [snd swarm messageBus router workers clockReads modelCalls] in H2.
    destruct (BaseAgent.execute _ worker (task d) _) as [worker' result] eqn:E.
    cbn [fst snd] in *.
    eapply advances_trans; [exact H1|]. eapply advances_trans; [exact H2|].
    match goal with
    | |- advances w ?r2 _ =>
        pose proof (send_advances (agent d) "router" "result" result r2) as [_ H3]
    end.
    exact H3.
  - rewrite (delegate_inherited w r d results Hprop).
    exact (proj2 (send_advances "router" (agent d) "task" (task d) r)).
  - rewrite (delegate_undefined w r d results Hprop).
    exact (proj2 (send_advances "router" (agent d) "task" (task d) r)).
Qed.

Lemma runDelegations_advances (delegations : list Delegation) : forall results r,
  advances w r (snd (runDelegations w delegations results r)).
Proof.
  induction delegations as [|d ds IH]; intros results r; [apply advances_refl|].
  cbn [runDelegations]. unfold bindM.
  pose proof (delegate_advances d results r) as Hd.
  destruct (delegate w d results r) as [[results'|e] r']; cbn [snd] in *; [|exact Hd].
  eapply advances_trans; [exact Hd | apply IH].
Qed.

Lemma execute_advances (userTask : string) (r : Run) :
  advances w r (snd (execute w userTask r)).
Proof.
  unfold execute, bindM.
  pose proof (analyzeAndDelegate_advances userTask r) as [_ H1].
  destruct (analyzeAndDelegate w userTask r) as [[ds|e] r1]; cbn [snd] in *; [|exact H1].
  pose proof (runDelegations_advances ds [] r1) as H2.
  destruct (runDelegations w ds [] r1) as [[results|e] r2]; cbn [snd] in *;
    [|eapply advances_trans; eassumption].
  pose proof (synthesizeResults_advances ds results r2) as [_ H3].
  eapply advances_trans; [exact H1|]. eapply advances_trans; eassumption.
Qed.

(** The names of the registry do not change, and neither does what the
    lookup of a name finds: a worker, an inherited value or nothing. *)
Lemma advances_lookup (r r' : Run) (name : string) :
  advances w r r' ->
  (workers (swarm r') !! name = None <-> workers (swarm r) !! name = None).
Proof.
  intros (_ & _ & _ & Hworkers). specialize (Hworkers name).
  inversion Hworkers; split; congruence.
Qed.

Lemma advances_inherited (r r' : Run) (d : Delegation) :
  advances w r r' -> (inheritedName r' d <-> inheritedName r d).
Proof.
  intros H. pose proof (advances_lookup r r' (agent d) H) as Hl.
  unfold inheritedName, getProperty.
  destruct (workers (swarm r) !! agent d), (workers (swarm r') !! agent d).
  - split; intros Hown; discriminate Hown.
  - destruct Hl as [Hl _]. specialize (Hl eq_refl). discriminate Hl.
  - destruct Hl as [_ Hl]. specialize (Hl eq_refl). discriminate Hl.
  - reflexivity.
Qed.

Lemma advances_registered (r r' : Run) (d : Delegation) :
  advances w r r' -> registered r' d = registered r d.
Proof.
  intros H. pose proof (advances_lookup r r' (agent d) H) as Hl.
  unfold registered.
  destruct (workers (swarm r) !! agent d), (workers (swarm r') !! agent d).
  - reflexivity.
  - destruct Hl as [Hl _]. specialize (Hl eq_refl). discriminate Hl.
  - destruct Hl as [_ Hl]. specialize (Hl eq_refl). discriminate Hl.
  - reflexivity.
Qed.

Lemma delegate_resolves (d : Delegation) (results : list string) (r : Run) :
  ~ inheritedName r d ->
  exists results' r', delegate w d results r = (Normal results', r').
Proof.
  unfold inheritedName. intros Hd.
  destruct (getProperty (workers (swarm r)) (agent d)) as [worker| |] eqn:Hprop.
  - apply getProperty_own_inv in Hprop.
    rewrite (delegate_own w r d results worker Hprop). cbn zeta. eauto.
  - congruence.
  - rewrite (delegate_undefined w r d results Hprop). eauto.
Qed.

Lemma runDelegations_resolves (delegations : list Delegation) : forall results r,
  Forall (fun d => ~ inheritedName r d) delegations ->
  exists results' r', runDelegations w delegations results r = (Normal results', r').
Proof.
  induction delegations as [|d ds IH]; intros results r H; [cbn; eauto|].
  inversion H as [|? ? Hd Hds]; subst. cbn [runDelegations]. unfold bindM.
  pose proof (delegate_advances d results r) as Hadv.
  destruct (delegate_resolves d results r Hd) as (results1 & r1 & E). rewrite E in *.
  cbn [snd] in Hadv. apply IH.
  eapply Forall_impl; [exact Hds|]. intros d' Hd' Hr1. apply Hd'.
  apply (advances_inherited r r1 d' Hadv), Hr1.
Qed.

Lemma runDelegations_rejects (delegations : list Delegation) : forall results r,
  Exists (inheritedName r) delegations ->
  fst (runDelegations w delegations results r)
  = Throw "TypeError: worker.execute is not a function".
Proof.
  induction delegations as [|d ds IH]; intros results r H; [inversion H|].
  cbn [runDelegations]. unfold bindM.
  destruct (getProperty (workers (swarm r)) (agent d)) as [worker| |] eqn:Hprop.
  - pose proof (delegate_advances d results r) as Hadv.
    destruct (delegate_resolves d results r ltac:(unfold inheritedName; congruence))
      as (results1 & r1 & E).
    rewrite E in *. cbn [snd] in Hadv. apply IH.
    inversion H as [? ? Hd|? ? Hds]; subst.
    + unfold inheritedName in Hd. congruence.
    + eapply Exists_impl; [exact Hds|]. intros d' Hd'.
      apply (advances_inherited r r1 d' Hadv), Hd'.
  - rewrite (delegate_inherited w r d results Hprop). reflexivity.
  - pose proof (delegate_advances d results r) as Hadv.
    rewrite (delegate_undefined w r d results Hprop) in *. cbn [snd] in Hadv. apply IH.
    inversion H as [? ? Hd|? ? Hds]; subst.
    + unfold inheritedName in Hd. congruence.
    + eapply Exists_impl; [exact Hds|]. intros d' Hd'.
      apply (advances_inherited r _ d' Hadv), Hd'.
Qed.

Lemma execute_outcome (userTask : string) (r : Run) (delegations : list Delegation)
    (r0 : Run) :
  analyzeAndDelegate w userTask r = (Normal delegations, r0) ->
  (Forall (fun d => ~ inheritedName r d) delegations ->
   exists text r', execute w userTask r = (Normal text, r')) /\
  (Exists (inheritedName r) delegations ->
   fst (execute w userTask r) = Throw "TypeError: worker.execute is not a function").
Proof.
  intros Hplan.
  pose proof (analyzeAndDelegate_advances userTask r) as [_ Hadv].
  rewrite Hplan in Hadv. cbn [snd] in Hadv. unfold execute, bindM. rewrite Hplan.
  split.
  - intros Hnone.
    destruct (runDelegations_resolves delegations [] r0) as (results & r1 & ->).
    { eapply Forall_impl; [exact Hnone|]. intros d Hd Hr0. apply Hd.
      apply (advances_inherited r r0 d Hadv), Hr0. }
    destruct (synthesizeResults_advances delegations results r1) as [[text Htext] _].
    destruct (synthesizeResults w delegations results r1) as [c r2]. cbn [fst] in Htext.
    subst c. eauto.
  - intros Hsome.
    pose proof (runDelegations_rejects delegations [] r0) as Hrej.
    destruct (runDelegations w delegations [] r0) as [[results|e] r1]; cbn [fst] in *.
    + discriminate Hrej. eapply Exists_impl; [exact Hsome|]. intros d Hd.
      apply (advances_inherited r r0 d Hadv), Hd.
    + assert (He : e = "TypeError: worker.execute is not a function").
      { enough (Hthrow : @Throw (list string) e
                         = Throw "TypeError: worker.execute is not a function")
          by (injection Hthrow as ->; reflexivity).
        apply Hrej. eapply Exists_impl; [exact Hsome|]. intros d Hd.
        apply (advances_inherited r r0 d Hadv), Hd. }
      subst e. reflexivity.
Qed.

Lemma registered_own (r : Run) (d : Delegation) (worker : BaseAgent.t) :
  workers (swarm r) !! agent d = Some worker -> registered r d = true.
Proof. unfold registered. intros ->. apply bool_decide_eq_true. eauto. Qed.

Lemma registered_undefined (r : Run) (d : Delegation) :
  getProperty (workers (swarm r)) (agent d) = Undefined -> registered r d = false.
Proof.
  unfold registered, getProperty. destruct (workers (swarm r) !! agent d); [discriminate|].
  intros _. apply bool_decide_eq_false. intros [? ?]. discriminate.
Qed.

(** One turn that completes: its result, its messages, its model call. *)
Lemma delegate_transcript (d : Delegation) (results : list string) (r : Run)
    (results' : list string) (r' : Run) :
  delegate w d results r = (Normal results', r') ->
  exists result,
    results' = results ++ [result] /\
    map summary (MessageBus.messages (messageBus (swarm r')))
    = map summary (MessageBus.messages (messageBus (swarm r))) ++ turnMessages r d result /\
    modelCalls r' = modelCalls r + (if registered r d then 1 else 0) /\
    router (swarm r') = router (swarm r).
Proof.
  destruct (getProperty (workers (swarm r)) (agent d)) as [worker| |] eqn:Hprop.
  - apply getProperty_own_inv in Hprop.
    rewrite (delegate_own w r d results worker Hprop). cbn zeta. intros [= <- <-].
    eexists. split; [reflexivity|]. unfold turnMessages.
    rewrite (registered_own r d worker Hprop).
    unfold afterWorker, busWithTask, MessageBus.send.
    cbn [swarm messageBus MessageBus.messages modelCalls router].
    rewrite !map_app, <- app_assoc. split; [reflexivity|]. split; [lia | reflexivity].
  - rewrite (delegate_inherited w r d results Hprop). discriminate.
  - rewrite (delegate_undefined w r d results Hprop). intros [= <- <-].
    eexists. split; [reflexivity|]. unfold turnMessages.
    rewrite (registered_undefined r d Hprop).
    unfold afterTask, busWithTask, MessageBus.send.
    cbn [swarm messageBus MessageBus.messages modelCalls router].
    rewrite map_app. split; [reflexivity|]. split; [lia | reflexivity].
Qed.

(** The loop, when it completes: one result for each delegation, the
    messages of the turns in order, one model call for each worker that ran. *)
Lemma runDelegations_transcript (delegations : list Delegation) :
  forall results r results' r',
  runDelegations w delegations results r = (Normal results', r') ->
  exists added,
    results' = results ++ added /\
    length added = length delegations /\
    map summary (MessageBus.messages (messageBus (swarm r')))
    = map summary (MessageBus.messages (messageBus (swarm r)))
      ++ concat (zip_with (turnMessages r) delegations added) /\
    modelCalls r' = modelCalls r + length (List.filter (registered r) delegations) /\
    router (swarm r') = router (swarm r).
Proof.
  induction delegations as [|d ds IH]; intros results r results' r' H.
  - injection H as <- <-. exists []. rewrite !app_nil_r. cbn. auto.
  - cbn [runDelegations] in H. unfold bindM in H.
    pose proof (delegate_advances d results r) as Hadv.
    destruct (delegate w d results r) as [[results1|e] r1] eqn:Hd; [|discriminate].
    cbn [snd] in Hadv.
    destruct (delegate_transcript _ _ _ _ _ Hd) as (result & -> & Hlog1 & Hcalls1 & Hrouter1).
    destruct (IH _ _ _ _ H) as (added & -> & Hlen & Hlog & Hcalls & Hrouter).
    exists (result :: added). rewrite <- app_assoc.
    split; [reflexivity|]. split; [cbn; lia|].
    split; [|split].
    + rewrite Hlog, Hlog1, <- app_assoc. cbn [zip_with concat]. do 2 f_equal.
      f_equal. apply zip_with_ext; try reflexivity.
      intros d' result'. unfold turnMessages.
      rewrite (advances_registered r r1 d' Hadv). reflexivity.
    + rewrite Hcalls, Hcalls1. cbn [List.filter].
      rewrite (List.filter_ext (registered r1) (registered r)
                 (fun d' => advances_registered r r1 d' Hadv)).
      destruct (registered r d); cbn [length]; lia.
    + congruence.
Qed.

Lemma execute_transcript (userTask : string) (r r0 : Run) (delegations : list Delegation)
    (text : string) (r' : Run) :
  analyzeAndDelegate w userTask r = (Normal delegations, r0) ->
  execute w userTask r = (Normal text, r') ->
  exists results,
    length results = length delegations /\
    map summary (MessageBus.messages (messageBus (swarm r')))
    = map summary (MessageBus.messages (messageBus (swarm r)))
      ++ concat (zip_with (turnMessages r) delegations results) /\
    modelCalls r' = modelCalls r + 2 + length (List.filter (registered r) delegations) /\
    text = snd (Router.synthesizeResults (genai w (modelCalls r' - 1)) (router (swarm r0))
                  delegations results).
Proof.
  intros Hplan Hrun.
  pose proof (analyzeAndDelegate_advances userTask r) as [_ Hadv].
  rewrite Hplan in Hadv. cbn [snd] in Hadv.
  assert (Hr0 : MessageBus.messages (messageBus (swarm r0))
                = MessageBus.messages (messageBus (swarm r)) /\
                modelCalls r0 = S (modelCalls r)).
  { unfold analyzeAndDelegate in Hplan.
    destruct (Router.analyzeAndDelegate _ _ _) as [router' plan].
    injection Hplan as _ <-. split; reflexivity. }
  destruct Hr0 as [Hlog0 Hcalls0].
  unfold execute, bindM in Hrun. rewrite Hplan in Hrun.
  destruct (runDelegations w delegations [] r0) as [[results|e] r1] eqn:Hloop; [|discriminate].
  destruct (runDelegations_transcript _ _ _ _ _ Hloop)
    as (added & Hres & Hlen & Hlog & Hcalls & Hrouter).
  cbn [app] in Hres. subst added.
  exists results. split; [exact Hlen|].
  unfold synthesizeResults in Hrun. rewrite Hrouter in Hrun.
  destruct (Router.synthesizeResults (genai w (modelCalls r1)) (router (swarm r0))
              delegations results) as [router' final] eqn:Hsyn.
  injection Hrun as <- <-. cbn [swarm messageBus modelCalls].
  split; [|split].
  - rewrite Hlog, Hlog0. f_equal. f_equal. apply zip_with_ext; try reflexivity.
    intros d' result'. unfold turnMessages.
    rewrite (advances_registered r r0 d' Hadv). reflexivity.
  - rewrite Hcalls, Hcalls0.
    rewrite (List.filter_ext (registered r0) (registered r)
               (fun d' => advances_registered r r0 d' Hadv)).
    lia.
  - replace (S (modelCalls r1) - 1) with (modelCalls r1) by lia.
    rewrite Hsyn. reflexivity.
Qed.

Lemma runs_advances (tasks : list string) : forall r, advances w r (runs w tasks r).
Proof.
  induction tasks as [|userTask tasks IH]; intros r; [apply advances_refl|].
  cbn [runs fold_left]. eapply advances_trans; [apply execute_advances | apply IH].
Qed.

(** With the dummy client an agent answers "[<role>] Task completed"
    whatever the prompt is. *)
Lemma dummy_router_execute (remote : string -> Completion BaseAgent.GenerateResult)
    (a : BaseAgent.t) (userTask : string) (context : option (list Message.t)) :
  BaseAgent.role a = "router" ->
  BaseAgent.model a = Some BaseAgent.DummyClient ->
  snd (BaseAgent.execute remote a userTask context) = "[router] Task completed" /\
  BaseAgent.role (fst (BaseAgent.execute remote a userTask context)) = "router" /\
  BaseAgent.model (fst (BaseAgent.execute remote a userTask context))
  = Some BaseAgent.DummyClient.
Proof.
  intros Hrole Hmodel.
  unfold BaseAgent.execute, BaseAgent.modelOutput, BaseAgent.generateContent.
  rewrite Hmodel, Hrole. cbn [bind BaseAgent.outputOf].
  replace (trim ("[" +:+ "router" +:+ "] Task completed")) with "[router] Task completed"
    by (vm_compute; reflexivity).
  cbn [fst snd BaseAgent.role BaseAgent.model]. auto.
Qed.

Lemma simpleDelegate_agents (userTask : string) :
  Forall (fun d => agent d ∈ ["coder"; "reviewer"; "researcher"]) (simpleDelegate userTask).
Proof.
  unfold simpleDelegate.
  destruct (someIncluded codeWords _), (someIncluded reviewWords _),
    (someIncluded researchWords _); cbn;
    repeat constructor.
Qed.

End Advance.

(** A run only appends to the message log, also when it rejects: the log
    afterwards is the log before followed by new messages, one for each
    reading of the clock, stamped with the ISO rendering of that reading. *)
Theorem execute_appends_to_log (w : World) (userTask : string) (r : Run) :
  exists added,
    getMessageLog (swarm (snd (execute w userTask r))) = getMessageLog (swarm r) ++ added /\
    map Message.timestamp added
    = map (fun k => toISOString (wallClock w k)) (seq (clockReads r) (length added)) /\
    clockReads (snd (execute w userTask r)) = clockReads r + length added.
Proof. exact (proj1 (execute_advances w userTask r)). Qed.

(** With a clock that does not step back, the messages that a run appends
    are in chronological order: a later message never has a smaller
    timestamp. *)
Theorem execute_log_chronological (w : World) (userTask : string) (r : Run)
    (added : list Message.t) (i j : nat) (m1 m2 : Message.t) :
  steadyClock w ->
  getMessageLog (swarm (snd (execute w userTask r))) = getMessageLog (swarm r) ++ added ->
  i <= j -> added !! i = Some m1 -> added !! j = Some m2 ->
  String.leb (Message.timestamp m1) (Message.timestamp m2) = true.
Proof.
  intros [Hmono Hyears] Hlog Hij H1 H2.
  destruct (execute_advances w userTask r) as ((added' & Hlog' & Hstamped & _) & _).
  unfold getMessageLog, MessageBus.getAllMessages in Hlog.
  rewrite Hlog' in Hlog. apply app_inv_head in Hlog. subst added'.
  unfold stamped in Hstamped.
  assert (Hstamp : forall k m, added !! k = Some m ->
            Message.timestamp m = toISOString (wallClock w (clockReads r + k))).
  { intros k m Hk.
    assert (Hk' : map Message.timestamp added !! k = Some (Message.timestamp m))
      by (rewrite list_lookup_fmap, Hk; reflexivity).
    rewrite Hstamped, list_lookup_fmap in Hk'.
    destruct (seq (clockReads r) (length added) !! k) as [n|] eqn:En; [|discriminate].
    apply lookup_seq in En as [-> _]. injection Hk' as <-. reflexivity. }
  rewrite (Hstamp i m1 H1), (Hstamp j m2 H2). unfold String.leb.
  rewrite DateFacts.toISOString_compare by apply Hyears.
  specialize (Hmono (clockReads r + i) (clockReads r + j) ltac:(lia)).
  destruct (Z.compare_spec (wallClock w (clockReads r + i)) (wallClock w (clockReads r + j)));
    [reflexivity | reflexivity | lia].
Qed.

Lemma execute_log_chronological_witness :
  String.leb "1970-01-01T00:00:01.000Z" "1970-01-01T00:00:01.003Z" = true.
Proof.
  apply (execute_log_chronological haltingClockWorld Scenarios.reviewTask
           (start (new BaseAgent.DummyClient))
           (getMessageLog (swarm (snd (execute haltingClockWorld Scenarios.reviewTask
                                         (start (new BaseAgent.DummyClient))))))
           0 3
           (Message.mk "router" "coder" "task" Scenarios.reviewTask "1970-01-01T00:00:01.000Z")
           (Message.mk "reviewer" "router" "result" "[reviewer] Task completed"
              "1970-01-01T00:00:01.003Z")).
  - split.
    + intros i j Hij. unfold haltingClockWorld. cbn [wallClock]. lia.
    + intros i. unfold Scenarios.fourDigitYear, haltingClockWorld.
      cbn [wallClock]. lia.
  - reflexivity.
  - lia.
  - vm_compute. reflexivity.
  - vm_compute. reflexivity.
Defined.

(** A run keeps the registry: the same names afterwards, and under each name
    and for the router an agent with the same role, instruction and client,
    whose history has only grown, by whole exchanges. *)
Theorem execute_keeps_registry (w : World) (userTask : string) (r : Run) :
  let r' := snd (execute w userTask r) in
  dom (workers (swarm r')) = dom (workers (swarm r)) /\
  agentKept (router (swarm r)) (router (swarm r')) /\
  forall name worker,
    workers (swarm r) !! name = Some worker ->
    exists worker', workers (swarm r') !! name = Some worker' /\ agentKept worker worker'.
Proof.
  destruct (execute_advances w userTask r) as (_ & _ & Hrouter & Hworkers).
  cbn zeta. split; [|split; [exact Hrouter|]].
  - apply set_eq. intros name. rewrite !elem_of_dom.
    specialize (Hworkers name). inversion Hworkers; split; intros [? ?]; eauto; congruence.
  - intros name worker Hw. specialize (Hworkers name). rewrite Hw in Hworkers.
    inversion Hworkers; subst. eauto.
Qed.

Lemma execute_keeps_registry_witness :
  exists worker',
    workers (swarm (snd (execute Scenarios.failingWorld "write X"
                           (start (new BaseAgent.GenAIClient))))) !! "coder" = Some worker' /\
    agentKept (CoderAgent.new BaseAgent.GenAIClient) worker'.
Proof.
  destruct (execute_keeps_registry Scenarios.failingWorld "write X"
              (start (new BaseAgent.GenAIClient))) as (_ & _ & Hworkers).
  apply Hworkers. vm_compute. reflexivity.
Defined.

(** [execute] resolves when no agent name of the plan is found on the
    prototype chain only, and rejects with the TypeError of the missing
    [execute] method when one is. *)
Theorem execute_rejects_on_inherited_names (w : World) (userTask : string) (r r0 : Run)
    (delegations : list Delegation) :
  analyzeAndDelegate w userTask r = (Normal delegations, r0) ->
  (Forall (fun d => ~ inheritedName r d) delegations ->
   exists text r', execute w userTask r = (Normal text, r')) /\
  (Exists (inheritedName r) delegations ->
   fst (execute w userTask r) = Throw "TypeError: worker.execute is not a function").
Proof. apply execute_outcome. Qed.

Lemma execute_rejects_on_inherited_names_witness :
  (exists text r',
      execute Scenarios.failingWorld "write X" (start (new BaseAgent.GenAIClient))
      = (Normal text, r')) /\
  fst (execute Scenarios.inheritedNameWorld "do it" (start (new BaseAgent.GenAIClient)))
  = Throw "TypeError: worker.execute is not a function".
Proof.
  split.
  - apply (execute_rejects_on_inherited_names Scenarios.failingWorld "write X"
             (start (new BaseAgent.GenAIClient))
             (snd (analyzeAndDelegate Scenarios.failingWorld "write X"
                     (start (new BaseAgent.GenAIClient))))
             [mkDelegation "coder" "write X"]).
    + vm_compute. reflexivity.
    + constructor; [|constructor]. unfold inheritedName. vm_compute. discriminate.
  - apply (execute_rejects_on_inherited_names Scenarios.inheritedNameWorld "do it"
             (start (new BaseAgent.GenAIClient))
             (snd (analyzeAndDelegate Scenarios.inheritedNameWorld "do it"
                     (start (new BaseAgent.GenAIClient))))
             [mkDelegation "constructor" "x"]).
    + vm_compute. reflexivity.
    + constructor. unfold inheritedName. vm_compute. reflexivity.
Defined.

(** A run that resolves leaves in the log, after what was there, the
    messages of the plan in order: for each delegation its task message
    from the router and, when the agent is a registered worker, the result
    message of that worker with the result reported for the delegation.  It
    makes one model call for the plan, one for each delegation to a
    registered worker and one for the synthesis, and the text it returns is
    the router's synthesis of the plan and these results. *)
Theorem execute_log_mirrors_plan (w : World) (userTask : string) (r r0 : Run)
    (delegations : list Delegation) (text : string) (r' : Run) :
  analyzeAndDelegate w userTask r = (Normal delegations, r0) ->
  execute w userTask r = (Normal text, r') ->
  exists results,
    length results = length delegations /\
    map summary (getMessageLog (swarm r'))
    = map summary (getMessageLog (swarm r))
      ++ concat (zip_with (turnMessages r) delegations results) /\
    modelCalls r' = modelCalls r + 2 + length (List.filter (registered r) delegations) /\
    text = snd (Router.synthesizeResults (genai w (modelCalls r' - 1)) (router (swarm r0))
                  delegations results).
Proof. apply execute_transcript. Qed.

Lemma execute_log_mirrors_plan_witness :
  exists results,
    length results = 2 /\
    map summary
      (getMessageLog
         (swarm (snd (execute Scenarios.failingWorld Scenarios.reviewTask
                        (start (new BaseAgent.DummyClient))))))
    = [] ++ concat (zip_with (turnMessages (start (new BaseAgent.DummyClient)))
                      [mkDelegation "coder" Scenarios.reviewTask;
                       mkDelegation "reviewer" Scenarios.reviewTask] results) /\
    modelCalls (snd (execute Scenarios.failingWorld Scenarios.reviewTask
                       (start (new BaseAgent.DummyClient))))
    = 0 + 2 + 2 /\
    "[router] Task completed"
    = snd (Router.synthesizeResults (genai Scenarios.failingWorld (4 - 1))
             (router (swarm (snd (analyzeAndDelegate Scenarios.failingWorld
                                    Scenarios.reviewTask
                                    (start (new BaseAgent.DummyClient))))))
             [mkDelegation "coder" Scenarios.reviewTask;
              mkDelegation "reviewer" Scenarios.reviewTask] results).
Proof.
  apply (execute_log_mirrors_plan Scenarios.failingWorld Scenarios.reviewTask
           (start (new BaseAgent.DummyClient))
           (snd (analyzeAndDelegate Scenarios.failingWorld Scenarios.reviewTask
                   (start (new BaseAgent.DummyClient))))
           [mkDelegation "coder" Scenarios.reviewTask;
            mkDelegation "reviewer" Scenarios.reviewTask]
           "[router] Task completed"
           (snd (execute Scenarios.failingWorld Scenarios.reviewTask
                   (start (new BaseAgent.DummyClient))))).
  - vm_compute. reflexivity.
  - vm_compute. reflexivity.
Defined.

(** A delegation to a name that is neither a worker nor a property that
    every object inherits costs no model call and changes no agent: its
    turn records the task message and the result
    "Error: Unknown agent '<name>'" at the position of the delegation, and
    the loop goes on with the remaining delegations. *)
Theorem unknown_agent_recorded (w : World) (pre : list Delegation) (d : Delegation)
    (post : list Delegation) (r0 : Run) (results1 : list string) (r1 : Run) :
  runDelegations w pre [] r0 = (Normal results1, r1) ->
  workers (swarm r1) !! agent d = None ->
  agent d ∉ objectPrototypeKeys ->
  let result := "Error: Unknown agent '" +:+ agent d +:+ "'" in
  let r2 := afterTask w r1 d in
  delegate w d results1 r1 = (Normal (results1 ++ [result]), r2) /\
  getMessageLog (swarm r2) = getMessageLog (swarm r1) ++ [taskMessage w r1 d] /\
  workers (swarm r2) = workers (swarm r1) /\
  router (swarm r2) = router (swarm r1) /\
  modelCalls r2 = modelCalls r1 /\
  runDelegations w (pre ++ d :: post) [] r0
  = runDelegations w post (results1 ++ [result]) r2 /\
  (forall results r3,
      runDelegations w post (results1 ++ [result]) r2 = (Normal results, r3) ->
      results !! length pre = Some result).
Proof.
  intros Hpre Hnone Hown result r2.
  assert (Hprop : getProperty (workers (swarm r1)) (agent d) = Undefined).
  { unfold getProperty. rewrite Hnone.
    rewrite bool_decide_eq_false_2 by exact Hown. reflexivity. }
  pose proof (delegate_undefined w r1 d results1 Hprop) as Hturn.
  split; [exact Hturn|]. split; [reflexivity|]. split; [reflexivity|].
  split; [reflexivity|]. split; [reflexivity|]. split.
  - rewrite runDelegations_app, Hpre. cbn [runDelegations]. unfold bindM.
    rewrite Hturn. reflexivity.
  - intros results r3 Hpost.
    destruct (runDelegations_appends w _ _ _ _ _ Hpre) as (added1 & Hres1 & Hlen1).
    cbn [app] in Hres1. subst added1.
    destruct (runDelegations_appends w _ _ _ _ _ Hpost) as (added & -> & _).
    rewrite <- app_assoc, lookup_app_r by lia.
    rewrite Hlen1, Nat.sub_diag. reflexivity.
Qed.

Lemma unknown_agent_recorded_witness :
  delegate Scenarios.failingWorld (mkDelegation "tester" "test it") []
    (start (new BaseAgent.GenAIClient))
  = (Normal ([] ++ ["Error: Unknown agent 'tester'"]),
     afterTask Scenarios.failingWorld (start (new BaseAgent.GenAIClient))
       (mkDelegation "tester" "test it")).
Proof.
  apply (unknown_agent_recorded Scenarios.failingWorld [] (mkDelegation "tester" "test it")
           [mkDelegation "coder" "then this"] (start (new BaseAgent.GenAIClient)) []
           (start (new BaseAgent.GenAIClient))).
  - reflexivity.
  - vm_compute. reflexivity.
  - vm_compute. intros H. repeat (apply elem_of_cons in H as [H|H]; [discriminate H|]).
    apply elem_of_nil in H. exact H.
Defined.

(** With the dummy client (test mode, or no credentials) a router never
    produces a plan of its own: the plan is the keyword fallback, and on an
    orchestrator that holds the three specialists the run resolves with
    "[router] Task completed", whatever the task, the clock and the earlier
    runs were. *)
Theorem dummy_router_run (w : World) (userTask : string) (r : Run) :
  BaseAgent.role (router (swarm r)) = "router" ->
  BaseAgent.model (router (swarm r)) = Some BaseAgent.DummyClient ->
  (forall name, name ∈ ["coder"; "reviewer"; "researcher"] ->
                is_Some (workers (swarm r) !! name)) ->
  fst (analyzeAndDelegate w userTask r) = Normal (simpleDelegate userTask) /\
  exists r', execute w userTask r = (Normal "[router] Task completed", r').
Proof.
  intros Hrole Hmodel Hworkers.
  destruct (dummy_router_execute (genai w (modelCalls r)) (router (swarm r)) userTask None
              Hrole Hmodel) as (Hanalysis & Hrole0 & Hmodel0).
  destruct (analyzeAndDelegate w userTask r) as [plan r0] eqn:Hplan.
  assert (Hplan' : plan = Normal (simpleDelegate userTask) /\
                   router (swarm r0)
                   = fst (BaseAgent.execute (genai w (modelCalls r)) (router (swarm r))
                            userTask None)).
  { unfold analyzeAndDelegate, Router.analyzeAndDelegate in Hplan.
    destruct (BaseAgent.execute _ (router (swarm r)) userTask None) as [router' analysis].
    cbn [fst snd] in *. subst analysis. injection Hplan as <- <-.
    split; reflexivity. }
  destruct Hplan' as [-> Hrouter0]. cbn [fst]. split; [reflexivity|].
  destruct (execute_outcome w userTask r (simpleDelegate userTask) r0 Hplan) as [Hres _].
  destruct Hres as (text & r' & Hrun).
  { eapply Forall_impl; [apply simpleDelegate_agents|].
    intros d Hd. unfold inheritedName, getProperty.
    destruct (Hworkers _ Hd) as [worker ->]. discriminate. }
  destruct (execute_transcript w userTask r r0 _ text r' Hplan Hrun)
    as (results & _ & _ & _ & ->).
  exists r'. rewrite Hrun. f_equal. f_equal. unfold Router.synthesizeResults.
  rewrite Hrouter0.
  apply dummy_router_execute; assumption.
Qed.

Lemma dummy_router_run_witness :
  exists r',
    execute Scenarios.failingWorld "tidy up" (start (new BaseAgent.DummyClient))
    = (Normal "[router] Task completed", r').
Proof.
  apply (dummy_router_run Scenarios.failingWorld "tidy up" (start (new BaseAgent.DummyClient))).
  - reflexivity.
  - reflexivity.
  - intros name Hname.
    repeat (apply elem_of_cons in Hname as [->|Hname]; [vm_compute; eauto|]).
    apply elem_of_nil in Hname. destruct Hname.
Defined.

Lemma new_workers_fresh (client : BaseAgent.Client) (name : string) (a : BaseAgent.t) :
  workers (new client) !! name = Some a -> BaseAgent.conversationHistory a = [].
Proof.
  unfold new. cbn [workers]. rewrite !lookup_insert_Some, lookup_empty.
  intros [[_ <-]|[_ [[_ <-]|[_ [[_ <-]|[_ H]]]]]]; try reflexivity. discriminate H.
Qed.

Lemma resetHistory_kept (a a' : BaseAgent.t) :
  BaseAgent.conversationHistory a = [] -> agentKept a a' -> BaseAgent.resetHistory a' = a.
Proof.
  intros Hfresh (Hrole & Hprompt & Hmodel & _). unfold BaseAgent.resetHistory.
  rewrite Hrole, Hprompt, Hmodel. destruct a; cbn in *. subst. reflexivity.
Qed.

Lemma reset_kept (fresh o : SwarmOrchestrator) :
  messageBus fresh = MessageBus.empty ->
  BaseAgent.conversationHistory (router fresh) = [] ->
  (forall name a, workers fresh !! name = Some a -> BaseAgent.conversationHistory a = []) ->
  agentKept (router fresh) (router o) ->
  (forall name, option_Forall2 agentKept (workers fresh !! name) (workers o !! name)) ->
  reset o = fresh.
Proof.
  destruct fresh as [bus0 router0 workers0], o as [bus router' workers'].
  cbn [messageBus router workers]. intros -> Hfresh Hfreshes Hrouter Hworkers.
  unfold reset. cbn [messageBus router workers]. f_equal.
  - apply resetHistory_kept; assumption.
  - apply map_eq. intros name. rewrite lookup_fmap. specialize (Hworkers name).
    inversion Hworkers as [a a' Hkept Ha Ha'|Ha Ha']; cbn; [|reflexivity].
    f_equal. apply resetHistory_kept; [|exact Hkept].
    apply (Hfreshes name). symmetry. exact Ha.
Qed.

(** [reset] undoes what runs leave behind: after any sequence of calls of
    [execute] on a new orchestrator, resolved or rejected, [reset] gives the
    new orchestrator back, with an empty log and agents without history. *)
Theorem reset_after_runs (w : World) (client : BaseAgent.Client) (tasks : list string) :
  reset (swarm (runs w tasks (start (new client)))) = new client.
Proof.
  destruct (runs_advances w tasks (start (new client))) as (_ & _ & Hrouter & Hworkers).
  apply reset_kept.
  - reflexivity.
  - reflexivity.
  - apply new_workers_fresh.
  - exact Hrouter.
  - exact Hworkers.
Qed.

End SwarmMoreFacts.

(** ** The life cycle of the MCP manager and its registry *)

Module McpMoreFacts.
Import Js McpClient McpLifecycle McpSpecs McpFacts.

Section Lifecycle.
Context {Args : Type}.
Implicit Types (m : MCPClientManager Args) (c : MCPServerConnection Args) (sdk : Sdk Args).

Lemma truthy_orElse (d x : string) : truthy x = true -> truthy (orElse d x) = true.
Proof. unfold orElse. destruct (truthy d) eqn:Hd; auto. Qed.

Lemma discoverTools_settled c (client : Session Args) :
  session c = Some client -> connected c = true -> error c = None -> tools c = [] ->
  settled (MCPServerConfig.name (config c)) (discoverTools c).
Proof.
  destruct c as [cfg ses tls con err]. cbn [session connected error tools config].
  intros -> -> -> ->. unfold discoverTools. cbn [session].
  destruct (listTools client) as [listed|e].
  - unfold settled. cbn [config connected session error tools app].
    split; [reflexivity|]. split; [eauto|].
    apply Forall_fmap, Forall_forall. intros tool _. cbn.
    split; [reflexivity|]. split; [reflexivity|].
    destruct (l_description tool); [apply truthy_orElse|]; reflexivity.
  - unfold settled. cbn [config connected session error tools]. repeat split; eauto.
Qed.

(** What [connectServer] stores is settled, whatever the SDK does. *)
Lemma connect_settled sdk (config : MCPServerConfig.t) :
  settled (MCPServerConfig.name config) (connect sdk config).
Proof.
  set (fresh := mkConnection (Args := Args) config None [] false None).
  assert (Hfailed : forall errorMessage,
             settled (MCPServerConfig.name config)
               (mkConnection (Args := Args) config None [] false (Some errorMessage))).
  { intros errorMessage. unfold settled. cbn. repeat split; eauto. }
  assert (Hestablished : forall client : Session Args,
             settled (MCPServerConfig.name config)
               (discoverTools (mkConnection config (Some client) [] true None))).
  { intros client.
    exact (discoverTools_settled (mkConnection config (Some client) [] true None) client
             eq_refl eq_refl eq_refl eq_refl). }
  unfold connect. fold fresh.
  destruct (String.eqb (MCPServerConfig.transport config) "stdio").
  { unfold connectStdio. destruct (importStdio sdk); [apply Hfailed|].
    cbn [McpClient.config fresh].
    destruct (negb (presentText (MCPServerConfig.command config))); [apply Hfailed|].
    destruct (connectStdioTransport sdk config); [|apply Hfailed].
    unfold established. cbn [connected session andb fresh McpClient.config tools error].
    rewrite bool_decide_eq_true_2 by eauto. apply Hestablished. }
  assert (Hhttp : settled (MCPServerConfig.name config)
                    (let '(connection, thrown) := connectHttp sdk fresh in
                     match thrown with
                     | None =>
                         if connected connection && bool_decide (is_Some (session connection))
                         then discoverTools connection else connection
                     | Some errorMessage =>
                         mkConnection (McpClient.config connection) (session connection)
                           (tools connection) (connected connection) (Some errorMessage)
                     end)).
  { unfold connectHttp. destruct (importHttp sdk); [apply Hfailed|].
    cbn [McpClient.config fresh].
    destruct (negb (presentText (MCPServerConfig.url config))); [apply Hfailed|].
    destruct (connectHttpTransport sdk config); [|apply Hfailed].
    unfold established. cbn [connected session andb fresh McpClient.config tools error].
    rewrite bool_decide_eq_true_2 by eauto. apply Hestablished. }
  destruct (String.eqb (MCPServerConfig.transport config) "http"
            || String.eqb (MCPServerConfig.transport config) "streamable-http");
    [exact Hhttp|].
  destruct (String.eqb (MCPServerConfig.transport config) "sse"); [exact Hhttp|].
  apply Hfailed.
Qed.

Lemma mapSet_keys {V : Type} (key : string) (value : V) (entries : list (string * V)) :
  map fst (mapSet key value entries)
  = if bool_decide (key ∈ map fst entries) then map fst entries
    else map fst entries ++ [key].
Proof.
  induction entries as [|[k v] rest IH]; [reflexivity|]. cbn [mapSet map fst].
  destruct (String.eqb_spec k key) as [->|Hne].
  - rewrite bool_decide_eq_true_2 by left. reflexivity.
  - cbn [map fst]. rewrite IH.
    destruct (decide (key ∈ map fst rest)) as [Hin|Hout].
    + rewrite !bool_decide_eq_true_2; [reflexivity | right; exact Hin | exact Hin].
    + rewrite !bool_decide_eq_false_2; [reflexivity | | exact Hout].
      intros [Heq|Hin]%elem_of_cons; [congruence | contradiction].
Qed.

Lemma mapSet_absent {V : Type} (key : string) (value : V) (entries : list (string * V)) :
  key ∉ map fst entries -> mapSet key value entries = entries ++ [(key, value)].
Proof.
  induction entries as [|[k v] rest IH]; intros Hout; [reflexivity|]. cbn [mapSet].
  destruct (String.eqb_spec k key) as [->|Hne].
  - exfalso. apply Hout. left.
  - cbn [app]. f_equal. apply IH. intros Hin. apply Hout. right. exact Hin.
Qed.

Lemma mapSet_Forall {V : Type} (P : string * V -> Prop) (key : string) (value : V)
    (entries : list (string * V)) :
  P (key, value) -> Forall P entries -> Forall P (mapSet key value entries).
Proof.
  intros Hnew. induction 1 as [|[k v] rest Hhead Hrest IH]; cbn [mapSet].
  - repeat constructor. exact Hnew.
  - destruct (String.eqb_spec k key) as [->|Hne]; constructor; auto.
Qed.

Lemma mapSet_NoDup {V : Type} (key : string) (value : V) (entries : list (string * V)) :
  NoDup (map fst entries) -> NoDup (map fst (mapSet key value entries)).
Proof.
  intros Hnodup. rewrite mapSet_keys.
  destruct (decide (key ∈ map fst entries)) as [Hin|Hout].
  - rewrite bool_decide_eq_true_2 by exact Hin. exact Hnodup.
  - rewrite bool_decide_eq_false_2 by exact Hout.
    apply NoDup_app. split; [exact Hnodup|]. split; [|apply NoDup_singleton].
    intros k Hk ->%list_elem_of_singleton. contradiction.
Qed.

Lemma connectServer_sound sdk m (config : MCPServerConfig.t) :
  sound m -> sound (connectServer sdk m config).
Proof.
  intros [Hnodup Hall]. split; cbn [connectServer servers].
  - apply mapSet_NoDup, Hnodup.
  - apply mapSet_Forall; [apply connect_settled | exact Hall].
Qed.

Lemma connectAll_sound (sdks : nat -> Sdk Args) (configs : list MCPServerConfig.t) :
  forall k m, sound m -> sound (connectAll sdks k configs m).
Proof.
  induction configs as [|config rest IH]; intros k m Hm; [exact Hm|].
  cbn [connectAll]. apply IH, connectServer_sound, Hm.
Qed.

Lemma connectAll_fields (sdks : nat -> Sdk Args) (configs : list MCPServerConfig.t) :
  forall k m,
  configPath (connectAll sdks k configs m) = configPath m /\
  toolPrefix (connectAll sdks k configs m) = toolPrefix m /\
  initialized (connectAll sdks k configs m) = initialized m.
Proof.
  induction configs as [|config rest IH]; intros k m; [auto|].
  cbn [connectAll]. destruct (IH (S k) (connectServer (sdks k) m config)) as (-> & -> & ->).
  auto.
Qed.

(** With names that are new and distinct, the loop appends one connection
    for each configuration, in order. *)
Lemma connectAll_fresh (sdks : nat -> Sdk Args) (configs : list MCPServerConfig.t) :
  forall k m,
  NoDup (map MCPServerConfig.name configs) ->
  (forall name, name ∈ map MCPServerConfig.name configs -> name ∉ map fst (servers m)) ->
  servers (connectAll sdks k configs m)
  = servers m
    ++ imap (fun i config => (MCPServerConfig.name config, connect (sdks (k + i)) config))
         configs.
Proof.
  induction configs as [|config rest IH]; intros k m Hnodup Hnew.
  - cbn. rewrite app_nil_r. reflexivity.
  - cbn [connectAll]. cbn [map] in Hnodup, Hnew. apply NoDup_cons in Hnodup as [Hhead Hrest].
    rewrite IH; [| exact Hrest |].
    + cbn [connectServer servers]. rewrite mapSet_absent by (apply Hnew; left).
      rewrite <- app_assoc. cbn [app imap]. rewrite Nat.add_0_r. do 2 f_equal.
      apply imap_ext. intros i config' _. unfold compose.
      replace (k + S i) with (S k + i) by lia. reflexivity.
    + intros name Hname. cbn [connectServer servers].
      rewrite mapSet_keys, bool_decide_eq_false_2 by (apply Hnew; left).
      rewrite elem_of_app, list_elem_of_singleton. intros [Hin| ->].
      * apply (Hnew name); [right; exact Hname | exact Hin].
      * contradiction.
Qed.

Lemma getAllTools_fold (entries : list (string * MCPServerConnection Args)) :
  forall (allTools : list MCPTool.t) (tool : MCPTool.t),
  tool ∈ fold_left
           (fun allTools entry =>
              if connected (snd entry) then allTools ++ tools (snd entry) else allTools)
           entries allTools
  <-> tool ∈ allTools \/
      exists entry, entry ∈ entries /\ connected (snd entry) = true /\ tool ∈ tools (snd entry).
Proof.
  induction entries as [|entry rest IH]; intros allTools tool; cbn [fold_left].
  - split; [auto|]. intros [H|(entry & Hin & _)]; [exact H | inversion Hin].
  - rewrite IH. destruct (connected (snd entry)) eqn:Hc.
    + rewrite elem_of_app. split.
      * intros [[H|H]|(entry' & Hin & Hc' & Ht)]; eauto.
        -- right. exists entry. split; [left | auto].
        -- right. exists entry'. split; [right; exact Hin | auto].
      * intros [H|(entry' & [->|Hin]%elem_of_cons & Hc' & Ht)]; eauto.
    + split.
      * intros [H|(entry' & Hin & Hc' & Ht)]; eauto.
        right. exists entry'. split; [right; exact Hin | auto].
      * intros [H|(entry' & [->|Hin]%elem_of_cons & Hc' & Ht)]; eauto. congruence.
Qed.

(** The tools of [getAllTools] are those of the connected servers. *)
Lemma getAllTools_elem m (tool : MCPTool.t) :
  tool ∈ getAllTools m
  <-> exists entry, entry ∈ servers m /\ connected (snd entry) = true /\
                    tool ∈ tools (snd entry).
Proof.
  unfold getAllTools. rewrite getAllTools_fold. split; [|eauto].
  intros [H|H]; [inversion H | exact H].
Qed.

Lemma initialize_fresh (sdks : nat -> Sdk Args) (configs : list MCPServerConfig.t) m :
  initialized m = false -> servers m = [] -> configs <> [] ->
  NoDup (map MCPServerConfig.name configs) ->
  initialize sdks true configs m
  = mkManager (configPath m)
      (imap (fun k config => (MCPServerConfig.name config, connect (sdks k) config)) configs)
      (toolPrefix m) true.
Proof.
  intros Hinit Hservers Hconfigs Hnodup. unfold initialize. rewrite Hinit. cbn [negb].
  destruct configs as [|config rest]; [contradiction|]. cbn [length Nat.eqb].
  destruct (connectAll_fields sdks (config :: rest) 0 m) as (-> & -> & _).
  rewrite connectAll_fresh; [| exact Hnodup |].
  - rewrite Hservers. reflexivity.
  - rewrite Hservers. intros name _ Hin. inversion Hin.
Qed.

Lemma initialize_keeps_sound (sdks : nat -> Sdk Args) (mcpEnabled : bool)
    (configs : list MCPServerConfig.t) m :
  sound m -> sound (initialize sdks mcpEnabled configs m).
Proof.
  intros Hm. unfold initialize.
  destruct (initialized m); [exact Hm|]. destruct (negb mcpEnabled); [exact Hm|].
  destruct (length configs =? 0); [exact Hm|].
  exact (connectAll_sound sdks configs 0 m Hm).
Qed.

End Lifecycle.

Lemma threeServers_sound : sound threeServers.
Proof. apply initialize_keeps_sound. split; cbn; constructor. Qed.

(** Whatever the SDK does, [initialize] leaves every server settled: stored
    once, under the name of its configuration; either connected, with a
    session and no error, or not connected, with no session, no tools and
    the error message; and each tool carries the name of its server, a
    description, and its own name as the original one. *)
Theorem initialize_sound {Args : Type} (sdks : nat -> Sdk Args) (mcpEnabled : bool)
    (configs : list MCPServerConfig.t) (m : MCPClientManager Args) :
  sound m -> sound (initialize sdks mcpEnabled configs m).
Proof. apply initialize_keeps_sound. Qed.

Lemma initialize_sound_witness : sound threeServers.
Proof.
  apply (initialize_sound (fun _ => stdioOnlySdk) true [filesConfig; webConfig; localConfig]
           (new None "mcp_servers.json" "mcp_")).
  split; cbn; constructor.
Defined.

(** On a manager without servers, [initialize] with the integration enabled
    and configurations of distinct names stores one connection for each
    configuration, in the order of the configurations, and the connection of
    a configuration is what its own attempt comes to: a server that fails
    changes nothing for the others. *)
Theorem initialize_connects_each {Args : Type} (sdks : nat -> Sdk Args)
    (configs : list MCPServerConfig.t) (m : MCPClientManager Args) :
  initialized m = false -> servers m = [] -> configs <> [] ->
  NoDup (map MCPServerConfig.name configs) ->
  initialize sdks true configs m
  = mkManager (configPath m)
      (imap (fun k config => (MCPServerConfig.name config, connect (sdks k) config)) configs)
      (toolPrefix m) true.
Proof. apply initialize_fresh. Qed.

Lemma initialize_connects_each_witness :
  map (fun entry => (fst entry, connected (snd entry), length (tools (snd entry)),
                     error (snd entry)))
    (servers threeServers)
  = [("files", true, 2, None);
     ("web", false, 0, Some "fetch failed");
     ("local", false, 0, Some "stdio transport requires 'command' field")].
Proof.
  unfold threeServers.
  rewrite (initialize_connects_each (fun _ => stdioOnlySdk)
             [filesConfig; webConfig; localConfig] (new None "mcp_servers.json" "mcp_")).
  - reflexivity.
  - reflexivity.
  - reflexivity.
  - discriminate.
  - cbn. repeat constructor; cbn; intros H;
      repeat (apply elem_of_cons in H as [H|H]; [discriminate H|]); inversion H.
Defined.

(** [initialize] twice is [initialize] once, whatever the SDK does at the
    second call: a manager that is initialized is left alone, and a call
    that found the integration disabled or no configuration finds the same
    again. *)
Theorem initialize_idempotent {Args : Type} (sdks sdks' : nat -> Sdk Args) (mcpEnabled : bool)
    (configs : list MCPServerConfig.t) (m : MCPClientManager Args) :
  initialize sdks' mcpEnabled configs (initialize sdks mcpEnabled configs m)
  = initialize sdks mcpEnabled configs m.
Proof.
  unfold initialize.
  destruct (initialized m) eqn:Hinit; cbv beta iota.
  { rewrite Hinit. reflexivity. }
  destruct (negb mcpEnabled) eqn:Henabled; cbv beta iota.
  { rewrite Hinit. reflexivity. }
  destruct (length configs =? 0) eqn:Hempty; cbv beta iota.
  { rewrite Hinit. reflexivity. }
  reflexivity.
Qed.

(** [shutdown] empties the manager: afterwards [getAllTools] returns no tool
    and [getAllToolsAsCallables] an empty registry, and a later [initialize]
    (integration enabled, distinct names) builds the servers from the
    configurations alone, whatever the manager held before.  Nothing is said
    here of the callables that were handed out before the shutdown. *)
Theorem shutdown_then_initialize {Args : Type} (sdks : nat -> Sdk Args)
    (configs : list MCPServerConfig.t) (m : MCPClientManager Args) :
  configs <> [] -> NoDup (map MCPServerConfig.name configs) ->
  getAllTools (shutdown m) = [] /\
  getAllToolsAsCallables (shutdown m) = ∅ /\
  initialize sdks true configs (shutdown m)
  = mkManager (configPath m)
      (imap (fun k config => (MCPServerConfig.name config, connect (sdks k) config)) configs)
      (toolPrefix m) true.
Proof.
  intros Hconfigs Hnodup. split; [reflexivity|]. split; [reflexivity|].
  apply (initialize_fresh sdks configs (shutdown m)); auto.
Qed.

Lemma shutdown_then_initialize_witness :
  map fst (servers (initialize (fun _ => stdioOnlySdk) true [webConfig]
                      (shutdown threeServers)))
  = ["web"].
Proof.
  destruct (shutdown_then_initialize (fun _ => stdioOnlySdk) [webConfig] threeServers)
    as (_ & _ & ->).
  - discriminate.
  - cbn. repeat constructor. intros H. inversion H.
  - reflexivity.
Defined.

(** The registry of callables has exactly the derived names of the tools of
    [getAllTools] as its keys. *)
Theorem callables_keys {Args : Type} (m : MCPClientManager Args) (key : string) :
  is_Some (getAllToolsAsCallables m !! key)
  <-> exists tool, tool ∈ getAllTools m /\ getPrefixedName tool (toolPrefix m) = key.
Proof.
  unfold getAllToolsAsCallables.
  destruct (callables_lookup (toolPrefix m) key (servers m) ∅)
    as [(entry & tool & Hin & Hc & Ht & Hk & Hl) | [Hnone Hl]]; cbn zeta in *.
  - split; [|rewrite Hl; eauto]. intros _. exists tool. split; [|exact Hk].
    apply getAllTools_elem. eauto.
  - rewrite Hl, lookup_empty. split; [intros [? H]; discriminate H|].
    intros (tool & (entry & Hin & Hc & Ht)%getAllTools_elem & Hk).
    exfalso. exact (Hnone entry tool Hin Hc Ht Hk).
Qed.

(** In a manager whose servers are settled, every callable of the registry
    stands for a tool of a connected server that has a session, under the
    derived name of that tool: calling it goes to the server, with the
    original name of the tool, and what the server throws comes back as an
    error text. *)
Theorem callables_reach_their_server {Args : Type} (m : MCPClientManager Args)
    (key : string) (wrapper : ToolWrapper Args) (args : Args) :
  sound m ->
  getAllToolsAsCallables m !! key = Some wrapper ->
  key = getPrefixedName (w_tool wrapper) (toolPrefix m) /\
  (MCPTool.serverName (w_tool wrapper), w_connection wrapper) ∈ servers m /\
  w_tool wrapper ∈ tools (w_connection wrapper) /\
  connected (w_connection wrapper) = true /\
  exists client,
    session (w_connection wrapper) = Some client /\
    callWrapper wrapper args
    = match callTool client (MCPTool.originalName (w_tool wrapper)) args with
      | Normal result =>
          match content result with
          | Some items =>
              if 0 <? length (extractContents items [])
              then String.concat nl (extractContents items [])
              else "[object Object]"
          | None => "[object Object]"
          end
      | Throw error =>
          "Error calling MCP tool '" +:+ MCPTool.originalName (w_tool wrapper) +:+ "': "
          +:+ error
      end.
Proof.
  intros [_ Hall] Hlookup. unfold getAllToolsAsCallables in Hlookup.
  destruct (callables_lookup (toolPrefix m) key (servers m) ∅)
    as [(entry & tool & Hin & Hc & Ht & Hk & Hl) | [_ Hl]]; cbn zeta in *.
  - rewrite Hl in Hlookup. injection Hlookup as <-. cbn [w_tool w_connection].
    rewrite Forall_forall in Hall. destruct (Hall entry Hin) as (_ & Hstate & Htools).
    rewrite Forall_forall in Htools. destruct (Htools tool Ht) as (Hserver & _).
    rewrite Hc in Hstate. destruct Hstate as [[client Hsession] _].
    split; [auto|]. split; [rewrite Hserver; destruct entry; exact Hin|].
    split; [exact Ht|]. split; [exact Hc|].
    exists client. split; [exact Hsession|].
    unfold callWrapper. cbn [w_tool w_connection]. rewrite Hc, Hsession. reflexivity.
  - rewrite Hl, lookup_empty in Hlookup. discriminate.
Qed.

Lemma callables_reach_their_server_witness :
  callWrapper (createToolWrapper (connect stdioOnlySdk filesConfig)
                 (MCPTool.mk "write" "No description provided" "files" "{}" "write")) tt
  = "write".
Proof.
  destruct (callables_reach_their_server threeServers "mcp_files_write"
              (createToolWrapper (connect stdioOnlySdk filesConfig)
                 (MCPTool.mk "write" "No description provided" "files" "{}" "write")) tt)
    as (_ & _ & _ & _ & client & Hsession & Hcall).
  - exact threeServers_sound.
  - vm_compute. reflexivity.
  - rewrite Hcall. injection Hsession as <-. vm_compute. reflexivity.
Defined.

End McpMoreFacts.

(** ** The memory of the agent: entries, the context window, the file *)

Module MemoryFacts.
Import Js JsFacts JsMoreFacts MemoryManager MemorySpecs.

Lemma append_inked (a b : string) : inked b -> a +:+ b <> "".
Proof.
  intros Hb. destruct a as [|c a]; [|rewrite append_cons; discriminate].
  rewrite append_nil_l. intros ->. apply Hb. reflexivity.
Qed.

(** What precedes the last character that [trimEnd] keeps is kept. *)
Lemma trimEnd_append_inked (a b : string) :
  inked b -> trimEnd (a +:+ b) = a +:+ trimEnd b.
Proof.
  intros Hb. induction a as [|c a IH]; [reflexivity|].
  rewrite !append_cons, trimEnd_cons, IH.
  destruct (a +:+ trimEnd b) eqn:E; [|reflexivity].
  exfalso. revert E. apply append_inked. unfold inked. rewrite trimEnd_idem. exact Hb.
Qed.

Lemma inked_append (a b : string) : inked b -> inked (a +:+ b).
Proof.
  intros Hb. unfold inked. rewrite trimEnd_append_inked by exact Hb.
  apply append_inked. unfold inked. rewrite trimEnd_idem. exact Hb.
Qed.

Lemma inked_cons (c : ascii) (s : string) : isWhiteSpace c = false -> inked (String c s).
Proof.
  intros Hc. unfold inked. rewrite trimEnd_cons.
  destruct (trimEnd s); [rewrite Hc|]; discriminate.
Qed.

Lemma trim_inked (s : string) : inked s -> trim s <> "".
Proof.
  unfold inked, trim. induction s as [|c s IH]; [auto|].
  cbn [trimStart]. destruct (isWhiteSpace c) eqn:Hc; [|auto].
  intros H. apply IH. intros Hs. apply H. rewrite trimEnd_cons, Hs, Hc. reflexivity.
Qed.

Lemma trim_startsClean (s : string) : Specs.startsClean (trim s).
Proof. apply trimEnd_startsClean, trimStart_startsClean. Qed.

(** The line of the default summary for a message. *)
Lemma line_inked (role content : string) : inked (role +:+ ": " +:+ content).
Proof. apply inked_append. apply inked_cons. reflexivity. Qed.

Lemma concat_inked (line : string) (lines : list string) :
  Forall inked (line :: lines) -> inked (String.concat nl (line :: lines)).
Proof.
  revert line. induction lines as [|line' lines IH]; intros line H.
  - inversion H; subst. exact H2.
  - inversion H as [|? ? _ Hrest]; subst.
    change (String.concat nl (line :: line' :: lines))
      with (line +:+ nl +:+ String.concat nl (line' :: lines)).
    apply inked_append, inked_append, IH, Hrest.
Qed.

Lemma summary_lines (oldMessages : list MemoryEntry) : forall lines,
  fold_left
    (fun lines message =>
       lines ++ [orElse (role message) "unknown" +:+ ": " +:+ orElse (content message) ""])
    oldMessages lines
  = lines
    ++ map (fun message =>
              orElse (role message) "unknown" +:+ ": " +:+ orElse (content message) "")
         oldMessages.
Proof.
  induction oldMessages as [|m rest IH]; intros lines; cbn [fold_left map].
  - rewrite app_nil_r. reflexivity.
  - rewrite IH, <- app_assoc. reflexivity.
Qed.

(** A default summary of at least one message is never the summary it
    started from. *)
Lemma defaultSummarizer_differs (m : MemoryEntry) (rest : list MemoryEntry)
    (previousSummary : string) :
  trim (defaultSummarizer (m :: rest) previousSummary) <> previousSummary.
Proof.
  unfold defaultSummarizer. rewrite trim_idem, summary_lines.
  set (render := fun message : MemoryEntry =>
                   orElse (role message) "unknown" +:+ ": " +:+ orElse (content message) "").
  assert (Hlines : Forall inked (map render (m :: rest))).
  { apply Forall_fmap, Forall_forall. intros message _. apply line_inked. }
  destruct (truthy previousSummary) eqn:Hprev.
  - intros Heq. cbn [app] in Heq.
    assert (Hfixed : trim previousSummary = previousSummary).
    { rewrite <- Heq at 1. rewrite trim_idem. exact Heq. }
    rewrite Hfixed in Heq.
    change (String.concat nl (previousSummary :: map render (m :: rest)))
      with (previousSummary +:+ nl +:+ String.concat nl (map render (m :: rest))) in Heq.
    assert (Hclean : Specs.startsClean
                       (previousSummary +:+ nl +:+ String.concat nl (map render (m :: rest)))).
    { pose proof (trim_startsClean previousSummary) as Hc. rewrite Hfixed in Hc.
      destruct previousSummary; [discriminate Hprev | exact Hc]. }
    unfold trim in Heq. rewrite (trimStart_id _ Hclean) in Heq.
    rewrite trimEnd_append_inked in Heq
      by (apply inked_append, concat_inked, Hlines).
    apply (f_equal String.length) in Heq. rewrite DateFacts.length_append in Heq.
    assert (Hpos : 0 < String.length
                         (trimEnd (nl +:+ String.concat nl (map render (m :: rest))))).
    { destruct (trimEnd _) eqn:E; [|cbn; lia].
      exfalso. revert E. apply inked_append, concat_inked, Hlines. }
    lia.
  - destruct previousSummary; [|discriminate Hprev]. cbn [app].
    apply trim_inked, concat_inked, Hlines.
Qed.

Lemma relative_end (len : nat) (maxMessages : Z) :
  (1 <= maxMessages < Z.of_nat len)%Z ->
  relative len (- maxMessages) = len - Z.to_nat maxMessages /\ relative len 0 = 0.
Proof.
  intros H. unfold relative.
  destruct (Z.ltb_spec (- maxMessages) 0); [|lia].
  destruct (Z.ltb_spec 0 0); [lia|]. split; lia.
Qed.

(** Past the first two tests, with a history longer than [maxMessages], the
    entries handed to the summarizer and the recent ones are the two parts
    of the history. *)
Lemma slices_split (history : list MemoryEntry) (maxMessages : Z) :
  (1 <= maxMessages < Z.of_nat (length history))%Z ->
  slice history 0 (- maxMessages) = take (length history - Z.to_nat maxMessages) history /\
  sliceFrom history (- maxMessages) = drop (length history - Z.to_nat maxMessages) history.
Proof.
  intros H. unfold slice, sliceFrom.
  destruct (relative_end (length history) maxMessages H) as [-> ->].
  rewrite Nat.sub_0_r, drop_0. auto.
Qed.

Section Disk.
Variable writeFails : nat -> option string.

Lemma saveMemory_inSync (r : Run) :
  inSync (snd (saveMemory writeFails r)) /\
  manager (snd (saveMemory writeFails r)) = manager r /\
  writeCalls (snd (saveMemory writeFails r))
  = writeCalls r ++ [(summary (manager r), _memory (manager r))].
Proof.
  unfold saveMemory, inSync.
  destruct (writeFails (length (writeCalls r))); cbn [snd manager writeCalls];
    rewrite last_snoc; auto.
Qed.

Lemma getContextWindow_unfold (systemPrompt : string) (maxMessages : Z)
    (summarizer : option SummarizerFn) (r : Run) :
  truthy systemPrompt = true -> (1 <= maxMessages)%Z ->
  (maxMessages < Z.of_nat (length (_memory (manager r))))%Z ->
  let history := _memory (manager r) in
  let old := take (length history - Z.to_nat maxMessages) history in
  let recent := drop (length history - Z.to_nat maxMessages) history in
  let outcome :=
    match summarizer with
    | Some fn => fn old (summary (manager r))
    | None => Normal (Some (defaultSummarizer old (summary (manager r))))
    end in
  getContextWindow writeFails systemPrompt maxMessages summarizer r
  = match outcome with
    | Throw _ =>
        (Throw "TypeError: Summarizer must accept two arguments: (oldMessages, previousSummary).",
         r)
    | Normal None => (Throw "Error: Summarizer must return a string.", r)
    | Normal (Some newSummary) =>
        let r1 := mkRun (mk (memoryFile (manager r)) history (trim newSummary))
                    (writeCalls r) in
        let window :=
          mkMessage "system" systemPrompt
          :: mkMessage "system" ("Previous Summary: " +:+ trim newSummary)
          :: map toContext recent in
        if String.eqb (trim newSummary) (summary (manager r))
        then (Normal window, r1)
        else match fst (saveMemory writeFails r1) with
             | Throw error => (Throw error, snd (saveMemory writeFails r1))
             | Normal _ => (Normal window, snd (saveMemory writeFails r1))
             end
    end.
Proof.
  intros Hprompt Hmin Hlong history old recent outcome.
  unfold getContextWindow. rewrite Hprompt. cbn [negb].
  destruct (Z.ltb_spec maxMessages 1); [lia|].
  unfold getHistory. fold history.
  destruct (Z.leb_spec (Z.of_nat (length history)) maxMessages); [unfold history in *; lia|].
  destruct (slices_split history maxMessages ltac:(unfold history; lia)) as [-> ->].
  fold old recent.
  assert (Houtcome : match summarizer with
                     | Some fn => fn
                     | None => fun oldMessages previousSummary =>
                                 Normal (Some (defaultSummarizer oldMessages previousSummary))
                     end old (summary (manager r)) = outcome)
    by (unfold outcome; destruct summarizer; reflexivity).
  rewrite Houtcome. destruct outcome as [[newSummary|]|e]; try reflexivity.
  cbn [manager summary].
  destruct (String.eqb (trim newSummary) (summary (manager r))); cbn [negb].
  - reflexivity.
  - match goal with
    | |- context [saveMemory writeFails ?r1] =>
        destruct (saveMemory_inSync r1) as (_ & Hmanager & _);
        destruct (saveMemory writeFails r1) as [[[]|error] r2]
    end; cbn [fst snd] in *; [|reflexivity].
    rewrite Hmanager. reflexivity.
Qed.

End Disk.

(** [addEntry] appends, and writes each time: after any sequence of calls
    the history is the earlier history followed by the entries of the calls
    in order (with an empty object for missing metadata), the summary is
    unchanged, and [fs.writeFileSync] was called once for each call, with
    the summary and the history up to the entry of that call.  This holds
    also for the calls whose write throws. *)
Theorem addEntry_sequence (writeFails : nat -> option string)
    (calls : list (string * string * option string)) (r : Run) :
  let r' := addEntries writeFails calls r in
  getHistory (manager r') = getHistory (manager r) ++ map entryOf calls /\
  summary (manager r') = summary (manager r) /\
  writeCalls r'
  = writeCalls r
    ++ map (fun k => (summary (manager r),
                      getHistory (manager r) ++ take (S k) (map entryOf calls)))
         (seq 0 (length calls)).
Proof.
  cbn zeta. revert r. induction calls as [|[[role content] metadata] calls IH]; intros r.
  - cbn. rewrite !app_nil_r. auto.
  - cbn [addEntries fold_left].
    destruct (saveMemory_inSync writeFails
                (mkRun (mk (memoryFile (manager r))
                          (_memory (manager r) ++ [mkEntry role content (default "{}" metadata)])
                          (summary (manager r))) (writeCalls r)))
      as (_ & Hmanager & Hcalls).
    fold (addEntries writeFails calls (snd (addEntry writeFails role content metadata r))).
    destruct (IH (snd (addEntry writeFails role content metadata r))) as (Hh & Hs & Hw).
    unfold addEntry in *. unfold getHistory in *.
    rewrite Hh, Hs, Hw, Hmanager, Hcalls. cbn [manager _memory summary writeCalls].
    cbn [map entryOf length seq take]. rewrite <- !app_assoc. cbn [app].
    split; [reflexivity|]. split; [reflexivity|].
    f_equal. rewrite take_0. f_equal.
    rewrite <- seq_shift, map_map. apply map_ext. intros k.
    rewrite <- app_assoc. reflexivity.
Qed.

(** The window that [getContextWindow] returns starts with the system
    message, has at most [maxMessages + 2] messages, and ends with the last
    [maxMessages] entries of the history (all of them when there are no
    more), in order; the history itself is never changed.  A history that
    fits is returned whole and nothing else happens; otherwise the second
    message carries the new summary, which is trimmed. *)
Theorem context_window_shape (writeFails : nat -> option string) (systemPrompt : string)
    (maxMessages : Z) (summarizer : option SummarizerFn) (r : Run)
    (window : list ContextMessage) (r' : Run) :
  getContextWindow writeFails systemPrompt maxMessages summarizer r = (Normal window, r') ->
  let history := getHistory (manager r) in
  let recent := drop (length history - Z.to_nat maxMessages) history in
  truthy systemPrompt = true /\ (1 <= maxMessages)%Z /\
  getHistory (manager r') = history /\
  head window = Some (mkMessage "system" systemPrompt) /\
  (Z.of_nat (length window) <= maxMessages + 2)%Z /\
  map toContext recent `suffix_of` window /\
  ((Z.of_nat (length history) <= maxMessages)%Z ->
   window = mkMessage "system" systemPrompt :: map toContext history /\ r' = r) /\
  ((maxMessages < Z.of_nat (length history))%Z ->
   window = mkMessage "system" systemPrompt
            :: mkMessage "system" ("Previous Summary: " +:+ summary (manager r'))
            :: map toContext recent /\
   trim (summary (manager r')) = summary (manager r')).
Proof.
  intros Hrun history recent.
  destruct (truthy systemPrompt) eqn:Hprompt;
    [|unfold getContextWindow in Hrun; rewrite Hprompt in Hrun; discriminate].
  destruct (Z.ltb_spec maxMessages 1) as [Hsmall|Hmin].
  { unfold getContextWindow in Hrun. rewrite Hprompt in Hrun. cbn [negb] in Hrun.
    destruct (Z.ltb_spec maxMessages 1); [discriminate | lia]. }
  split; [reflexivity|]. split; [exact Hmin|].
  destruct (Z.leb_spec (Z.of_nat (length history)) maxMessages) as [Hfits|Hlong].
  - unfold getContextWindow in Hrun. rewrite Hprompt in Hrun. cbn [negb] in Hrun.
    destruct (Z.ltb_spec maxMessages 1); [lia|]. fold history in Hrun.
    destruct (Z.leb_spec (Z.of_nat (length history)) maxMessages); [|lia].
    injection Hrun as <- <-.
    assert (Hrecent : recent = history).
    { unfold recent. replace (length history - Z.to_nat maxMessages) with 0 by lia.
      apply drop_0. }
    rewrite Hrecent. split; [reflexivity|]. split; [reflexivity|].
    split; [cbn [length]; rewrite length_map; lia|].
    split; [apply suffix_cons_r; reflexivity|]. split; [auto | lia].
  - rewrite (getContextWindow_unfold writeFails systemPrompt maxMessages summarizer r
               Hprompt Hmin Hlong) in Hrun. cbn zeta in Hrun.
    fold history in Hrun. fold recent in Hrun.
    assert (Hlen : length recent = Z.to_nat maxMessages)
      by (unfold recent; rewrite length_drop; lia).
    assert (Hshape : forall newSummary r1,
               manager r1 = mk (memoryFile (manager r)) history (trim newSummary) ->
               (Normal (mkMessage "system" systemPrompt
                        :: mkMessage "system" ("Previous Summary: " +:+ trim newSummary)
                        :: map toContext recent), r1) = (Normal window, r') ->
               getHistory (manager r') = history /\
               head window = Some (mkMessage "system" systemPrompt) /\
               (Z.of_nat (length window) <= maxMessages + 2)%Z /\
               map toContext recent `suffix_of` window /\
               ((Z.of_nat (length history) <= maxMessages)%Z ->
                window = mkMessage "system" systemPrompt :: map toContext history /\ r' = r) /\
               ((maxMessages < Z.of_nat (length history))%Z ->
                window = mkMessage "system" systemPrompt
                         :: mkMessage "system" ("Previous Summary: " +:+ summary (manager r'))
                         :: map toContext recent /\
                trim (summary (manager r')) = summary (manager r'))).
    { intros newSummary r1 Hmanager [= <- <-]. rewrite Hmanager. cbn [getHistory _memory summary].
      split; [reflexivity|]. split; [reflexivity|].
      split; [cbn [length]; rewrite length_map; lia|].
      split; [do 2 apply suffix_cons_r; reflexivity|].
      split; [lia|]. intros _. split; [reflexivity | apply trim_idem]. }
    match type of Hrun with
    | match ?outcome with Normal _ => _ | Throw _ => _ end = _ =>
        destruct outcome as [[newSummary|]|e]; try discriminate Hrun
    end.
    destruct (String.eqb (trim newSummary) (summary (manager r))).
    + eapply Hshape; [|exact Hrun]. reflexivity.
    + match type of Hrun with
      | context [saveMemory writeFails ?r1] =>
          destruct (saveMemory_inSync writeFails r1) as (_ & Hmanager & _);
          destruct (fst (saveMemory writeFails r1)); [|discriminate Hrun]
      end.
      eapply Hshape; [|exact Hrun]. exact Hmanager.
Qed.

Lemma context_window_shape_witness :
  [mkMessage "system" "Be brief.";
   mkMessage "system" "Previous Summary: user: hello";
   mkMessage "assistant" "hi"; mkMessage "user" "sort this list"]
  = mkMessage "system" "Be brief."
    :: mkMessage "system"
         ("Previous Summary: "
          +:+ summary (manager (snd (getContextWindow writable "Be brief." 2 None
                                       threeEntries))))
    :: map toContext (drop (3 - Z.to_nat 2) (getHistory (manager threeEntries))).
Proof.
  destruct (context_window_shape writable "Be brief." 2 None threeEntries
              [mkMessage "system" "Be brief.";
               mkMessage "system" "Previous Summary: user: hello";
               mkMessage "assistant" "hi"; mkMessage "user" "sort this list"]
              (snd (getContextWindow writable "Be brief." 2 None threeEntries)))
    as (_ & _ & _ & _ & _ & _ & _ & Hlong).
  - vm_compute. reflexivity.
  - apply Hlong. cbn. lia.
Defined.

(** With the default summarizer, a call of [getContextWindow] on a history
    longer than [maxMessages] always changes the summary and always calls
    [fs.writeFileSync] with it: the old messages are folded into the summary
    again at every call, so that a second call with nothing new in between
    does not find the summary of the first. *)
Theorem default_summarizer_rewrites (writeFails : nat -> option string) (systemPrompt : string)
    (maxMessages : Z) (r : Run) :
  truthy systemPrompt = true ->
  (1 <= maxMessages < Z.of_nat (length (getHistory (manager r))))%Z ->
  let r' := snd (getContextWindow writeFails systemPrompt maxMessages None r) in
  summary (manager r') <> summary (manager r) /\
  writeCalls r' = writeCalls r ++ [(summary (manager r'), getHistory (manager r))].
Proof.
  intros Hprompt [Hmin Hlong]. unfold getHistory in *.
  rewrite (getContextWindow_unfold writeFails systemPrompt maxMessages None r
             Hprompt Hmin Hlong). cbn zeta.
  set (history := _memory (manager r)) in *.
  set (old := take (length history - Z.to_nat maxMessages) history).
  assert (Hold : exists m rest, old = m :: rest).
  { destruct old as [|m rest] eqn:E; [|eauto].
    apply (f_equal length) in E. unfold old in E. rewrite length_take in E. cbn in E. lia. }
  destruct Hold as (m & rest & Hold). rewrite Hold.
  pose proof (defaultSummarizer_differs m rest (summary (manager r))) as Hdiffers.
  destruct (String.eqb_spec (trim (defaultSummarizer (m :: rest) (summary (manager r))))
              (summary (manager r))) as [Heq|_]; [contradiction|].
  match goal with
  | |- context [saveMemory writeFails ?r1] =>
      destruct (saveMemory_inSync writeFails r1) as (_ & Hmanager & Hcalls);
      destruct (fst (saveMemory writeFails r1))
  end; cbn [snd]; rewrite Hmanager, Hcalls; cbn [manager summary _memory writeCalls]; auto.
Qed.

Lemma default_summarizer_rewrites_witness :
  summary (manager (snd (getContextWindow writable "Be brief." 2 None threeEntries)))
  <> summary (manager threeEntries).
Proof.
  apply (default_summarizer_rewrites writable "Be brief." 2 threeEntries).
  - reflexivity.
  - cbn. lia.
Defined.

(** When the file holds the state of the manager, a call of
    [getContextWindow] that returns leaves it so.  A call that throws either
    changed nothing, or threw what the write of the new summary threw: then
    the history is as before, but the manager holds a summary that the file
    does not. *)
Theorem getContextWindow_keeps_sync (writeFails : nat -> option string) (systemPrompt : string)
    (maxMessages : Z) (summarizer : option SummarizerFn) (r : Run) :
  persisted writeFails r ->
  let outcome := getContextWindow writeFails systemPrompt maxMessages summarizer r in
  match fst outcome with
  | Normal _ => persisted writeFails (snd outcome)
  | Throw error =>
      snd outcome = r \/
      (writeFails (length (writeCalls r)) = Some error /\
       _memory (manager (snd outcome)) = _memory (manager r) /\
       summary (manager (snd outcome)) <> summary (manager r) /\
       ~ persisted writeFails (snd outcome))
  end.
Proof.
  intros Hsync. cbn zeta.
  destruct (truthy systemPrompt) eqn:Hprompt;
    [|unfold getContextWindow; rewrite Hprompt; left; reflexivity].
  destruct (Z.ltb_spec maxMessages 1) as [Hsmall|Hmin].
  { unfold getContextWindow. rewrite Hprompt. cbn [negb].
    destruct (Z.ltb_spec maxMessages 1); [left; reflexivity | lia]. }
  destruct (Z.leb_spec (Z.of_nat (length (_memory (manager r)))) maxMessages) as [Hfits|Hlong].
  { unfold getContextWindow. rewrite Hprompt. cbn [negb].
    destruct (Z.ltb_spec maxMessages 1); [lia|]. unfold getHistory.
    destruct (Z.leb_spec (Z.of_nat (length (_memory (manager r)))) maxMessages); [|lia].
    exact Hsync. }
  rewrite (getContextWindow_unfold writeFails systemPrompt maxMessages summarizer r
             Hprompt Hmin Hlong). cbn zeta.
  match goal with
  | |- context [match ?outcome with Normal _ => _ | Throw _ => _ end] =>
      destruct outcome as [[newSummary|]|e]; try (left; reflexivity)
  end.
  destruct (String.eqb_spec (trim newSummary) (summary (manager r))) as [Heq|Hne].
  - cbn [fst snd]. destruct Hsync as (earlier & Hcalls & Hwrite).
    exists earlier. cbn [manager writeCalls summary _memory]. rewrite Heq. auto.
  - unfold saveMemory. cbn [manager writeCalls summary _memory].
    destruct (writeFails (length (writeCalls r))) as [error|] eqn:Hwrite; cbn [fst snd].
    + right. cbn [manager writeCalls summary _memory].
      split; [reflexivity|]. split; [reflexivity|]. split; [exact Hne|].
      intros (earlier & Hcalls & Hnone). cbn [manager writeCalls summary _memory] in Hcalls.
      apply app_inj_tail in Hcalls as [<- _]. congruence.
    + exists (writeCalls r). cbn [manager writeCalls summary _memory]. auto.
Qed.

Lemma getContextWindow_keeps_sync_witness :
  let r := addEntries fillsUp [("assistant", "done", None)] threeEntries in
  let outcome := getContextWindow fillsUp "Be brief." 1 None r in
  match fst outcome with
  | Normal _ => persisted fillsUp (snd outcome)
  | Throw error =>
      snd outcome = r \/
      (fillsUp (length (writeCalls r)) = Some error /\
       _memory (manager (snd outcome)) = _memory (manager r) /\
       summary (manager (snd outcome)) <> summary (manager r) /\
       ~ persisted fillsUp (snd outcome))
  end.
Proof.
  apply (getContextWindow_keeps_sync fillsUp "Be brief." 1 None
           (addEntries fillsUp [("assistant", "done", None)] threeEntries)).
  exists []. split; reflexivity.
Defined.

(** With the default summarizer, [getContextWindow] returns a window exactly
    when the system prompt is not empty, [maxMessages] is at least 1 and,
    for a history longer than [maxMessages], the write of the new summary
    goes through; it throws otherwise. *)
Theorem default_window_resolves (writeFails : nat -> option string) (systemPrompt : string)
    (maxMessages : Z) (r : Run) :
  (exists window r',
      getContextWindow writeFails systemPrompt maxMessages None r = (Normal window, r'))
  <-> truthy systemPrompt = true /\ (1 <= maxMessages)%Z /\
      ((maxMessages < Z.of_nat (length (getHistory (manager r))))%Z ->
       writeFails (length (writeCalls r)) = None).
Proof.
  unfold getHistory.
  destruct (truthy systemPrompt) eqn:Hprompt;
    [|unfold getContextWindow; rewrite Hprompt; split;
      [intros (? & ? & Hrun); discriminate Hrun | intros [Hnone _]; discriminate Hnone]].
  destruct (Z.ltb_spec maxMessages 1) as [Hsmall|Hmin].
  { unfold getContextWindow. rewrite Hprompt. cbn [negb].
    destruct (Z.ltb_spec maxMessages 1); [|lia].
    split; [intros (? & ? & Hrun); discriminate Hrun | intros (_ & Hone & _); lia]. }
  destruct (Z.leb_spec (Z.of_nat (length (_memory (manager r)))) maxMessages) as [Hfits|Hlong].
  { unfold getContextWindow. rewrite Hprompt. cbn [negb].
    destruct (Z.ltb_spec maxMessages 1); [lia|]. unfold getHistory.
    destruct (Z.leb_spec (Z.of_nat (length (_memory (manager r)))) maxMessages); [|lia].
    split; [|eauto]. intros _. split; [reflexivity|]. split; [exact Hmin | lia]. }
  rewrite (getContextWindow_unfold writeFails systemPrompt maxMessages None r
             Hprompt Hmin Hlong). cbn zeta.
  set (history := _memory (manager r)) in *.
  set (old := take (length history - Z.to_nat maxMessages) history).
  assert (Hold : exists m rest, old = m :: rest).
  { destruct old as [|m rest] eqn:E; [|eauto].
    apply (f_equal length) in E. unfold old in E. rewrite length_take in E. cbn in E. lia. }
  destruct Hold as (m & rest & Hold). rewrite Hold.
  pose proof (defaultSummarizer_differs m rest (summary (manager r))) as Hdiffers.
  destruct (String.eqb_spec (trim (defaultSummarizer (m :: rest) (summary (manager r))))
              (summary (manager r))) as [Heq|_]; [contradiction|].
  unfold saveMemory. cbn [manager writeCalls].
  destruct (writeFails (length (writeCalls r))) as [error|]; cbn [fst snd].
  - split; [intros (? & ? & Hrun); discriminate Hrun|]. intros (_ & _ & Hwrite).
    specialize (Hwrite Hlong). discriminate Hwrite.
  - split; [|eauto]. intros _. auto.
Qed.

(** [clearMemory] empties the history and the summary, also when its write
    throws, and calls [fs.writeFileSync] with the empty state; the context
    window that follows is the system message alone. *)
Theorem clearMemory_then_window (writeFails writeFails' : nat -> option string)
    (systemPrompt : string) (maxMessages : Z) (summarizer : option SummarizerFn) (r : Run) :
  truthy systemPrompt = true -> (1 <= maxMessages)%Z ->
  let r' := snd (clearMemory writeFails r) in
  getHistory (manager r') = [] /\ summary (manager r') = "" /\
  writeCalls r' = writeCalls r ++ [("", [])] /\
  getContextWindow writeFails' systemPrompt maxMessages summarizer r'
  = (Normal [mkMessage "system" systemPrompt], r').
Proof.
  intros Hprompt Hmin. cbn zeta.
  destruct (saveMemory_inSync writeFails
              (mkRun (mk (memoryFile (manager r)) [] "") (writeCalls r)))
    as (_ & Hmanager & Hcalls).
  unfold clearMemory.
  destruct (snd (saveMemory writeFails _)) as [m' calls].
  cbn [manager writeCalls _memory summary] in *. subst m' calls.
  unfold getHistory. cbn [manager _memory summary writeCalls].
  split; [reflexivity|]. split; [reflexivity|]. split; [reflexivity|].
  unfold getContextWindow. rewrite Hprompt. cbn [negb].
  destruct (Z.ltb_spec maxMessages 1); [lia|].
  unfold getHistory. cbn [manager _memory length].
  destruct (Z.leb_spec (Z.of_nat 0) maxMessages); [reflexivity | lia].
Qed.

Lemma clearMemory_then_window_witness :
  getContextWindow writable "Be brief." 10 None (snd (clearMemory diskFull threeEntries))
  = (Normal [mkMessage "system" "Be brief."], snd (clearMemory diskFull threeEntries)).
Proof.
  apply (clearMemory_then_window diskFull writable "Be brief." 10 None threeEntries).
  - reflexivity.
  - lia.
Defined.

End MemoryFacts.

(** ** The tools of the agent, continued *)

Module ToolMoreFacts.
Import Js JsFacts McpClient GeminiAgent TestTool.

(** Once [initializeMcp] has set the callables of the manager in
    [availableTools], a tool call under the name of a callable goes to that
    callable, also when a local tool had the name, and completes with what
    the callable returns, never with the text of a failed tool; a call
    under any other name is dispatched as before. *)
Theorem mcp_tools_shadow {Args : Type} (mcpTools : gmap string (ToolWrapper Args))
    (availableTools : gmap string (ToolFunction Args)) (toolName : string) (toolArgs : Args) :
  observe (loadMcpTools mcpTools availableTools) toolName toolArgs
  = match mcpTools !! toolName with
    | Some wrapper => Normal (callWrapper wrapper toolArgs)
    | None => observe availableTools toolName toolArgs
    end.
Proof.
  unfold observe, loadMcpTools, ToolFunction in *.
  destruct (mcpTools !! toolName) as [wrapper|] eqn:Hmcp.
  - rewrite (lookup_union_Some_l _ _ _ (ofWrapper wrapper))
      by (rewrite lookup_fmap, Hmcp; reflexivity).
    reflexivity.
  - rewrite lookup_union_r by (rewrite lookup_fmap, Hmcp; reflexivity). reflexivity.
Qed.

Lemma concat_units (text : string) : String.concat "" (units text) = text.
Proof.
  induction text as [|c rest IH]; [reflexivity|].
  destruct rest as [|c' rest']; [reflexivity|]. cbn [units] in *.
  change (String.concat "" (String c "" :: String c' "" :: units rest'))
    with (String c "" +:+ "" +:+ String.concat "" (String c' "" :: units rest')).
  rewrite IH. reflexivity.
Qed.

Lemma units_concat (pieces : list string) :
  Forall (fun piece => exists c, piece = String c "") pieces ->
  units (String.concat "" pieces) = pieces.
Proof.
  induction 1 as [|piece pieces [c ->] _ IH]; [reflexivity|].
  destruct pieces as [|piece' pieces'].
  - reflexivity.
  - change (String.concat "" (String c "" :: piece' :: pieces'))
      with (String c "" +:+ "" +:+ String.concat "" (piece' :: pieces')).
    rewrite append_cons, !append_nil_l. cbn [units]. f_equal. exact IH.
Qed.

Lemma units_single (text : string) :
  Forall (fun piece => exists c, piece = String c "") (units text).
Proof. induction text as [|c rest IH]; constructor; eauto. Qed.

(** [reverseText] undoes itself, and keeps the length of the text. *)
Theorem reverseText_involutive (text : string) :
  reverseText (reverseText text) = text /\
  String.length (reverseText text) = String.length text.
Proof.
  assert (Hunits : units (reverseText text) = rev (units text)).
  { unfold reverseText. apply units_concat.
    apply Forall_rev, units_single. }
  split.
  - unfold reverseText at 1. rewrite Hunits, rev_involutive. apply concat_units.
  - assert (Hlen : forall t, String.length t = length (units t)).
    { induction t as [|c t IH]; [reflexivity|]. cbn. f_equal. exact IH. }
    rewrite !Hlen, Hunits, length_rev. reflexivity.
Qed.

End ToolMoreFacts.
